(** * Bingo room server

    The card pool, the win evaluator, the number caller, the countdown and
    the message handlers of [top.js], and the deck generator of the deck
    file, embedded as pure functions over an explicit server state; then the
    properties proved of them. *)

From Stdlib Require Import ZArith QArith Qround Lia.
From stdpp Require Import base option list strings gmap.

Local Open Scope Z_scope.

(** ** Card data and the client format *)

(** An entry of [card.data]: a number, the string "FREE", [null] or
    [undefined] (the values [sliceToNums] distinguishes). *)
Inductive Cell : Type :=
  | CNum (n : Z)
  | CFree
  | CNull
  | CUndefined.

(** A card of [room.cards]: [{ id, data, takenBy }]. *)
Record Card : Type := mkCard {
  id : Z;
  data : list Cell;
  takenBy : option string
}.

(** The five column labels, in the order of the array [BINGO]. *)
Inductive Letter : Type := LB | LI | LN | LG | LO.

Definition BINGO : list Letter := [LB; LI; LN; LG; LO].

(** The client shape [{ B, I, N, G, O }]. *)
Record FCard : Type := mkFCard {
  colB : list Z;
  colI : list Z;
  colN : list Z;
  colG : list Z;
  colO : list Z
}.

(** [card[l]] *)
Definition col (card : FCard) (l : Letter) : list Z :=
  match l with
  | LB => colB card
  | LI => colI card
  | LN => colN card
  | LG => colG card
  | LO => colO card
  end.

(** [arr.slice(a, b)] for [0 <= a <= b]. *)
Definition slice {A : Type} (a b : nat) (arr : list A) : list A :=
  take (b - a) (drop a arr).

(** [(n === "FREE" || n === null || n === undefined) ? 0 : Number(n)] *)
Definition toNum (n : Cell) : Z :=
  match n with
  | CNum z => z
  | CFree | CNull | CUndefined => 0
  end.

Definition sliceToNums (arr : list Cell) : list Z := toNum <$> arr.

Definition formatCardForClient (card : Card) : FCard :=
  {| colB := sliceToNums (slice 0 5 (data card));
     colI := sliceToNums (slice 5 10 (data card));
     colN := sliceToNums (slice 10 15 (data card));
     colG := sliceToNums (slice 15 20 (data card));
     colO := sliceToNums (slice 20 25 (data card)) |}.

(** ** Win evaluator *)

(** [n === 0 || numbersCalled.includes(n)]; an out-of-range read
    ([undefined], here [None]) is neither. *)
Definition isMarked (numbersCalled : list Z) (n : option Z) : bool :=
  match n with
  | Some z => (z =? 0) || bool_decide (z ∈ numbersCalled)
  | None => false
  end.

Definition isLineMarked (numbersCalled : list Z) (line : list (option Z)) : bool :=
  forallb (isMarked numbersCalled) line.

(** [BINGO.map(l => card[l][row])] *)
Definition rowNums (card : FCard) (row : nat) : list (option Z) :=
  (fun l => col card l !! row) <$> BINGO.

(** [BINGO.map((l, i) => card[l][i])] *)
Definition diag1 (card : FCard) : list (option Z) :=
  imap (fun i l => col card l !! i) BINGO.

(** [BINGO.map((l, i) => card[BINGO[4 - i]][i])] *)
Definition diag2 (card : FCard) : list (option Z) :=
  imap (fun i _ => l' ← BINGO !! (4 - i)%nat; col card l' !! i) BINGO.

Definition checkBingo (card : FCard) (numbersCalled : list Z) : bool :=
  if existsb (fun l => isLineMarked numbersCalled (Some <$> col card l)) BINGO then true
  else if existsb (fun row => isLineMarked numbersCalled (rowNums card row)) (seq 0 5) then true
  else if isLineMarked numbersCalled (diag1 card) || isLineMarked numbersCalled (diag2 card) then true
  else false.

(** [card[BINGO[c]]] for a loop index [c] below 5. *)
Definition colAt (card : FCard) (c : nat) : list Z :=
  match BINGO !! c with Some l => col card l | None => [] end.

Definition extractWinningPattern (card : FCard) (numbersCalled : list Z)
  : option (list (nat * nat)) :=
  match find (fun c => isLineMarked numbersCalled (Some <$> colAt card c)) (seq 0 5) with
  | Some c => Some (imap (fun r _ => (r, c)) (colAt card c))
  | None =>
    match find (fun r => isLineMarked numbersCalled (rowNums card r)) (seq 0 5) with
    | Some r => Some (imap (fun c _ => (r, c)) (rowNums card r))
    | None =>
      if isLineMarked numbersCalled (diag1 card)
      then Some (imap (fun i _ => (i, i)) (diag1 card))
      else if isLineMarked numbersCalled (diag2 card)
      then Some (imap (fun i _ => (i, (4 - i)%nat)) (diag2 card))
      else None
    end
  end.

(** The twelve lines [checkBingo] and [extractWinningPattern] go through, in
    their order: the columns B to O, the rows 0 to 4 and the two diagonals. *)
Definition winLines (card : FCard) : list (list (option Z)) :=
  ((fun l => Some <$> col card l) <$> BINGO) ++ (rowNums card <$> seq 0 5)
  ++ [diag1 card; diag2 card].

(** ** Deck generation ([generateBingoCard]) *)

(** The [while (nums.size < 5)] loop of one column.  [draws] are the values
    [Math.floor(Math.random() * (max - min + 1))] of the successive
    iterations; the function yields [None] when they run out before the
    column is full. *)
Fixpoint fillColumn (min : Z) (draws : list Z) (nums : list Z)
  : option (list Z * list Z) :=
  if bool_decide (length nums < 5)%nat then
    match draws with
    | [] => None
    | r :: draws' =>
      let n := r + min in
      if bool_decide (n ∈ nums) then fillColumn min draws' nums
      else fillColumn min draws' (nums ++ [n])
    end
  else Some (nums, draws).

(** [{ B: [1, 15], I: [16, 30], N: [31, 45], G: [46, 60], O: [61, 75] }] *)
Definition columns : list (Z * Z) :=
  [(1, 15); (16, 30); (31, 45); (46, 60); (61, 75)].

Fixpoint fillColumns (cols : list (Z * Z)) (draws : list Z) (card : list Z)
  : option (list Z) :=
  match cols with
  | [] => Some card
  | (min, _) :: cols' =>
    match fillColumn min draws [] with
    | Some (nums, draws') => fillColumns cols' draws' (card ++ nums)
    | None => None
    end
  end.

(** [card[12] = 0] after the five columns are pushed. *)
Definition generateBingoCard (draws : list Z) : option (list Z) :=
  card ← fillColumns columns draws [];
  Some (<[12%nat := 0]> card).

(** ** The deck file ([generateUniqueCards], [areCardsEqual]) *)

(** [card1.every((num, idx) => num === card2[idx])] *)
Definition areCardsEqual (card1 card2 : list Z) : bool :=
  forallb (fun b : bool => b) (imap (fun idx num => bool_decide (card2 !! idx = Some num)) card1).

(** The [while (cards.length < count)] loop of [generateUniqueCards].
    [candidates] are the results of the successive calls of
    [generateBingoCard]; the function yields [None] when they run out before
    the deck is full. *)
Fixpoint generateUniqueCards (count : nat) (candidates : list (list Z)) (cards : list (list Z))
  : option (list (list Z)) :=
  if bool_decide (length cards < count)%nat then
    match candidates with
    | [] => None
    | newCard :: candidates' =>
      if existsb (fun c => areCardsEqual c newCard) cards
      then generateUniqueCards count candidates' cards
      else generateUniqueCards count candidates' (cards ++ [newCard])
    end
  else Some cards.

(** ** Server state *)

(** An entry of [ws.cards]: a formatted grid (pushed by [select_card],
    [start_game] and [startRoomCountdown]) or one of the room's own card
    objects, named by its id (stored by [join_room]). *)
Inductive SessionCard : Type :=
  | SFormatted (card : FCard)
  | SRoomCard (cardId : Z).

(** A websocket object: the fields the handlers read and write. *)
Record Socket : Type := mkSocket {
  ws_phone : option string;              (* ws.phone, undefined until set *)
  ws_cards : option (list SessionCard);  (* ws.cards, undefined until set *)
  ws_open : bool                         (* ws.readyState === WebSocket.OPEN *)
}.

(** A record of [db.data.players]. *)
Record User : Type := mkUser {
  phone : string;
  balance : Z;
  wins : Z
}.

(** An in-memory room.  The two timers are part of it: [gameInterval] is
    [Some availableNumbers] while the interval created by [startGame] is
    pending (carrying the array its callback closes over) and [None] once
    cleared; [countdown] is [Some countdownTime] while the countdown interval
    is pending (carrying its local counter) and [None] for [null]. *)
Record Room : Type := mkRoom {
  players : list nat;
  cards : list Card;
  gameStarted : bool;
  numbersCalled : list Z;
  cost : Z;
  jackpot : Z;
  gameInterval : option (list Z);
  countdown : option Z;
  countdownTime : Z;
  currentCountdown : Z;
  playerCards : gmap string (list Z)
}.

(** The process state: [rooms], every websocket object (a socket is named by
    its position), the connected sockets ([allClients], which [wss.clients]
    duplicates) and the player records of the store.  [db.read()] and
    [db.write()] keep [db.data] and the file equal around every handler, so
    one copy is kept. *)
Record State : Type := mkState {
  rooms : gmap string Room;
  sockets : list Socket;
  allClients : list nat;
  db_players : list User
}.

Record RoomStatus : Type := mkRoomStatus {
  st_players : nat;
  st_jackpot : Z;
  st_cost : Z;
  st_gameStarted : bool;
  st_calledNumbersCount : nat
}.

(** Outbound messages, by their [type]. *)
Inductive Msg : Type :=
  | MCardRejected (reason : string)
  | MCardSelected (roomId : string) (cardId : Z) (phone : string)
  | MCardTaken (roomId : string) (cardId : Z) (phone : string)
  | MInvalidBingo
  | MBingoWin (winnerPhone : string) (winningCard : FCard)
              (winningPattern : option (list (nat * nat)))
  | MGameEnd
  | MError (message : string)
  | MBalanceUpdate (newBalance : Z)
  | MShowCards (phase : string) (roomId : string) (cards : option (list SessionCard))
  | MCountdown (roomId : string) (timeLeft : Z)
  | MRoomCountdown (roomId : string) (timeLeft : Z)
  | MNumberCalled (number : Z) (calledNumbers : list Z)
  | MRoomStatusUpdate (room_status : gmap string RoomStatus)
  | MRoomJoined (roomId : string) (phone : string) (allCards : list (Z * option string)).

(** A sent message with the socket it was sent on. *)
Definition Sent : Type := nat * Msg.

(** Field updates. *)
Definition set_takenBy (t : option string) (c : Card) : Card :=
  {| id := id c; data := data c; takenBy := t |}.

Definition set_ws_cards (cs : option (list SessionCard)) (w : Socket) : Socket :=
  {| ws_phone := ws_phone w; ws_cards := cs; ws_open := ws_open w |}.

Definition set_ws_phone (p : option string) (w : Socket) : Socket :=
  {| ws_phone := p; ws_cards := ws_cards w; ws_open := ws_open w |}.

Definition set_balance (b : Z) (u : User) : User :=
  {| phone := phone u; balance := b; wins := wins u |}.

Definition set_wins (n : Z) (u : User) : User :=
  {| phone := phone u; balance := balance u; wins := n |}.

Definition set_players (ps : list nat) (r : Room) : Room :=
  {| players := ps; cards := cards r; gameStarted := gameStarted r;
     numbersCalled := numbersCalled r; cost := cost r; jackpot := jackpot r;
     gameInterval := gameInterval r; countdown := countdown r;
     countdownTime := countdownTime r; currentCountdown := currentCountdown r;
     playerCards := playerCards r |}.

Definition set_cards (cs : list Card) (r : Room) : Room :=
  {| players := players r; cards := cs; gameStarted := gameStarted r;
     numbersCalled := numbersCalled r; cost := cost r; jackpot := jackpot r;
     gameInterval := gameInterval r; countdown := countdown r;
     countdownTime := countdownTime r; currentCountdown := currentCountdown r;
     playerCards := playerCards r |}.

Definition set_gameStarted (b : bool) (r : Room) : Room :=
  {| players := players r; cards := cards r; gameStarted := b;
     numbersCalled := numbersCalled r; cost := cost r; jackpot := jackpot r;
     gameInterval := gameInterval r; countdown := countdown r;
     countdownTime := countdownTime r; currentCountdown := currentCountdown r;
     playerCards := playerCards r |}.

Definition set_numbersCalled (ns : list Z) (r : Room) : Room :=
  {| players := players r; cards := cards r; gameStarted := gameStarted r;
     numbersCalled := ns; cost := cost r; jackpot := jackpot r;
     gameInterval := gameInterval r; countdown := countdown r;
     countdownTime := countdownTime r; currentCountdown := currentCountdown r;
     playerCards := playerCards r |}.

Definition set_gameInterval (t : option (list Z)) (r : Room) : Room :=
  {| players := players r; cards := cards r; gameStarted := gameStarted r;
     numbersCalled := numbersCalled r; cost := cost r; jackpot := jackpot r;
     gameInterval := t; countdown := countdown r;
     countdownTime := countdownTime r; currentCountdown := currentCountdown r;
     playerCards := playerCards r |}.

Definition set_countdown (t : option Z) (r : Room) : Room :=
  {| players := players r; cards := cards r; gameStarted := gameStarted r;
     numbersCalled := numbersCalled r; cost := cost r; jackpot := jackpot r;
     gameInterval := gameInterval r; countdown := t;
     countdownTime := countdownTime r; currentCountdown := currentCountdown r;
     playerCards := playerCards r |}.

Definition set_currentCountdown (t : Z) (r : Room) : Room :=
  {| players := players r; cards := cards r; gameStarted := gameStarted r;
     numbersCalled := numbersCalled r; cost := cost r; jackpot := jackpot r;
     gameInterval := gameInterval r; countdown := countdown r;
     countdownTime := countdownTime r; currentCountdown := t;
     playerCards := playerCards r |}.

Definition set_playerCards (m : gmap string (list Z)) (r : Room) : Room :=
  {| players := players r; cards := cards r; gameStarted := gameStarted r;
     numbersCalled := numbersCalled r; cost := cost r; jackpot := jackpot r;
     gameInterval := gameInterval r; countdown := countdown r;
     countdownTime := countdownTime r; currentCountdown := currentCountdown r;
     playerCards := m |}.

Definition set_rooms (m : gmap string Room) (s : State) : State :=
  {| rooms := m; sockets := sockets s; allClients := allClients s;
     db_players := db_players s |}.

Definition set_sockets (l : list Socket) (s : State) : State :=
  {| rooms := rooms s; sockets := l; allClients := allClients s;
     db_players := db_players s |}.

Definition set_db_players (l : list User) (s : State) : State :=
  {| rooms := rooms s; sockets := sockets s; allClients := allClients s;
     db_players := l |}.

(** ** Utilities and broadcast helpers *)

(** [Math.floor(room.players.length * room.cost * 0.9)], over exact rationals. *)
Definition calcJackpot (room : Room) : Z :=
  Qfloor (inject_Z (Z.of_nat (length (players room))) * inject_Z (cost room) * (9 # 10)).

(** [ws.readyState === WebSocket.OPEN] *)
Definition isOpen (s : State) (ws : nat) : bool :=
  match sockets s !! ws with
  | Some w => ws_open w
  | None => false
  end.

(** JavaScript truthiness of a [takenBy] value: [null] and the empty string
    are falsy. *)
Definition truthy (t : option string) : bool :=
  match t with
  | Some p => negb (String.eqb p "")
  | None => false
  end.

(** [c.takenBy === ws.phone] where [ws.phone] may be [undefined]: [null]
    and [undefined] are different values. *)
Definition takenBy_is (p : option string) (c : Card) : bool :=
  match takenBy c, p with
  | Some a, Some b => String.eqb a b
  | _, _ => false
  end.

Definition roomStatus (room : Room) : RoomStatus :=
  {| st_players := length (players room);
     st_jackpot := calcJackpot room;
     st_cost := cost room;
     st_gameStarted := gameStarted room;
     st_calledNumbersCount := length (numbersCalled room) |}.

Definition updateRoomStatus (s : State) : list Sent :=
  let status := roomStatus <$> rooms s in
  (fun client => (client, MRoomStatusUpdate status))
    <$> filter (fun client => isOpen s client = true) (allClients s).

Definition broadcastToRoom (s : State) (roomId : string) (message : Msg) : list Sent :=
  match rooms s !! roomId with
  | None => []
  | Some room =>
    (fun ws => (ws, message)) <$> filter (fun ws => isOpen s ws = true) (players room)
  end.

Definition broadcastToAll (s : State) (message : Msg) : list Sent :=
  (fun ws => (ws, message)) <$> filter (fun ws => isOpen s ws = true) (allClients s).

(** [room.cards.filter(c => c.takenBy === phone)] *)
Definition cardsOf (p : option string) (room : Room) : list Card :=
  filter (fun c => takenBy_is p c = true) (cards room).

(** [room.cards.forEach(card => { card.takenBy = null; })] *)
Definition resetCards (room : Room) : Room :=
  set_cards (set_takenBy None <$> cards room) room.

(** ** Game loop *)

(** [Array.from({ length: 75 }, (_, i) => i + 1)] *)
Definition allNumbers : list Z := (fun i => Z.of_nat i + 1) <$> seq 0 75.

Definition startGame (roomId : string) (s : State) : State :=
  match rooms s !! roomId with
  | None => s
  | Some room =>
    if gameStarted room then s
    else
      let room := set_gameStarted true room in
      let room := set_numbersCalled [] room in
      let room := set_gameInterval (Some allNumbers) room in
      set_rooms (<[roomId := room]> (rooms s)) s
  end.

(** One firing of the interval of [startGame] for [roomId].  [k] is the value
    of [Math.floor(Math.random() * availableNumbers.length)], which lies below
    the length; no result when no interval is pending or [k] is not such a
    value. *)
Definition gameTick (roomId : string) (k : nat) (s : State) : option (State * list Sent) :=
  room ← rooms s !! roomId;
  availableNumbers ← gameInterval room;
  if bool_decide (availableNumbers = []) || bool_decide (players room = []) then
    let room := set_gameInterval None room in
    let room := set_gameStarted false room in
    let room := resetCards room in
    Some (set_rooms (<[roomId := room]> (rooms s)) s,
          (fun p => (p, MGameEnd)) <$> players room)
  else
    num ← availableNumbers !! k;
    let room := set_gameInterval (Some (delete k availableNumbers)) room in
    let room := set_numbersCalled (numbersCalled room ++ [num]) room in
    Some (set_rooms (<[roomId := room]> (rooms s)) s,
          (fun p => (p, MNumberCalled num (numbersCalled room)))
            <$> filter (fun p => isOpen s p = true) (players room)).

(** The review loop of [startRoomCountdown]: every socket of the room gets
    its formatted cards stored and sent. *)
Definition reviewCards (roomId : string) (room : Room) (ws : nat) (acc : State * list Sent)
  : State * list Sent :=
  let '(s, out) := acc in
  let assigned := Some (SFormatted ∘ formatCardForClient
                          <$> cardsOf (w ← sockets s !! ws; ws_phone w) room) in
  (set_sockets (alter (set_ws_cards assigned) ws (sockets s)) s,
   out ++ [(ws, MShowCards "review" roomId assigned)]).

Definition startRoomCountdown (roomId : string) (s : State) : State * list Sent :=
  match rooms s !! roomId with
  | None => (s, [])
  | Some room =>
    match countdown room with
    | Some _ => (s, [])
    | None =>
      let countdownTime := if currentCountdown room =? 0 then 60 else currentCountdown room in
      let room := set_countdown (Some countdownTime) room in
      let s := set_rooms (<[roomId := room]> (rooms s)) s in
      foldl (fun acc ws => reviewCards roomId room ws acc) (s, []) (players room)
    end
  end.

(** One firing of the countdown interval of [roomId]; no result when none is
    pending. *)
Definition countdownTick (roomId : string) (s : State) : option (State * list Sent) :=
  room ← rooms s !! roomId;
  countdownTime ← countdown room;
  let out := broadcastToRoom s roomId (MCountdown roomId countdownTime)
             ++ broadcastToAll s (MRoomCountdown roomId countdownTime) in
  let room := set_currentCountdown countdownTime room in
  let countdownTime := countdownTime - 1 in
  if countdownTime <? 0 then
    let room := set_countdown None room in
    let room := set_currentCountdown 60 room in
    let out := out ++ broadcastToAll s (MRoomCountdown roomId 0) in
    let room := resetCards room in
    Some (startGame roomId (set_rooms (<[roomId := room]> (rooms s)) s), out)
  else
    Some (set_rooms (<[roomId := set_countdown (Some countdownTime) room]> (rooms s)) s, out).

(** ** Message handlers *)

(** [case "join_room"] *)
Definition join_room (ws : nat) (roomId phone : string) (s : State) : State * list Sent :=
  match rooms s !! roomId with
  | None => (s, [])
  | Some room =>
    let room := set_players (players room ++ [ws]) room in
    let previousCards := cardsOf (Some phone) room in
    let wsCards := if bool_decide (0 < length previousCards)%nat
                   then SRoomCard ∘ id <$> previousCards else [] in
    let s := set_sockets (alter (set_ws_cards (Some wsCards) ∘ set_ws_phone (Some phone))
                                ws (sockets s)) s in
    (set_rooms (<[roomId := room]> (rooms s)) s,
     [(ws, MRoomJoined roomId phone
             ((fun c => (id c, if truthy (takenBy c) then takenBy c else None))
                <$> cards room))])
  end.

(** [case "select_card"] *)
Definition select_card (ws : nat) (roomId phone : string) (cardId : Z) (s : State)
  : State * list Sent :=
  match rooms s !! roomId with
  | None => (s, [])
  | Some room =>
    match list_find (fun c => id c = cardId) (cards room) with
    | None => (s, [(ws, MCardRejected "Card not found")])
    | Some (i, card) =>
      if truthy (takenBy card) && negb (takenBy_is (Some phone) card) then
        (s, [(ws, MCardRejected "Already taken")])
      else
        let userCards := cardsOf (Some phone) room in
        if bool_decide (4 ≤ length userCards)%nat then
          (s, [(ws, MCardRejected "Max 4 cards reached")])
        else
          let card := set_takenBy (Some phone) card in
          let room := set_cards (<[i := card]> (cards room)) room in
          let formatted := formatCardForClient card in
          let wsCards w := default [] (ws_cards w) ++ [SFormatted formatted] in
          let s := set_sockets
                     (alter (fun w => set_ws_cards (Some (wsCards w)) w) ws (sockets s)) s in
          let room := set_playerCards
                        (<[phone := default [] (playerCards room !! phone) ++ [id card]]>
                           (playerCards room)) room in
          let s := set_rooms (<[roomId := room]> (rooms s)) s in
          (s, [(ws, MCardSelected roomId (id card) phone)]
                ++ ((fun p => (p, MCardTaken roomId (id card) phone))
                      <$> filter (fun p => isOpen s p = true) (players room))
                ++ updateRoomStatus s)
    end
  end.

(** The winner search loop of [claim_bingo] over [player.cards]. *)
Inductive Search : Type :=
  | Winner (winningCard : FCard) (winningPattern : option (list (nat * nat)))
  | NoWinner
  | TypeError.

Fixpoint findWinner (cards : list SessionCard) (numbersCalled : list Z) : Search :=
  match cards with
  | [] => NoWinner
  | SFormatted card :: rest =>
    if checkBingo card numbersCalled
    then Winner card (extractWinningPattern card numbersCalled)
    else findWinner rest numbersCalled
  | SRoomCard _ :: _ => TypeError
  end.

(** [db.data.players.find(u => u.phone === phone)], with its position. *)
Definition findUser (p : string) (s : State) : option (nat * User) :=
  list_find (fun u => phone u = p) (db_players s).

(** The [if (user) { user.balance += jackpot; user.wins++; ... }] block of
    [claim_bingo]. *)
Definition creditJackpot (playerPhone : string) (jackpot : Z) (s : State) : State :=
  match findUser playerPhone s with
  | Some (i, user) =>
    set_db_players
      (<[i := set_wins (wins user + 1) (set_balance (balance user + jackpot) user)]>
         (db_players s)) s
  | None => s
  end.

(** The result broadcast of [claim_bingo] to the open sockets of the room. *)
Definition broadcastWin (s : State) (room : Room) (playerPhone : string)
    (winningCard : FCard) (winningPattern : option (list (nat * nat))) : list Sent :=
  mjoin ((fun p => [(p, MBingoWin playerPhone winningCard winningPattern); (p, MGameEnd)])
           <$> filter (fun p => isOpen s p = true) (players room)).

(** [case "claim_bingo"]; no result when [checkBingo] throws on a card that
    has no column properties. *)
Definition claim_bingo (ws : nat) (roomId playerPhone : string) (s : State)
  : option (State * list Sent) :=
  match rooms s !! roomId with
  | None => Some (s, [])
  | Some room =>
    match list_find (fun p => (w ← sockets s !! p; ws_phone w) = Some playerPhone)
                    (players room) with
    | None => Some (s, [(ws, MInvalidBingo)])
    | Some (_, player) =>
      match w ← sockets s !! player; ws_cards w with
      | None | Some [] => Some (s, [(ws, MInvalidBingo)])
      | Some playerCards =>
        match findWinner playerCards (numbersCalled room) with
        | TypeError => None
        | NoWinner => Some (s, [(ws, MInvalidBingo)])
        | Winner winningCard winningPattern =>
          let jackpot := calcJackpot room in
          let s := creditJackpot playerPhone jackpot s in
          let out := broadcastWin s room playerPhone winningCard winningPattern in
          let room := set_gameInterval None room in
          let room := set_gameStarted false room in
          let room := set_numbersCalled [] room in
          let s := set_rooms (<[roomId := room]> (rooms s)) s in
          Some (s, out ++ updateRoomStatus s)
        end
      end
    end
  end.

(** The balance block of [start_game] ("Deduct balance before countdown"):
    the new state and the [balance_update] sent, or [None] on the
    insufficient-balance branch.  A handle without a record is not charged. *)
Definition deductCost (ws : nat) (phone : string) (room : Room) (s : State)
  : option (State * list Sent) :=
  match findUser phone s with
  | Some (i, user) =>
    if cost room <=? balance user then
      let user := set_balance (balance user - cost room) user in
      Some (set_db_players (<[i := user]> (db_players s)) s,
            [(ws, MBalanceUpdate (balance user))])
    else None
  | None => Some (s, [])
  end.

(** The rest of [start_game] after the balance block: the player's cards are
    formatted and stored, sent with phase "game", and the countdown is started
    unless a game or a countdown is running. *)
Definition showAndCount (ws : nat) (roomId phone : string) (room : Room)
    (playerCards_ : list Card) (s : State) : State * list Sent :=
  let wsCards := Some (SFormatted ∘ formatCardForClient <$> playerCards_) in
  let s := set_sockets (alter (set_ws_cards wsCards) ws (sockets s)) s in
  let room := set_playerCards (<[phone := id <$> playerCards_]> (playerCards room)) room in
  let s := set_rooms (<[roomId := room]> (rooms s)) s in
  let out := [(ws, MShowCards "game" roomId wsCards)] in
  if negb (gameStarted room) && negb (bool_decide (is_Some (countdown room))) then
    let '(s, out') := startRoomCountdown roomId s in (s, out ++ out')
  else (s, out).

(** [case "start_game"] *)
Definition start_game (ws : nat) (roomId phone : string) (s : State) : State * list Sent :=
  match rooms s !! roomId with
  | None => (s, [])
  | Some room =>
    let playerCards_ := cardsOf (Some phone) room in
    if bool_decide (playerCards_ = []) then (s, [(ws, MError "No cards selected")])
    else
      match deductCost ws phone room s with
      | None => (s, [(ws, MError "Insufficient balance to start game")])
      | Some (s, out) =>
        let '(s, out') := showAndCount ws roomId phone room playerCards_ s in
        (s, out ++ out')
      end
  end.

(** [wss.on("connection")]: a new socket object joins [allClients]. *)
Definition connection (s : State) : State :=
  {| rooms := rooms s;
     sockets := sockets s ++ [mkSocket None None true];
     allClients := allClients s ++ [length (sockets s)];
     db_players := db_players s |}.

(** [ws.on("close")]: the socket leaves [allClients]; the second listener
    finds nothing in the (never filled) map [players] and leaves the rooms
    alone. *)
Definition close (ws : nat) (s : State) : State :=
  {| rooms := rooms s;
     sockets := alter (fun w => mkSocket (ws_phone w) (ws_cards w) false) ws (sockets s);
     allClients := filter (fun c => c ≠ ws) (allClients s);
     db_players := db_players s |}.

(** ** The event loop *)

(** What the single thread serves one at a time: an inbound message of one of
    the room-scoped types, a firing of a room's countdown or game interval, a
    connection or a disconnection.  Here a handler is one transition: its
    awaits on the store complete before the next event is served.  The
    awaits of [claim_bingo] are cut open in the next section. *)
Inductive Event : Type :=
  | EConnection
  | EClose (ws : nat)
  | EJoinRoom (ws : nat) (roomId phone : string)
  | ESelectCard (ws : nat) (roomId phone : string) (cardId : Z)
  | EClaimBingo (ws : nat) (roomId phone : string)
  | EStartGame (ws : nat) (roomId phone : string)
  | ECountdownTick (roomId : string)
  | EGameTick (roomId : string) (k : nat).

Definition step (ev : Event) (s : State) : option (State * list Sent) :=
  match ev with
  | EConnection => Some (connection s, [])
  | EClose ws => Some (close ws s, [])
  | EJoinRoom ws roomId phone => Some (join_room ws roomId phone s)
  | ESelectCard ws roomId phone cardId => Some (select_card ws roomId phone cardId s)
  | EClaimBingo ws roomId phone => claim_bingo ws roomId phone s
  | EStartGame ws roomId phone => Some (start_game ws roomId phone s)
  | ECountdownTick roomId => countdownTick roomId s
  | EGameTick roomId k => gameTick roomId k s
  end.

Fixpoint run (evs : list Event) (s : State) : option (State * list Sent) :=
  match evs with
  | [] => Some (s, [])
  | ev :: evs' =>
    '(s1, out1) ← step ev s;
    '(s2, out2) ← run evs' s1;
    Some (s2, out1 ++ out2)
  end.

(** ** [claim_bingo] across its awaits *)

(** [claim_bingo] is an [async] handler: between the search for a winning
    card and the reset of the room it waits twice for the store, and while
    it waits the event loop serves whatever arrives.  Here the handler is
    cut at these two points.  Of the store only the presence of a record
    matters to the cut (it decides whether the handler waits for
    [db.write()]), so the single copy of [State] is kept; the statements
    about interleaved claims speak of the messages sent and of the rooms,
    not of the balances that interleaved reads and writes leave. *)

(** Where a suspended handler waits: at [await db.read()] or at
    [await db.write()]. *)
Inductive Await : Type := AtRead | AtWrite.

(** A suspended [claim_bingo] with the locals it resumes with; [room] is
    kept by its id (the objects of [rooms] are never replaced). *)
Record Claim : Type := mkClaim {
  cl_roomId : string;
  cl_playerPhone : string;
  cl_winningCard : FCard;
  cl_winningPattern : option (list (nat * nat));
  cl_jackpot : Z;
  cl_at : Await
}.

Definition set_at (a : Await) (c : Claim) : Claim :=
  mkClaim (cl_roomId c) (cl_playerPhone c) (cl_winningCard c) (cl_winningPattern c)
          (cl_jackpot c) a.

(** How far a handler gets before it gives the thread back. *)
Inductive Reached : Type :=
  | Returned (out : list Sent)
  | Thrown
  | Suspended (c : Claim).

(** [claim_bingo] up to [await db.read()]: the lookups, the search for a
    winning card and [calcJackpot]. *)
Definition claim_bingo_until_read (ws : nat) (roomId playerPhone : string) (s : State)
  : Reached :=
  match rooms s !! roomId with
  | None => Returned []
  | Some room =>
    match list_find (fun p => (w ← sockets s !! p; ws_phone w) = Some playerPhone)
                    (players room) with
    | None => Returned [(ws, MInvalidBingo)]
    | Some (_, player) =>
      match w ← sockets s !! player; ws_cards w with
      | None | Some [] => Returned [(ws, MInvalidBingo)]
      | Some playerCards =>
        match findWinner playerCards (numbersCalled room) with
        | TypeError => Thrown
        | NoWinner => Returned [(ws, MInvalidBingo)]
        | Winner winningCard winningPattern =>
          Suspended (mkClaim roomId playerPhone winningCard winningPattern
                             (calcJackpot room) AtRead)
        end
      end
    end
  end.

(** [claim_bingo] from the [bingo_win] broadcast to its end (also what
    follows [await db.write()]). *)
Definition claim_bingo_after_write (c : Claim) (s : State) : State * list Sent :=
  match rooms s !! cl_roomId c with
  | None => (s, [])
  | Some room =>
    let out := broadcastWin s room (cl_playerPhone c) (cl_winningCard c)
                 (cl_winningPattern c) in
    let room := set_gameInterval None room in
    let room := set_gameStarted false room in
    let room := set_numbersCalled [] room in
    let s := set_rooms (<[cl_roomId c := room]> (rooms s)) s in
    (s, out ++ updateRoomStatus s)
  end.

(** [claim_bingo] from the completion of [db.read()]: with a record of the
    winner, the record is credited and the handler waits for [db.write()];
    without one it goes on to the broadcast. *)
Definition claim_bingo_after_read (c : Claim) (s : State)
  : State * list Sent * option Claim :=
  match findUser (cl_playerPhone c) s with
  | Some _ => (creditJackpot (cl_playerPhone c) (cl_jackpot c) s, [], Some (set_at AtWrite c))
  | None => (claim_bingo_after_write c s, None)
  end.

(** A suspended handler runs on to its next await or to its end. *)
Definition resume (c : Claim) (s : State) : State * list Sent * option Claim :=
  match cl_at c with
  | AtRead => claim_bingo_after_read c s
  | AtWrite => (claim_bingo_after_write c s, None)
  end.

(** The event loop with the handlers it has suspended, oldest first. *)
Record Loop : Type := mkLoop {
  current : State;
  waiting : list Claim
}.

(** What the loop serves next: a [claim_bingo] message that has arrived, or
    the completed await of the [i]-th suspended handler. *)
Inductive Turn : Type :=
  | Arrive (ws : nat) (roomId playerPhone : string)
  | Resume (i : nat).

(** One turn of the loop; no result when the handler throws or no handler
    waits at [i]. *)
Definition turn (t : Turn) (l : Loop) : option (Loop * list Sent) :=
  match t with
  | Arrive ws roomId playerPhone =>
    match claim_bingo_until_read ws roomId playerPhone (current l) with
    | Returned out => Some (l, out)
    | Thrown => None
    | Suspended c => Some (mkLoop (current l) (waiting l ++ [c]), [])
    end
  | Resume i =>
    c ← waiting l !! i;
    let '(s, out, next) := resume c (current l) in
    Some (mkLoop s (match next with
                    | Some c' => <[i := c']> (waiting l)
                    | None => delete i (waiting l)
                    end), out)
  end.

Fixpoint runTurns (ts : list Turn) (l : Loop) : option (Loop * list Sent) :=
  match ts with
  | [] => Some (l, [])
  | t :: ts' =>
    '(l1, out1) ← turn t l;
    '(l2, out2) ← runTurns ts' l1;
    Some (l2, out1 ++ out2)
  end.

(** The number of awaits a winning claim for [playerPhone] passes. *)
Definition awaits (playerPhone : string) (s : State) : nat :=
  match findUser playerPhone s with Some _ => 2%nat | None => 1%nat end.

(** ** Start-up ([initDB], [loadRooms]) *)

(** A room record of the store. *)
Record DbRoom : Type := mkDbRoom {
  db_roomId : string;
  db_cost : Z;
  db_jackpot : Z;
  db_numbersCalled : list Z;
  db_gameStarted : Z;
  db_currentCountdown : Z
}.

(** The rooms [initDB] writes into an empty store. *)
Definition initDB_rooms : list DbRoom :=
  [ mkDbRoom "room_10" 10 0 [] 0 60;
    mkDbRoom "room_20" 20 0 [] 0 60;
    mkDbRoom "room_50" 50 0 [] 0 60;
    mkDbRoom "room_100" 100 0 [] 0 60 ].

(** [adminPhones] *)
Definition adminPhones : list string := ["0912735222"].

(** [initDB] on the rooms and players of the store: an empty room list is
    replaced by the four default rooms, and every admin handle without a
    record gets one with a balance of 1000. *)
Definition initDB (dbRooms : list DbRoom) (dbPlayers : list User) : list DbRoom * list User :=
  (match dbRooms with [] => initDB_rooms | _ :: _ => dbRooms end,
   foldl (fun dbPlayers adminPhone =>
            match list_find (fun u => phone u = adminPhone) dbPlayers with
            | Some _ => dbPlayers
            | None => dbPlayers ++ [mkUser adminPhone 1000 0]
            end) dbPlayers adminPhones).

Definition loadRoom (fixedCardsSet : list (list Cell)) (r : DbRoom) : Room :=
  {| players := [];
     cards := imap (fun idx data => mkCard (Z.of_nat idx + 1) data None) fixedCardsSet;
     gameStarted := negb (db_gameStarted r =? 0);
     numbersCalled := db_numbersCalled r;
     cost := db_cost r;
     jackpot := db_jackpot r;
     gameInterval := None;
     countdown := None;
     countdownTime := if db_currentCountdown r =? 0 then 60 else db_currentCountdown r;
     currentCountdown := if db_currentCountdown r =? 0 then 60 else db_currentCountdown r;
     playerCards := ∅ |}.

Definition loadRooms (fixedCardsSet : list (list Cell)) (dbRooms : list DbRoom)
  : gmap string Room :=
  foldl (fun rooms r => <[db_roomId r := loadRoom fixedCardsSet r]> rooms) ∅ dbRooms.

(** The state once the server listens: the rooms of [initDB], no socket yet,
    and whatever player records the store holds. *)
Definition initialState (fixedCardsSet : list (list Cell)) (dbPlayers : list User) : State :=
  {| rooms := loadRooms fixedCardsSet initDB_rooms;
     sockets := [];
     allClients := [];
     db_players := dbPlayers |}.

(** ** Player records and withdrawal requests *)

Inductive RequestType : Type := RWithdrawal | RDeposit.

#[global] Instance RequestType_eq_dec : EqDecision RequestType.
Proof. solve_decision. Defined.

Inductive RequestStatus : Type := RPending | RApproved | RRejected.

(** An entry of [db.data.requests], with an integer amount. *)
Record Request : Type := mkRequest {
  req_id : string;
  req_phone : string;
  req_type : RequestType;
  req_amount : Z;
  req_status : RequestStatus
}.

(** What the handlers of player data and requests work on: the server state,
    [db.data.requests] and the [isAdmin] flag of the sockets that have one. *)
Record Desk : Type := mkDesk {
  server : State;
  requests : list Request;
  isAdmin : gmap nat bool
}.

(** The texts of [withdraw_response]. *)
Inductive WithdrawNote : Type :=
  | WUserNotFound
  | WInvalidAmount
  | WInsufficientBalance
  | WSubmitted (amount : Z).

Inductive DeskMsg : Type :=
  | DError (message : string)
  | DPlayerData (phone : string) (balance wins : Z) (isAdmin : bool) (requests : list Request)
  | DWithdrawResponse (success : bool) (message : WithdrawNote) (balance : option Z)
  | DRequestsData (requests : list Request)
  | DRequestActionSuccess (requestId : string) (status : RequestStatus)
  | DRequestUpdate (request : Request)
  | DBalanceUpdate (newBalance : Z).

Definition set_req_status (st : RequestStatus) (r : Request) : Request :=
  {| req_id := req_id r; req_phone := req_phone r; req_type := req_type r;
     req_amount := req_amount r; req_status := st |}.

(** [case "get_player_data"]; the absent handle of the message is the empty
    string. *)
Definition get_player_data (ws : nat) (phone : string) (d : Desk)
  : Desk * list (nat * DeskMsg) :=
  if String.eqb phone "" then (d, [(ws, DError "Phone number required.")])
  else
    let s := server d in
    let '(s, user) := match findUser phone s with
                      | Some (_, user) => (s, user)
                      | None =>
                        let user := mkUser phone 1000 0 in
                        (set_db_players (db_players s ++ [user]) s, user)
                      end in
    let admin := bool_decide (phone ∈ adminPhones) in
    let s := set_sockets (alter (set_ws_phone (Some phone)) ws (sockets s)) s in
    ({| server := s; requests := requests d; isAdmin := <[ws := admin]> (isAdmin d) |},
     [(ws, match user with
           | mkUser userPhone userBalance userWins =>
             DPlayerData userPhone userBalance userWins admin
                         (if admin then requests d else [])
           end)]).

(** [sendRequestsToAll]: no code sets [client.userId], so only the sockets
    flagged as admin are served. *)
Definition sendRequestsToAll (d : Desk) : list (nat * DeskMsg) :=
  (fun client => (client, DRequestsData (requests d)))
    <$> filter (fun client => isOpen (server d) client = true ∧ isAdmin d !! client = Some true)
               (allClients (server d)).

(** [case "request_withdrawal"]; [newId] is the value of [uuid()]. *)
Definition request_withdrawal (ws : nat) (phone : string) (amount : Z) (newId : string)
    (d : Desk) : Desk * list (nat * DeskMsg) :=
  match findUser phone (server d) with
  | None => (d, [(ws, DWithdrawResponse false WUserNotFound None)])
  | Some (_, user) =>
    if amount <=? 0 then (d, [(ws, DWithdrawResponse false WInvalidAmount None)])
    else if balance user <? amount
    then (d, [(ws, DWithdrawResponse false WInsufficientBalance None)])
    else
      let withdrawRequest := mkRequest newId phone RWithdrawal amount RPending in
      let d := {| server := server d; requests := requests d ++ [withdrawRequest];
                  isAdmin := isAdmin d |} in
      (d, (ws, DWithdrawResponse true (WSubmitted amount) (Some (balance user)))
            :: sendRequestsToAll d)
  end.

(** [case "approve_request"] ([approve] true) and [case "reject_request"]. *)
Definition decide_request (approve : bool) (ws : nat) (requestId : string) (d : Desk)
  : Desk * list (nat * DeskMsg) :=
  match list_find (fun r => req_id r = requestId) (requests d) with
  | None => (d, [(ws, DError "Request not found.")])
  | Some (i, req) =>
    match req_type req with
    | RDeposit =>
      (d, [(ws, DError "Only withdrawal requests can be approved/rejected.")])
    | RWithdrawal =>
      let req := set_req_status (if approve then RApproved else RRejected) req in
      let s := server d in
      let s := if approve then
                 match findUser (req_phone req) s with
                 | Some (j, user) =>
                   set_db_players
                     (<[j := set_balance (balance user - req_amount req) user]> (db_players s)) s
                 | None => s
                 end
               else s in
      let d := {| server := s; requests := <[i := req]> (requests d); isAdmin := isAdmin d |} in
      let notify client :=
        (client, DRequestUpdate req)
        :: (if approve then
              match findUser (req_phone req) s with
              | Some (_, user) => [(client, DBalanceUpdate (balance user))]
              | None => []
              end
            else []) in
      (d, [(ws, DRequestActionSuccess (req_id req) (req_status req))]
            ++ sendRequestsToAll d
            ++ mjoin (notify <$> filter (fun client =>
                                           isOpen s client = true ∧
                                           (w ← sockets s !! client; ws_phone w)
                                           = Some (req_phone req))
                                        (allClients s)))
    end
  end.

(** [case "get_admin_requests"] *)
Definition get_admin_requests (ws : nat) (d : Desk) : list (nat * DeskMsg) :=
  match isAdmin d !! ws with
  | Some true =>
    [(ws, DRequestsData (filter (fun r => req_type r = RWithdrawal) (requests d)))]
  | _ => []
  end.

(** [case "get_user_requests"] *)
Definition get_user_requests (ws : nat) (phone : string) (d : Desk) : list (nat * DeskMsg) :=
  [(ws, DRequestsData (filter (fun r => req_phone r = phone) (requests d)))].

(** The balance the store holds for a handle. *)
Definition balanceOf (phone : string) (d : Desk) : option Z :=
  balance ∘ snd <$> findUser phone (server d).

(** ** Predicates used by the statements *)

(** Number of cards of [room] whose holder is [p]. *)
Definition heldBy (p : string) (room : Room) : nat := length (cardsOf (Some p) room).

(** A formatted deck card, as [generateBingoCard] and [formatCardForClient]
    produce it: five entries per column, those of column [j] within
    [15 j + 1 .. 15 j + 15], except the centre, which is 0. *)
Definition deckColumn (j : nat) (column : list Z) : Prop :=
  length column = 5%nat ∧
  ∀ (i : nat) (z : Z), column !! i = Some z →
    if bool_decide (j = 2%nat ∧ i = 2%nat) then z = 0
    else 15 * Z.of_nat j + 1 ≤ z ≤ 15 * Z.of_nat j + 15.

Definition deckCard (card : FCard) : Prop :=
  ∀ (j : nat) (l : Letter), BINGO !! j = Some l → deckColumn j (col card l).

(** The non-free numbers of a column. *)
Definition nonFree (column : list Z) : list Z := filter (fun n => n ≠ 0) column.

Definition deckSession (cs : list SessionCard) : Prop :=
  Forall (fun sc => ∃ card, sc = SFormatted card ∧ deckCard card) cs.

Definition sessionsHoldDeckCards (s : State) (room : Room) : Prop :=
  ∀ p w cs, p ∈ players room → sockets s !! p = Some w → ws_cards w = Some cs →
    deckSession cs.

(** The socket [claim_bingo] finds for a handle. *)
Definition playerOf (s : State) (room : Room) (playerPhone : string) : option nat :=
  snd <$> list_find (fun p => (w ← sockets s !! p; ws_phone w) = Some playerPhone)
                    (players room).

(** The cards [claim_bingo] searches for a handle: those of the socket it
    finds in the room. *)
Definition sessionOf (s : State) (room : Room) (playerPhone : string)
  : option (list SessionCard) :=
  p ← playerOf s room playerPhone; w ← sockets s !! p; ws_cards w.

Definition holdsWinningCard (s : State) (room : Room) (playerPhone : string) : Prop :=
  ∃ p w cs card,
    playerOf s room playerPhone = Some p ∧ sockets s !! p = Some w ∧
    ws_cards w = Some cs ∧ SFormatted card ∈ cs ∧
    checkBingo card (numbersCalled room) = true.

(** The search of [claim_bingo] for [playerPhone] ends on [card]. *)
Definition claimWins (s : State) (room : Room) (playerPhone : string)
    (card : FCard) (pattern : option (list (nat * nat))) : Prop :=
  ∃ p w cs, playerOf s room playerPhone = Some p ∧ sockets s !! p = Some w ∧
            ws_cards w = Some cs ∧ findWinner cs (numbersCalled room) = Winner card pattern.

(** The room as a winning claim leaves it. *)
Definition endedRoom (room : Room) : Room :=
  set_numbersCalled [] (set_gameStarted false (set_gameInterval None room)).

(** A sequence of [select_card] requests [(ws, roomId, phone, cardId)],
    served in order. *)
Definition runSelects (reqs : list (nat * string * string * Z)) (s : State) : State :=
  foldl (fun s '(ws, roomId, phone, cardId) => (select_card ws roomId phone cardId s).1)
        s reqs.

(** The holder of [card] does not stand in the way of [phone]: it is unset,
    the empty string, or [phone] itself. *)
Definition freeFor (phone : string) (card : Card) : Prop :=
  takenBy card = None ∨ takenBy card = Some "" ∨ takenBy card = Some phone.

(** The numbers a game may call. *)
Definition inRange (n : Z) : Prop := 1 ≤ n ≤ 75.

#[global] Instance inRange_dec (n : Z) : Decision (inRange n).
Proof. unfold inRange. apply _. Defined.

(** What links the called numbers of a room to its pending game interval:
    the numbers called and those left in the pool of the interval are
    numbers of 1..75 without repetition, and an interval is pending only
    while the game is started. *)
Definition callerInv (room : Room) : Prop :=
  let pool := default [] (gameInterval room) in
  NoDup (numbersCalled room ++ pool) ∧
  Forall inRange (numbersCalled room ++ pool) ∧
  (is_Some (gameInterval room) → gameStarted room = true).

(** The caller fields of [room'] are those of [room]. *)
Definition sameCaller (room room' : Room) : Prop :=
  numbersCalled room' = numbersCalled room ∧ gameInterval room' = gameInterval room ∧
  gameStarted room' = gameStarted room.

(** What one event can do to the caller fields of a room: nothing, end the
    game (with or without clearing the called numbers), start a game, or draw
    one number of the pool. *)
Definition callerStep (room room' : Room) : Prop :=
  sameCaller room room' ∨
  (gameInterval room' = None ∧ gameStarted room' = false ∧
   (numbersCalled room' = numbersCalled room ∨ numbersCalled room' = [])) ∨
  (gameStarted room = false ∧ gameStarted room' = true ∧ numbersCalled room' = [] ∧
   gameInterval room' = Some allNumbers) ∨
  (∃ availableNumbers k num,
     gameInterval room = Some availableNumbers ∧ availableNumbers !! k = Some num ∧
     gameInterval room' = Some (delete k availableNumbers) ∧
     numbersCalled room' = numbersCalled room ++ [num] ∧
     gameStarted room' = gameStarted room).

(** What no event changes of a card: its id and its numbers. *)
Definition cardFace (c : Card) : Z * list Cell := (id c, data c).

(** [room'] is [room] at a later time as far as the fixed parts go: same
    cost, stored jackpot and countdown length, the same cards but for their
    holders, and the same sockets followed by those that joined since. *)
Definition roomGrows (room room' : Room) : Prop :=
  cost room' = cost room ∧ jackpot room' = jackpot room ∧
  countdownTime room' = countdownTime room ∧
  cardFace <$> cards room' = cardFace <$> cards room ∧
  players room `prefix_of` players room'.

(** The indices of successive draws from a pool of [n] numbers: each is a
    value of [Math.floor(Math.random() * availableNumbers.length)], so lies
    below the length of the pool at its draw. *)
Fixpoint validDraws (n : nat) (ks : list nat) : Prop :=
  match ks with
  | [] => True
  | k :: ks' => (k < n)%nat ∧ validDraws (n - 1) ks'
  end.

(** The room as a successful selection of [card], found at index [i], leaves
    it. *)
Definition select_card_room (phone : string) (i : nat) (card : Card) (room : Room) : Room :=
  set_playerCards (<[phone := default [] (playerCards room !! phone) ++ [id card]]>
                     (playerCards room))
    (set_cards (<[i := set_takenBy (Some phone) card]> (cards room)) room).

(** ** Sample data for the examples *)

Definition sampleData : list Cell :=
  CNum <$> [1;2;3;4;5; 16;17;18;19;20; 31;32;0;34;35; 46;47;48;49;50; 61;62;63;64;65].

Definition sampleData2 : list Cell :=
  CNum <$> [6;7;8;9;10; 21;22;23;24;25; 36;37;0;39;40; 51;52;53;54;55; 66;67;68;69;70].

Definition sampleCard : FCard :=
  mkFCard [1;2;3;4;5] [16;17;18;19;20] [31;32;0;34;35] [46;47;48;49;50] [61;62;63;64;65].

Definition sampleCard2 : FCard :=
  mkFCard [6;7;8;9;10] [21;22;23;24;25] [36;37;0;39;40] [51;52;53;54;55] [66;67;68;69;70].

(** A room of cost 10 in an active game: the sockets 0 and 1 ("A" and "B")
    hold one card each, the five numbers of column B of both cards have
    been called and the other 65 numbers are left in the pool. *)
Definition sampleRoom : Room :=
  {| players := [0%nat; 1%nat];
     cards := [mkCard 1 sampleData None; mkCard 2 sampleData2 None;
               mkCard 3 sampleData None; mkCard 4 sampleData2 None;
               mkCard 5 sampleData None; mkCard 6 sampleData2 None];
     gameStarted := true;
     numbersCalled := [1;2;3;4;5;6;7;8;9;10];
     cost := 10;
     jackpot := 0;
     gameInterval := Some (drop 10 allNumbers);
     countdown := None;
     countdownTime := 60;
     currentCountdown := 60;
     playerCards := ∅ |}.

Definition sampleState : State :=
  {| rooms := {[ "room_10" := sampleRoom ]};
     sockets := [mkSocket (Some "A") (Some [SFormatted sampleCard]) true;
                 mkSocket (Some "B") (Some [SFormatted sampleCard2]) true];
     allClients := [0%nat; 1%nat];
     db_players := [mkUser "A" 1000 0; mkUser "B" 1000 0] |}.

(** A session from start-up over a deck of three cards: two clients connect,
    join the room of cost 10 as "A" (balance 1000) and "B" (balance 5) and
    take the cards 1 and 2. *)
Definition lobbyEvents : list Event :=
  [EConnection; EConnection;
   EJoinRoom 0 "room_10" "A"; EJoinRoom 1 "room_10" "B";
   ESelectCard 0 "room_10" "A" 1; ESelectCard 1 "room_10" "B" 2].

Definition lobbyStart : State :=
  initialState [sampleData; sampleData2; sampleData] [mkUser "A" 1000 0; mkUser "B" 5 0].

(** The room of cost 10 and the state after [lobbyEvents]. *)
Definition lobbyRoom : Room :=
  {| players := [0%nat; 1%nat];
     cards := [mkCard 1 sampleData (Some "A"); mkCard 2 sampleData2 (Some "B");
               mkCard 3 sampleData None];
     gameStarted := false;
     numbersCalled := [];
     cost := 10;
     jackpot := 0;
     gameInterval := None;
     countdown := None;
     countdownTime := 60;
     currentCountdown := 60;
     playerCards := {[ "A" := [1]; "B" := [2] ]} |}.

Definition lobbyState : State :=
  {| rooms := <["room_10" := lobbyRoom]> (rooms lobbyStart);
     sockets := [mkSocket (Some "A") (Some [SFormatted sampleCard]) true;
                 mkSocket (Some "B") (Some [SFormatted sampleCard2]) true];
     allClients := [0%nat; 1%nat];
     db_players := [mkUser "A" 1000 0; mkUser "B" 5 0] |}.

(** The same session once "A" has asked for the game: "A" has paid and the
    countdown runs. *)
Definition countingRoom : Room := set_countdown (Some 60) lobbyRoom.

Definition countingState : State :=
  {| rooms := <["room_10" := countingRoom]> (rooms lobbyStart);
     sockets := sockets lobbyState;
     allClients := [0%nat; 1%nat];
     db_players := [mkUser "A" 990 0; mkUser "B" 5 0] |}.

(** The sample game once "A" has taken card 3 and the interval has drawn the
    65 numbers of its pool. *)
Definition drainedRoom : Room :=
  set_playerCards {[ "A" := [3] ]}
    (set_cards (<[2%nat := mkCard 3 sampleData (Some "A")]> (cards sampleRoom))
       (set_numbersCalled allNumbers (set_gameInterval (Some []) sampleRoom))).

Definition drainedState : State :=
  {| rooms := {[ "room_10" := drainedRoom ]};
     sockets := [mkSocket (Some "A") (Some [SFormatted sampleCard; SFormatted sampleCard]) true;
                 mkSocket (Some "B") (Some [SFormatted sampleCard2]) true];
     allClients := [0%nat; 1%nat];
     db_players := [mkUser "A" 1000 0; mkUser "B" 1000 0] |}.

(** The messages sent while [lobbyEvents] are served. *)
Definition lobbyOut : list Sent := default [] (snd <$> run lobbyEvents lobbyStart).

(** The sample session at the desk: no request yet, no socket flagged. *)
Definition lobbyDesk : Desk := {| server := lobbyState; requests := []; isAdmin := ∅ |}.

(** A game from start-up in which a player has joined again: three clients
    join the room of cost 10 as "A", "B" and "C" and take the cards 1, 2
    and 3; "A" asks for the game; "C" joins again while the countdown runs;
    the countdown ends and the ten numbers of column B of the cards 1 and 2
    are drawn. *)
Definition rejoinEvents : list Event :=
  [EConnection; EConnection; EConnection;
   EJoinRoom 0 "room_10" "A"; EJoinRoom 1 "room_10" "B"; EJoinRoom 2 "room_10" "C";
   ESelectCard 0 "room_10" "A" 1; ESelectCard 1 "room_10" "B" 2;
   ESelectCard 2 "room_10" "C" 3;
   EStartGame 0 "room_10" "A"; EJoinRoom 2 "room_10" "C"]
  ++ replicate 61 (ECountdownTick "room_10") ++ replicate 10 (EGameTick "room_10" 0).

(** The room of cost 10 and the state after [rejoinEvents]: socket 2 stands
    twice in the room and its session holds the room's card 3 as
    [join_room] stored it. *)
Definition rejoinRoom : Room :=
  {| players := [0%nat; 1%nat; 2%nat; 2%nat];
     cards := [mkCard 1 sampleData None; mkCard 2 sampleData2 None;
               mkCard 3 sampleData None];
     gameStarted := true;
     numbersCalled := [1;2;3;4;5;6;7;8;9;10];
     cost := 10;
     jackpot := 0;
     gameInterval := Some (drop 10 allNumbers);
     countdown := None;
     countdownTime := 60;
     currentCountdown := 60;
     playerCards := {[ "A" := [1]; "B" := [2]; "C" := [3] ]} |}.

Definition rejoinState : State :=
  {| rooms := <["room_10" := rejoinRoom]> (rooms lobbyStart);
     sockets := [mkSocket (Some "A") (Some [SFormatted sampleCard]) true;
                 mkSocket (Some "B") (Some [SFormatted sampleCard2]) true;
                 mkSocket (Some "C") (Some [SRoomCard 3]) true];
     allClients := [0%nat; 1%nat; 2%nat];
     db_players := [mkUser "A" 990 0; mkUser "B" 5 0] |}.

(** The cells of column B, as [extractWinningPattern] lists them. *)
Definition columnBLine : option (list (nat * nat)) :=
  Some [(0, 0); (1, 0); (2, 0); (3, 0); (4, 0)]%nat.

(** ** Proof automation *)

(** Closes [isLineMarked numbersCalled line = false] from [unmarkedLemma]
    (a number of the line that is neither 0 nor called makes the line
    unmarked), with [z] the number and [Hsub] the fact that every called
    number lies in one column. *)
Ltac unmarked unmarkedLemma z Hsub :=
  apply (unmarkedLemma _ _ z);
  [ first [ by apply list_elem_of_fmap_2 | cbn; rewrite !elem_of_cons; solve [auto 10] ]
  | lia
  | first [ assumption | idtac ]; let Hc := fresh in
    intros Hc; apply Hsub in Hc; apply list_elem_of_In in Hc; cbn in Hc; lia ].

(** Splits a list known to have five entries into them. *)
Ltac five l :=
  let a := fresh "a" in let b := fresh "b" in let c := fresh "c" in
  let d := fresh "d" in let e := fresh "e" in
  destruct l as [|a [|b [|c [|d [|e [|]]]]]]; try discriminate.

(** * Properties *)

(** ** Win evaluator *)

Example checkBingo_col :
  checkBingo (mkFCard [1;2;3;4;5] [16;17;18;19;20] [31;32;0;34;35]
                      [46;47;48;49;50] [61;62;63;64;65]) [5;4;3;2;1] = true.
Proof. reflexivity. Qed.

Example extract_diag :
  extractWinningPattern (mkFCard [1;2;3;4;5] [16;17;18;19;20] [31;32;0;34;35]
                      [46;47;48;49;50] [61;62;63;64;65]) [5;19;47;61]
  = Some [(0,4);(1,3);(2,2);(3,1);(4,0)]%nat.
Proof. reflexivity. Qed.

Lemma extract_iff_check (card : FCard) (numbersCalled : list Z) :
  is_Some (extractWinningPattern card numbersCalled) ↔ checkBingo card numbersCalled = true.
Proof.
  unfold extractWinningPattern, checkBingo. cbn [existsb find seq BINGO colAt lookup list_lookup].
  repeat match goal with
  | |- context [isLineMarked ?a ?b] =>
      let E := fresh "E" in destruct (isLineMarked a b) eqn:E; cbn [orb]
  end; split; intros H; try done; try (by eexists); by destruct H.
Qed.

Lemma isLineMarked_true (numbersCalled : list Z) (line : list (option Z)) :
  isLineMarked numbersCalled line = true ↔
  ∀ v, v ∈ line → ∃ z, v = Some z ∧ (z = 0 ∨ z ∈ numbersCalled).
Proof.
  unfold isLineMarked. rewrite forallb_forall. split.
  - intros H v Hv. apply list_elem_of_In, H in Hv. destruct v as [z|]; [|done].
    exists z. split; [done|]. cbn in Hv. apply orb_true_iff in Hv as [Hz|Hz].
    + left. lia.
    + right. by apply bool_decide_eq_true in Hz.
  - intros H v Hv. apply list_elem_of_In, H in Hv as (z & -> & [->|Hz]); cbn; [done|].
    apply orb_true_iff. right. by apply bool_decide_eq_true.
Qed.

Lemma isLineMarked_false (numbersCalled : list Z) (line : list (option Z)) (z : Z) :
  Some z ∈ line → z ≠ 0 → z ∉ numbersCalled → isLineMarked numbersCalled line = false.
Proof.
  intros Hin Hz Hn. apply not_true_is_false. intros H.
  destruct (proj1 (isLineMarked_true _ _) H _ Hin) as (z' & [= <-] & [?|?]); done.
Qed.

Lemma deckColumn_inv (j : nat) (column : list Z) :
  deckColumn j column →
  ∃ a b c d e, column = [a; b; c; d; e] ∧
    15 * Z.of_nat j + 1 ≤ a ≤ 15 * Z.of_nat j + 15 ∧
    15 * Z.of_nat j + 1 ≤ b ≤ 15 * Z.of_nat j + 15 ∧
    (j = 2%nat → c = 0) ∧ (j ≠ 2%nat → 15 * Z.of_nat j + 1 ≤ c ≤ 15 * Z.of_nat j + 15) ∧
    15 * Z.of_nat j + 1 ≤ d ≤ 15 * Z.of_nat j + 15 ∧
    15 * Z.of_nat j + 1 ≤ e ≤ 15 * Z.of_nat j + 15.
Proof.
  intros [Hl Hr].
  destruct column as [|a [|b [|c [|d [|e [|]]]]]]; try discriminate.
  exists a, b, c, d, e. split; [done|].
  pose proof (Hr 0%nat a eq_refl) as H0. pose proof (Hr 1%nat b eq_refl) as H1.
  pose proof (Hr 2%nat c eq_refl) as H2.
  pose proof (Hr 3%nat d eq_refl) as H3. pose proof (Hr 4%nat e eq_refl) as H4.
  rewrite bool_decide_eq_false_2 in H0 by lia.
  rewrite bool_decide_eq_false_2 in H1 by lia.
  rewrite bool_decide_eq_false_2 in H3 by lia.
  rewrite bool_decide_eq_false_2 in H4 by lia.
  split; [lia|]. split; [lia|].
  split; [intros Hj; by rewrite bool_decide_eq_true_2 in H2 by lia|].
  split; [intros Hj; by rewrite bool_decide_eq_false_2 in H2 by lia|].
  split; lia.
Qed.

Lemma checkBingo_false_intro (card : FCard) (numbersCalled : list Z) :
  (∀ l, isLineMarked numbersCalled (Some <$> col card l) = false) →
  (∀ r, (r < 5)%nat → isLineMarked numbersCalled (rowNums card r) = false) →
  isLineMarked numbersCalled (diag1 card) = false →
  isLineMarked numbersCalled (diag2 card) = false →
  checkBingo card numbersCalled = false.
Proof.
  intros Hc Hr H1 H2. unfold checkBingo. cbn [existsb BINGO seq].
  rewrite !Hc, !Hr, H1, H2 by lia. reflexivity.
Qed.

Lemma deckCard_missing_number (card : FCard) (numbersCalled : list Z) (l : Letter) (x : Z) :
  deckCard card →
  x ∈ col card l → x ≠ 0 → x ∉ numbersCalled →
  (∀ n, n ∈ numbersCalled → n ∈ col card l) →
  checkBingo card numbersCalled = false.
Proof.
  intros Hd Hx Hx0 Hxn Hsub.
  destruct (deckColumn_inv _ _ (Hd 0%nat LB eq_refl))
    as (b0 & b1 & b2 & b3 & b4 & Eb & ? & ? & ? & ? & ? & ?).
  destruct (deckColumn_inv _ _ (Hd 1%nat LI eq_refl))
    as (i0 & i1 & i2 & i3 & i4 & Ei & ? & ? & ? & ? & ? & ?).
  destruct (deckColumn_inv _ _ (Hd 2%nat LN eq_refl))
    as (n0 & n1 & n2 & n3 & n4 & En & ? & ? & ? & ? & ? & ?).
  destruct (deckColumn_inv _ _ (Hd 3%nat LG eq_refl))
    as (g0 & g1 & g2 & g3 & g4 & Eg & ? & ? & ? & ? & ? & ?).
  destruct (deckColumn_inv _ _ (Hd 4%nat LO eq_refl))
    as (o0 & o1 & o2 & o3 & o4 & Eo & ? & ? & ? & ? & ? & ?).
  clear Hd. destruct card as [cb ci cn cg co]. cbn in Eb, Ei, En, Eg, Eo. subst.
  repeat match goal with
  | H : ?a = ?b → _ |- _ => first [ specialize (H eq_refl) | clear H ]
  | H : ?a ≠ ?b → _ |- _ => first [ specialize (H ltac:(lia)) | clear H ]
  end.
  pose proof isLineMarked_false as Hline.
  apply checkBingo_false_intro.
  - intros l'. destruct l'; destruct l; cbn [col colB colI colN colG colO] in *;
      first [ unmarked Hline x Hsub | unmarked Hline b0 Hsub | unmarked Hline i0 Hsub
            | unmarked Hline n0 Hsub | unmarked Hline g0 Hsub | unmarked Hline o0 Hsub ].
  - intros r Hr.
    destruct r as [|[|[|[|[|]]]]]; try lia; destruct l;
      cbn [col colB colI colN colG colO] in *; unfold rowNums; cbn -[isLineMarked];
      first [ unmarked Hline b0 Hsub | unmarked Hline b1 Hsub | unmarked Hline b2 Hsub
            | unmarked Hline b3 Hsub | unmarked Hline b4 Hsub | unmarked Hline i0 Hsub
            | unmarked Hline i1 Hsub | unmarked Hline i2 Hsub | unmarked Hline i3 Hsub
            | unmarked Hline i4 Hsub ].
  - destruct l; cbn [col colB colI colN colG colO] in *; unfold diag1; cbn -[isLineMarked];
      first [ unmarked Hline b0 Hsub | unmarked Hline i1 Hsub ].
  - destruct l; cbn [col colB colI colN colG colO] in *; unfold diag2; cbn -[isLineMarked];
      first [ unmarked Hline o0 Hsub | unmarked Hline g1 Hsub ].
Qed.

Lemma column_marked_wins (card : FCard) (l : Letter) (numbersCalled : list Z) :
  (∀ n, n ∈ nonFree (col card l) → n ∈ numbersCalled) →
  checkBingo card numbersCalled = true.
Proof.
  intros H. unfold checkBingo.
  replace (existsb _ BINGO) with true; [done|].
  symmetry. apply existsb_exists. exists l. split.
  { apply list_elem_of_In. destruct l; unfold BINGO; rewrite !elem_of_cons; auto 10. }
  apply isLineMarked_true. intros v (z & -> & Hz)%list_elem_of_fmap_1.
  exists z. split; [done|]. destruct (decide (z = 0)) as [|Hne]; [by left|right].
  apply H. unfold nonFree. by apply list_elem_of_filter.
Qed.

(** C5: on a deck card, calling all the non-free numbers of a column makes
    [checkBingo] true, and the calls made of exactly those numbers but one
    make it false. *)
Theorem column_line_wins_and_needs_every_number (card : FCard) (l : Letter) :
  deckCard card →
  (∀ numbersCalled,
     (∀ n, n ∈ nonFree (col card l) → n ∈ numbersCalled) →
     checkBingo card numbersCalled = true) ∧
  (∀ x numbersCalled,
     x ∈ nonFree (col card l) →
     (∀ n, n ∈ numbersCalled ↔ n ∈ nonFree (col card l) ∧ n ≠ x) →
     checkBingo card numbersCalled = false).
Proof.
  intros Hd. split.
  - intros numbersCalled H. by apply (column_marked_wins card l).
  - intros x numbersCalled [Hx0 Hx]%list_elem_of_filter Hiff.
    apply (deckCard_missing_number card numbersCalled l x); auto.
    + intros Hin. apply Hiff in Hin as [_ Hne]. done.
    + intros n Hn. apply Hiff in Hn as [[_ Hn]%list_elem_of_filter _]. done.
Qed.

Lemma sampleCard_deck : deckCard sampleCard.
Proof.
  intros j l Hj. unfold BINGO in Hj.
  destruct j as [|[|[|[|[|]]]]]; cbn in Hj; try discriminate;
    injection Hj as <-; (split; [reflexivity|]);
    intros i z Hi; destruct i as [|[|[|[|[|]]]]]; cbn in Hi; try discriminate;
    injection Hi as <-; case_bool_decide; lia.
Defined.

Lemma column_line_wins_and_needs_every_number_witness :
  checkBingo sampleCard [31; 32; 34; 35] = true ∧
  checkBingo sampleCard [31; 32; 35] = false.
Proof.
  destruct (column_line_wins_and_needs_every_number sampleCard LN sampleCard_deck) as [H1 H2].
  split.
  - apply H1. change (nonFree (col sampleCard LN)) with [31; 32; 34; 35]. auto.
  - apply (H2 34); change (nonFree (col sampleCard LN)) with [31; 32; 34; 35].
    + rewrite !elem_of_cons. auto 10.
    + intros n. rewrite !elem_of_cons, !elem_of_nil. lia.
Defined.

Lemma checkBingo_empty (card : FCard) : deckCard card → checkBingo card [] = false.
Proof.
  intros Hd.
  destruct (deckColumn_inv _ _ (Hd 0%nat LB eq_refl)) as (a & b & c & d & e & E & Ha & _).
  apply (deckCard_missing_number card [] LB a); [done| | lia | |].
  - rewrite E. apply elem_of_cons. by left.
  - by intros ?%elem_of_nil.
  - by intros n ?%elem_of_nil.
Qed.

Lemma findWinner_empty_calls (cs : list SessionCard) :
  deckSession cs → findWinner cs [] = NoWinner.
Proof.
  induction 1 as [|sc cs (card & -> & Hd) _ IH]; [done|].
  cbn. by rewrite checkBingo_empty.
Qed.

Lemma findWinner_Winner (cs : list SessionCard) (numbersCalled : list Z) card pattern :
  findWinner cs numbersCalled = Winner card pattern →
  SFormatted card ∈ cs ∧ checkBingo card numbersCalled = true ∧
  pattern = extractWinningPattern card numbersCalled.
Proof.
  induction cs as [|[c|k] cs IH]; cbn; [done| |done].
  destruct (checkBingo c numbersCalled) eqn:E.
  - intros [= <- <-]. split; [apply elem_of_cons; by left|done].
  - intros (? & ? & ?)%IH. split; [apply elem_of_cons; by right|done].
Qed.

Lemma findWinner_finds (cs : list SessionCard) (numbersCalled : list Z) card :
  deckSession cs → SFormatted card ∈ cs → checkBingo card numbersCalled = true →
  ∃ card' pattern, findWinner cs numbersCalled = Winner card' pattern.
Proof.
  induction 1 as [|sc cs (c & -> & Hd) _ IH]; [by intros ?%elem_of_nil|].
  intros [[= <-]|Hin]%elem_of_cons Hw; cbn.
  - rewrite Hw. eauto.
  - destruct (checkBingo c numbersCalled); eauto.
Qed.

Lemma holdsWinningCard_claimWins (s : State) room playerPhone :
  sessionsHoldDeckCards s room → holdsWinningCard s room playerPhone →
  ∃ card pattern, claimWins s room playerPhone card pattern.
Proof.
  intros Hs (p & w & cs & card & Hp & Hw & Hc & Hin & Hwin).
  assert (deckSession cs) as Hd.
  { eapply Hs; [|done..]. unfold playerOf in Hp.
    destruct (list_find _ _) as [[i q]|] eqn:E; [|done]. injection Hp as ->.
    apply list_find_Some in E as (E & _). by eapply list_elem_of_lookup_2. }
  destruct (findWinner_finds cs (numbersCalled room) card Hd Hin Hwin) as (c' & pat & E).
  exists c', pat, p, w, cs. done.
Qed.

Lemma claim_bingo_won ws roomId playerPhone (s : State) room card pattern :
  rooms s !! roomId = Some room → claimWins s room playerPhone card pattern →
  claim_bingo ws roomId playerPhone s =
    let s1 := set_rooms (<[roomId := endedRoom room]> (rooms s))
                (creditJackpot playerPhone (calcJackpot room) s) in
    Some (s1, broadcastWin s room playerPhone card pattern ++ updateRoomStatus s1).
Proof.
  intros Hr (p & w & cs & Hp & Hw & Hc & Hf). unfold claim_bingo, playerOf in *. rewrite Hr.
  destruct (list_find _ _) as [[i q]|]; [|done]. injection Hp as ->.
  rewrite Hw. cbn -[creditJackpot]. rewrite Hc.
  destruct cs as [|sc cs]; [done|]. rewrite Hf.
  unfold creditJackpot, broadcastWin, isOpen. by destruct (findUser playerPhone s) as [[? ?]|].
Qed.

Lemma claim_bingo_inv ws roomId playerPhone (s s1 : State) out :
  claim_bingo ws roomId playerPhone s = Some (s1, out) →
  (s1 = s ∧ (out = [] ∨ out = [(ws, MInvalidBingo)])) ∨
  ∃ room card pattern, rooms s !! roomId = Some room ∧
    claimWins s room playerPhone card pattern.
Proof.
  unfold claim_bingo. intros H.
  destruct (rooms s !! roomId) as [room|] eqn:Hr; [|injection H as <- <-; auto].
  destruct (list_find _ _) as [[i q]|] eqn:Ef; [|injection H as <- <-; auto].
  destruct (sockets s !! q) as [w|] eqn:Ew; [|injection H as <- <-; auto].
  cbn in H. destruct (ws_cards w) as [cs|] eqn:Ec; [|injection H as <- <-; auto].
  destruct cs as [|sc cs]; [injection H as <- <-; auto|].
  destruct (findWinner _ _) as [c pat| |] eqn:Efw; [|injection H as <- <-; auto|done].
  right. exists room, c, pat. split; [done|]. exists q, w, (sc :: cs).
  unfold playerOf. by rewrite Ef.
Qed.

(** C10: [extractWinningPattern] yields a pattern exactly when [checkBingo]
    holds and [null] exactly when it does not; hence every [bingo_win] that
    [claim_bingo] sends carries a pattern (and a card that passes
    [checkBingo] on the called numbers of the room). *)
Theorem extractWinningPattern_iff_checkBingo :
  (∀ (card : FCard) (numbersCalled : list Z),
     (is_Some (extractWinningPattern card numbersCalled)
      ↔ checkBingo card numbersCalled = true) ∧
     (extractWinningPattern card numbersCalled = None
      ↔ checkBingo card numbersCalled = false)) ∧
  (∀ ws roomId playerPhone (s s1 : State) out p winner winningCard winningPattern,
     claim_bingo ws roomId playerPhone s = Some (s1, out) →
     (p, MBingoWin winner winningCard winningPattern) ∈ out →
     is_Some winningPattern ∧
     ∃ room, rooms s !! roomId = Some room ∧
             checkBingo winningCard (numbersCalled room) = true ∧
             winningPattern = extractWinningPattern winningCard (numbersCalled room)).
Proof.
  split.
  - intros card numbersCalled.
    pose proof (extract_iff_check card numbersCalled) as H. split; [exact H|].
    destruct (extractWinningPattern card numbersCalled) eqn:E,
             (checkBingo card numbersCalled) eqn:C; split; intros; try done.
    + destruct H as [H _]. by specialize (H (mk_is_Some _ _ eq_refl)).
    + destruct H as [_ H]. by destruct (H eq_refl).
  - intros ws roomId playerPhone s s1 out p winner wcard wpat H Hin.
    destruct (claim_bingo_inv _ _ _ _ _ _ H) as [[_ [->| ->]]|(room & card & pattern & Hr & Hw)].
    + by apply elem_of_nil in Hin.
    + by apply elem_of_cons in Hin as [[=]|?%elem_of_nil].
    + rewrite (claim_bingo_won ws roomId playerPhone s room card pattern Hr Hw) in H.
      cbn zeta in H. injection H as <- <-.
      apply elem_of_app in Hin as [Hin|Hin].
      * unfold broadcastWin in Hin. apply list_elem_of_join in Hin as (l & Hin & Hl).
        apply list_elem_of_fmap in Hl as (q & -> & _).
        apply elem_of_cons in Hin as [[= -> -> -> ->]|Hin].
        2:{ by apply elem_of_cons in Hin as [[=]|?%elem_of_nil]. }
        destruct Hw as (q' & w & cs & _ & _ & _ & Hf).
        apply findWinner_Winner in Hf as (_ & Hc & ->).
        split; [by apply extract_iff_check|]. exists room. done.
      * unfold updateRoomStatus in Hin. by apply list_elem_of_fmap in Hin as (q & [=] & _).
Qed.

Lemma broadcastWin_elem (s : State) room playerPhone card pattern (p : nat) :
  p ∈ players room → isOpen s p = true →
  (p, MBingoWin playerPhone card pattern) ∈ broadcastWin s room playerPhone card pattern.
Proof.
  intros Hp Ho. unfold broadcastWin. apply list_elem_of_join.
  exists [(p, MBingoWin playerPhone card pattern); (p, MGameEnd)]. split.
  - apply elem_of_cons. by left.
  - apply (list_elem_of_fmap_2 (fun p => [(p, MBingoWin playerPhone card pattern); (p, MGameEnd)])).
    by apply list_elem_of_filter.
Qed.

(** ** Claims that meet at the store *)

(** Served without interruption, the cut handler is [claim_bingo]. *)
Lemma claim_bingo_uninterrupted ws roomId playerPhone (s : State) :
  claim_bingo ws roomId playerPhone s
  = match claim_bingo_until_read ws roomId playerPhone s with
    | Returned out => Some (s, out)
    | Thrown => None
    | Suspended c =>
      match resume c s with
      | (s1, out1, Some c1) => let '(s2, out2, _) := resume c1 s1 in Some (s2, out1 ++ out2)
      | (s1, out1, None) => Some (s1, out1)
      end
    end.
Proof.
  unfold claim_bingo, claim_bingo_until_read.
  destruct (rooms s !! roomId) as [room|] eqn:Hr; [|done].
  destruct (list_find _ _) as [[i q]|]; [|done].
  destruct (sockets s !! q ≫= _) as [[|sc cs]|]; [done| |done].
  destruct (findWinner _ _) as [card pat| |]; [|done..].
  cbn -[calcJackpot creditJackpot]. unfold claim_bingo_after_read.
  cbn -[calcJackpot creditJackpot].
  destruct (findUser playerPhone s) as [[j u]|] eqn:Hu.
  - cbn -[calcJackpot creditJackpot]. unfold claim_bingo_after_write.
    cbn -[calcJackpot creditJackpot].
    assert (rooms (creditJackpot playerPhone (calcJackpot room) s) = rooms s) as ->.
    { unfold creditJackpot. by rewrite Hu. }
    rewrite Hr. done.
  - unfold claim_bingo_after_write. cbn -[calcJackpot creditJackpot]. rewrite Hr.
    unfold creditJackpot. rewrite Hu. done.
Qed.

Lemma creditJackpot_rooms playerPhone j (s : State) :
  rooms (creditJackpot playerPhone j s) = rooms s.
Proof. unfold creditJackpot. by destruct (findUser _ _) as [[? ?]|]. Qed.

Lemma creditJackpot_sockets playerPhone j (s : State) :
  sockets (creditJackpot playerPhone j s) = sockets s.
Proof. unfold creditJackpot. by destruct (findUser _ _) as [[? ?]|]. Qed.

Lemma creditJackpot_allClients playerPhone j (s : State) :
  allClients (creditJackpot playerPhone j s) = allClients s.
Proof. unfold creditJackpot. by destruct (findUser _ _) as [[? ?]|]. Qed.

(** Crediting a record keeps every handle where it is in the store. *)
Lemma findUser_creditJackpot playerPhone j p (s : State) :
  is_Some (findUser p (creditJackpot playerPhone j s)) ↔ is_Some (findUser p s).
Proof.
  unfold creditJackpot. destruct (findUser playerPhone s) as [[i u]|] eqn:Hu; [|done].
  unfold findUser in *. cbn [db_players set_db_players].
  apply list_find_Some in Hu as (Hi & Hp & _).
  set (u' := set_wins _ _).
  assert (phone u' = phone u) as Hph by done.
  rewrite <-!not_eq_None_Some.
  assert (∀ l : list User, list_find (fun u => phone u = p) l = None
            ↔ Forall (fun u => phone u ≠ p) l) as HN.
  { intros l. by rewrite list_find_None. }
  rewrite !HN. rewrite !Forall_forall.
  split; intros H Hall; apply H; intros x Hx.
  - apply list_elem_of_lookup in Hx as (k & Hk).
    destruct (decide (k = i)) as [->|Hne].
    + rewrite list_lookup_insert_eq in Hk by (by eapply lookup_lt_Some).
      injection Hk as <-. rewrite Hph. apply Hall. by eapply list_elem_of_lookup_2.
    + rewrite list_lookup_insert_ne in Hk by done.
      apply Hall. by eapply list_elem_of_lookup_2.
  - apply list_elem_of_lookup in Hx as (k & Hk).
    destruct (decide (k = i)) as [->|Hne].
    + assert (x = u) as -> by congruence. rewrite <-Hph. apply Hall.
      eapply list_elem_of_lookup_2. apply list_lookup_insert_eq. by eapply lookup_lt_Some.
    + apply Hall. eapply list_elem_of_lookup_2. by rewrite list_lookup_insert_ne.
Qed.

Lemma awaits_creditJackpot playerPhone j p m (s : State) :
  awaits p (set_rooms m (creditJackpot playerPhone j s)) = awaits p s.
Proof.
  unfold awaits. change (findUser p (set_rooms m ?t)) with (findUser p t).
  pose proof (findUser_creditJackpot playerPhone j p s) as H.
  destruct (findUser p (creditJackpot _ _ _)), (findUser p s); try done.
  - destruct H as [H _]. by destruct (H (mk_is_Some _ _ eq_refl)).
  - destruct H as [_ H]. by destruct (H (mk_is_Some _ _ eq_refl)).
Qed.

Lemma sessionOf_frame (s s' : State) room room' playerPhone :
  sockets s' = sockets s → players room' = players room →
  sessionOf s' room' playerPhone = sessionOf s room playerPhone.
Proof. intros Hs Hp. unfold sessionOf, playerOf. by rewrite Hs, Hp. Qed.

Lemma claimWins_frame (s s' : State) room room' playerPhone card pattern :
  sockets s' = sockets s → players room' = players room →
  numbersCalled room' = numbersCalled room →
  claimWins s room playerPhone card pattern → claimWins s' room' playerPhone card pattern.
Proof.
  intros Hs Hp Hn (p & w & cs & H1 & H2 & H3 & H4). exists p, w, cs.
  unfold playerOf in *. by rewrite Hs, Hp, Hn.
Qed.

Lemma broadcastWin_frame (s s' : State) room room' playerPhone card pattern :
  sockets s' = sockets s → players room' = players room →
  broadcastWin s' room' playerPhone card pattern = broadcastWin s room playerPhone card pattern.
Proof. intros Hs Hp. unfold broadcastWin, isOpen. by rewrite Hs, Hp. Qed.

(** The search of a winning claim ends at [await db.read()]. *)
Lemma claim_bingo_until_read_wins ws roomId playerPhone (s : State) room card pattern :
  rooms s !! roomId = Some room → claimWins s room playerPhone card pattern →
  claim_bingo_until_read ws roomId playerPhone s
  = Suspended (mkClaim roomId playerPhone card pattern (calcJackpot room) AtRead).
Proof.
  intros Hr (p & w & cs & Hp & Hw & Hc & Hf). unfold claim_bingo_until_read, playerOf in *.
  rewrite Hr. destruct (list_find _ _) as [[i q]|]; [|done]. injection Hp as ->.
  rewrite Hw. cbn -[calcJackpot]. rewrite Hc.
  destruct cs as [|sc cs]; [done|]. by rewrite Hf.
Qed.

(** Without called numbers a claim for a handle whose session holds deck
    cards only, no card or no socket of the room is answered
    [invalid_bingo]. *)
Lemma claim_bingo_until_read_no_calls ws roomId playerPhone (s : State) room :
  rooms s !! roomId = Some room → numbersCalled room = [] →
  (∀ cs, sessionOf s room playerPhone = Some cs → deckSession cs) →
  claim_bingo_until_read ws roomId playerPhone s = Returned [(ws, MInvalidBingo)].
Proof.
  intros Hr Hn Hs. unfold claim_bingo_until_read. rewrite Hr.
  unfold sessionOf, playerOf in Hs.
  destruct (list_find _ (players room)) as [[i player]|]; [|done]. cbn in Hs.
  destruct (sockets s !! player) as [w|]; [|done]. cbn in *.
  destruct (ws_cards w) as [cs|]; [|done].
  destruct cs as [|sc cs]; [done|].
  rewrite Hn, findWinner_empty_calls; [done|]. by apply Hs.
Qed.

(** A session that starts with one of the room's own card objects makes the
    search throw, whatever has been called. *)
Lemma claim_bingo_until_read_throws ws roomId playerPhone (s : State) room cardId cs :
  rooms s !! roomId = Some room →
  sessionOf s room playerPhone = Some (SRoomCard cardId :: cs) →
  claim_bingo_until_read ws roomId playerPhone s = Thrown.
Proof.
  intros Hr Hs. unfold claim_bingo_until_read. rewrite Hr.
  unfold sessionOf, playerOf in Hs.
  destruct (list_find _ (players room)) as [[i player]|]; [|done]. cbn in Hs.
  destruct (sockets s !! player) as [w|]; [|done]. cbn in *.
  by rewrite Hs.
Qed.

Lemma runTurns_app (ts ts' : list Turn) (l : Loop) :
  runTurns (ts ++ ts') l
  = '(l1, out1) ← runTurns ts l; '(l2, out2) ← runTurns ts' l1; Some (l2, out1 ++ out2).
Proof.
  revert l. induction ts as [|t ts IH]; intros l; cbn.
  - by destruct (runTurns ts' l) as [[? ?]|].
  - destruct (turn t l) as [[l1 o1]|]; [|done]. cbn. rewrite IH.
    destruct (runTurns ts l1) as [[l2 o2]|]; [|done]. cbn.
    destruct (runTurns ts' l2) as [[l3 o3]|]; [|done]. cbn. by rewrite app_assoc.
Qed.

(** The room and the state as the end of a winning claim leaves them. *)
Lemma claim_bingo_after_write_ends (c : Claim) (s : State) room :
  rooms s !! cl_roomId c = Some room →
  claim_bingo_after_write c s
  = let s1 := set_rooms (<[cl_roomId c := endedRoom room]> (rooms s)) s in
    (s1, broadcastWin s room (cl_playerPhone c) (cl_winningCard c) (cl_winningPattern c)
           ++ updateRoomStatus s1).
Proof. intros Hr. unfold claim_bingo_after_write. by rewrite Hr. Qed.

(** The oldest suspended handler, waiting for [db.write()], is resumed. *)
Lemma resume_oldest_at_write (c : Claim) (rest : list Claim) (s : State) room :
  cl_at c = AtWrite → rooms s !! cl_roomId c = Some room →
  turn (Resume 0) (mkLoop s (c :: rest))
  = let s1 := set_rooms (<[cl_roomId c := endedRoom room]> (rooms s)) s in
    Some (mkLoop s1 rest,
          broadcastWin s room (cl_playerPhone c) (cl_winningCard c) (cl_winningPattern c)
            ++ updateRoomStatus s1).
Proof.
  intros Ha Hr. unfold turn. cbn [waiting current].
  change ((c :: rest) !! 0%nat) with (Some c). cbn [mbind option_bind].
  unfold resume. destruct (cl_at c); [discriminate|].
  by rewrite (claim_bingo_after_write_ends c s room Hr).
Qed.

(** The oldest suspended handler, waiting for [db.read()], is resumed: with
    a record of the winner it moves on to [db.write()]. *)
Lemma resume_oldest_at_read (c : Claim) (rest : list Claim) (s : State) i u :
  cl_at c = AtRead → findUser (cl_playerPhone c) s = Some (i, u) →
  turn (Resume 0) (mkLoop s (c :: rest))
  = Some (mkLoop (creditJackpot (cl_playerPhone c) (cl_jackpot c) s)
                 (set_at AtWrite c :: rest), []).
Proof.
  intros Ha Hu. unfold turn. cbn [waiting current].
  change ((c :: rest) !! 0%nat) with (Some c). cbn [mbind option_bind].
  unfold resume. destruct (cl_at c); [|discriminate].
  unfold claim_bingo_after_read. by rewrite Hu.
Qed.

Lemma resume_oldest_without_record (c : Claim) (rest : list Claim) (s : State) room :
  cl_at c = AtRead → findUser (cl_playerPhone c) s = None →
  rooms s !! cl_roomId c = Some room →
  turn (Resume 0) (mkLoop s (c :: rest))
  = let s1 := set_rooms (<[cl_roomId c := endedRoom room]> (rooms s)) s in
    Some (mkLoop s1 rest,
          broadcastWin s room (cl_playerPhone c) (cl_winningCard c) (cl_winningPattern c)
            ++ updateRoomStatus s1).
Proof.
  intros Ha Hu Hr. unfold turn. cbn [waiting current].
  change ((c :: rest) !! 0%nat) with (Some c). cbn [mbind option_bind].
  unfold resume. destruct (cl_at c); [|discriminate].
  unfold claim_bingo_after_read. rewrite Hu.
  by rewrite (claim_bingo_after_write_ends c s room Hr).
Qed.

Lemma runTurns_cons (t : Turn) (ts : list Turn) (l : Loop) :
  runTurns (t :: ts) l
  = '(l1, out1) ← turn t l; '(l2, out2) ← runTurns ts l1; Some (l2, out1 ++ out2).
Proof. done. Qed.

(** The oldest suspended handler, waiting for [db.read()], is resumed until
    it ends. *)
Lemma resume_oldest_to_the_end (c : Claim) (rest : list Claim) (s : State) room :
  cl_at c = AtRead → rooms s !! cl_roomId c = Some room →
  runTurns (replicate (awaits (cl_playerPhone c) s) (Resume 0)) (mkLoop s (c :: rest))
  = let s1 := set_rooms (<[cl_roomId c := endedRoom room]> (rooms s))
                (creditJackpot (cl_playerPhone c) (cl_jackpot c) s) in
    Some (mkLoop s1 rest,
          broadcastWin s room (cl_playerPhone c) (cl_winningCard c) (cl_winningPattern c)
            ++ updateRoomStatus s1).
Proof.
  intros Ha Hr. unfold awaits.
  destruct (findUser (cl_playerPhone c) s) as [[i u]|] eqn:Hu.
  - cbn [replicate]. rewrite runTurns_cons, (resume_oldest_at_read c rest s i u Ha Hu).
    cbn [mbind option_bind]. rewrite runTurns_cons.
    rewrite (resume_oldest_at_write (set_at AtWrite c) rest _ room) by
      (first [done | by rewrite creditJackpot_rooms]).
    cbn -[creditJackpot]. rewrite creditJackpot_rooms.
    rewrite (broadcastWin_frame s _ room room) by (by rewrite ?creditJackpot_sockets).
    by rewrite app_nil_r.
  - cbn [replicate]. rewrite runTurns_cons.
    rewrite (resume_oldest_without_record c rest s room Ha Hu Hr).
    cbn -[creditJackpot]. unfold creditJackpot. rewrite Hu. by rewrite app_nil_r.
Qed.

Lemma arrive_wins ws roomId playerPhone (s : State) (wait : list Claim) room card pattern :
  rooms s !! roomId = Some room → claimWins s room playerPhone card pattern →
  turn (Arrive ws roomId playerPhone) (mkLoop s wait)
  = Some (mkLoop s (wait ++ [mkClaim roomId playerPhone card pattern (calcJackpot room) AtRead]),
          []).
Proof.
  intros Hr Hw. unfold turn. cbn [current waiting].
  by rewrite (claim_bingo_until_read_wins ws roomId playerPhone s room card pattern Hr Hw).
Qed.

Lemma broadcastWin_only_results (s : State) room playerPhone card pattern (p : nat) :
  (p, MInvalidBingo) ∉ broadcastWin s room playerPhone card pattern.
Proof.
  unfold broadcastWin. intros (l & Hin & Hl)%list_elem_of_join.
  apply list_elem_of_fmap in Hl as (q & -> & _).
  apply elem_of_cons in Hin as [[=]|Hin]. by apply elem_of_cons in Hin as [[=]|?%elem_of_nil].
Qed.

Lemma updateRoomStatus_only_status (s : State) (p : nat) :
  (p, MInvalidBingo) ∉ updateRoomStatus s.
Proof. unfold updateRoomStatus. by intros (q & [=] & _)%list_elem_of_fmap. Qed.

Lemma isOpen_frame (s s' : State) (p : nat) : sockets s' = sockets s → isOpen s' p = isOpen s p.
Proof. intros H. unfold isOpen. by rewrite H. Qed.

(** C1: in a room where the search of [claim_bingo] ends on a winning card
    for both [A] and [B], the claim of [A] served to its end before anything
    else arrives is declared the winner and leaves the room with no game
    started, no called numbers and no pending interval.  Claims served after
    that are answered [invalid_bingo] one by one and change nothing when the
    session searched for their handle holds deck cards only (or there is
    none); a claim whose session starts with a card object stored by
    [join_room] makes the handler throw instead (a claim changes no
    session, so the sessions are those of [s]).  If the claim of [B]
    arrives while the handler of [A] still waits for the store, after [k]
    of its awaits, it meets the room before the reset: both claims are
    broadcast as wins to every open socket of the room and no
    [invalid_bingo] is sent. *)
Theorem first_claim_wins_later_claim_may_win_or_throw
    (wsA wsB : nat) (roomId A B : string) (s : State) room cardA patA cardB patB :
  rooms s !! roomId = Some room →
  claimWins s room A cardA patA →
  claimWins s room B cardB patB →
  (∃ s1 out1 room1,
     runTurns (Arrive wsA roomId A :: replicate (awaits A s) (Resume 0)) (mkLoop s [])
     = Some (mkLoop s1 [], out1) ∧
     claim_bingo wsA roomId A s = Some (s1, out1) ∧
     (∀ p, p ∈ players room → isOpen s p = true →
           (p, MBingoWin A cardA patA) ∈ out1) ∧
     rooms s1 !! roomId = Some room1 ∧
     gameStarted room1 = false ∧ numbersCalled room1 = [] ∧ gameInterval room1 = None ∧
     (∀ later : list (nat * string),
        Forall (fun c => ∀ cs, sessionOf s room c.2 = Some cs → deckSession cs) later →
        runTurns ((fun c => Arrive c.1 roomId c.2) <$> later) (mkLoop s1 [])
        = Some (mkLoop s1 [], (fun c => (c.1, MInvalidBingo)) <$> later)) ∧
     (∀ ws playerPhone cardId cs,
        sessionOf s room playerPhone = Some (SRoomCard cardId :: cs) →
        turn (Arrive ws roomId playerPhone) (mkLoop s1 []) = None ∧
        claim_bingo ws roomId playerPhone s1 = None)) ∧
  (∀ k, (k < awaits A s)%nat →
     ∃ s2 out,
       runTurns (Arrive wsA roomId A :: replicate k (Resume 0)
                 ++ Arrive wsB roomId B
                    :: replicate (awaits A s - k + awaits B s) (Resume 0)) (mkLoop s [])
       = Some (mkLoop s2 [], out) ∧
       (∀ p, p ∈ players room → isOpen s p = true →
             (p, MBingoWin A cardA patA) ∈ out ∧ (p, MBingoWin B cardB patB) ∈ out) ∧
       (∀ p, (p, MInvalidBingo) ∉ out)).
Proof.
  intros Hr HA HB.
  set (cA := mkClaim roomId A cardA patA (calcJackpot room) AtRead).
  set (cB := mkClaim roomId B cardB patB (calcJackpot room) AtRead).
  set (s1 := set_rooms (<[roomId := endedRoom room]> (rooms s))
               (creditJackpot A (calcJackpot room) s)).
  assert (rooms s1 !! roomId = Some (endedRoom room)) as Hr1.
  { subst s1. cbn [rooms set_rooms]. apply lookup_insert_eq. }
  assert (sockets s1 = sockets s) as Hso1.
  { subst s1. cbn [sockets set_rooms]. apply creditJackpot_sockets. }
  pose proof (resume_oldest_to_the_end cA) as EA. cbn [cA cl_playerPhone cl_roomId cl_at
    cl_winningCard cl_winningPattern cl_jackpot] in EA.
  pose proof (resume_oldest_to_the_end cB) as EB. cbn [cB cl_playerPhone cl_roomId cl_at
    cl_winningCard cl_winningPattern cl_jackpot] in EB.
  split.
  - exists s1, (broadcastWin s room A cardA patA ++ updateRoomStatus s1), (endedRoom room).
    split.
    { rewrite runTurns_cons, (arrive_wins wsA roomId A s [] room cardA patA Hr HA).
      cbn [mbind option_bind app]. fold cA. rewrite (EA [] s room eq_refl Hr). done. }
    split. { by rewrite (claim_bingo_won wsA roomId A s room cardA patA Hr HA). }
    split. { intros p Hp Ho. apply elem_of_app. left. by apply broadcastWin_elem. }
    split; [exact Hr1|]. do 3 (split; [done|]). split.
    + intros later Hl. induction Hl as [|[ws ph] later Hq _ IH]; [done|].
      cbn [fmap list_fmap fst snd]. rewrite runTurns_cons. unfold turn at 1.
      cbn [current waiting].
      rewrite (claim_bingo_until_read_no_calls ws roomId ph s1 (endedRoom room) Hr1 eq_refl).
      2:{ intros cs. rewrite (sessionOf_frame s s1 room (endedRoom room)) by done. apply Hq. }
      cbn [mbind option_bind]. change (list_fmap ?A ?B ?f ?l) with (f <$> l) in IH.
      rewrite IH. done.
    + intros ws ph cardId cs Hs.
      assert (claim_bingo_until_read ws roomId ph s1 = Thrown) as E.
      { apply (claim_bingo_until_read_throws ws roomId ph s1 (endedRoom room) cardId cs Hr1).
        by rewrite (sessionOf_frame s s1 room (endedRoom room)). }
      split.
      * unfold turn. cbn [current]. by rewrite E.
      * by rewrite claim_bingo_uninterrupted, E.
  - intros k Hk.
    assert (awaits B s1 = awaits B s) as HnB by apply awaits_creditJackpot.
    set (s2 := set_rooms (<[roomId := endedRoom (endedRoom room)]> (rooms s1))
                 (creditJackpot B (calcJackpot room) s1)).
    assert (runTurns (replicate (awaits B s) (Resume 0)) (mkLoop s1 [cB])
            = Some (mkLoop s2 [], broadcastWin s room B cardB patB ++ updateRoomStatus s2))
      as EB1.
    { rewrite <-HnB, (EB [] s1 (endedRoom room) eq_refl Hr1). cbn zeta.
      by rewrite (broadcastWin_frame s s1 room (endedRoom room)). }
    exists s2, ((broadcastWin s room A cardA patA ++ updateRoomStatus s1)
                ++ broadcastWin s room B cardB patB ++ updateRoomStatus s2).
    split; [|split].
    + destruct k as [|k].
      * rewrite Nat.sub_0_r, replicate_add. cbn [replicate app].
        rewrite runTurns_cons, (arrive_wins wsA roomId A s [] room cardA patA Hr HA).
        cbn [mbind option_bind app]. fold cA.
        rewrite runTurns_cons, (arrive_wins wsB roomId B s [cA] room cardB patB Hr HB).
        cbn [mbind option_bind app]. fold cB.
        rewrite runTurns_app, (EA [cB] s room eq_refl Hr). cbn zeta. fold s1.
        cbn [mbind option_bind]. rewrite EB1. done.
      * unfold awaits in Hk |- * at 1.
        destruct (findUser A s) as [[i u]|] eqn:Hu; [|lia].
        assert (k = 0%nat) as -> by lia. cbn [replicate app Nat.sub Nat.add].
        rewrite runTurns_cons, (arrive_wins wsA roomId A s [] room cardA patA Hr HA).
        cbn [mbind option_bind app]. fold cA.
        rewrite runTurns_cons, (resume_oldest_at_read cA [] s i u eq_refl Hu).
        cbn [mbind option_bind app cA cl_playerPhone cl_jackpot].
        set (sC := creditJackpot A (calcJackpot room) s).
        assert (rooms sC !! roomId = Some room) as HrC.
        { subst sC. by rewrite creditJackpot_rooms. }
        assert (sockets sC = sockets s) as HsoC by apply creditJackpot_sockets.
        rewrite runTurns_cons.
        rewrite (arrive_wins wsB roomId B sC _ room cardB patB HrC).
        2:{ by apply (claimWins_frame s sC room room). }
        cbn [mbind option_bind app]. fold cB. rewrite runTurns_cons.
        rewrite (resume_oldest_at_write (set_at AtWrite cA) [cB] sC room) by done.
        cbn [mbind option_bind set_at cA cl_roomId cl_playerPhone cl_winningCard
               cl_winningPattern cl_jackpot]. cbn zeta.
        change (set_rooms (<[roomId:=endedRoom room]> (rooms sC)) sC) with
          (set_rooms (<[roomId:=endedRoom room]> (rooms sC)) (creditJackpot A (calcJackpot room) s)).
        subst sC. rewrite creditJackpot_rooms. fold s1.
        rewrite EB1. cbn [mbind option_bind].
        rewrite (broadcastWin_frame s _ room room) by (by rewrite ?creditJackpot_sockets).
        done.
    + intros p Hp Ho. rewrite !elem_of_app. split.
      * left. left. by apply broadcastWin_elem.
      * right. left. by apply broadcastWin_elem.
    + intros p. rewrite !elem_of_app.
      intros [[H|H]|[H|H]];
        first [ by apply broadcastWin_only_results in H
              | by apply updateRoomStatus_only_status in H ].
Qed.

Lemma sampleCard2_deck : deckCard sampleCard2.
Proof.
  intros j l Hj. unfold BINGO in Hj.
  destruct j as [|[|[|[|[|]]]]]; cbn in Hj; try discriminate;
    injection Hj as <-; (split; [reflexivity|]);
    intros i z Hi; destruct i as [|[|[|[|[|]]]]]; cbn in Hi; try discriminate;
    injection Hi as <-; case_bool_decide; lia.
Defined.


Example rejoinState_reached : fst <$> run rejoinEvents lobbyStart = Some rejoinState.
Proof. vm_compute. reflexivity. Qed.

Lemma rejoinState_deck_sessions (playerPhone : string) :
  playerPhone = "A" ∨ playerPhone = "B" →
  ∀ cs, sessionOf rejoinState rejoinRoom playerPhone = Some cs → deckSession cs.
Proof.
  intros [-> | ->] cs H; vm_compute in H; injection H as <-;
    (constructor; [|constructor]); eexists; (split; [reflexivity|]).
  - apply sampleCard_deck.
  - apply sampleCard2_deck.
Qed.

Lemma first_claim_wins_later_claim_may_win_or_throw_witness :
  (∃ s1 out1,
     claim_bingo 0 "room_10" "A" rejoinState = Some (s1, out1) ∧
     (1%nat, MBingoWin "A" sampleCard columnBLine) ∈ out1 ∧
     runTurns [Arrive 1 "room_10" "B"; Arrive 0 "room_10" "A"] (mkLoop s1 [])
     = Some (mkLoop s1 [], [(1%nat, MInvalidBingo); (0%nat, MInvalidBingo)]) ∧
     claim_bingo 2 "room_10" "C" s1 = None) ∧
  (∃ s2 out,
     runTurns [Arrive 0 "room_10" "A"; Arrive 1 "room_10" "B";
               Resume 0; Resume 0; Resume 0; Resume 0] (mkLoop rejoinState [])
     = Some (mkLoop s2 [], out) ∧
     (0%nat, MBingoWin "A" sampleCard columnBLine) ∈ out ∧
     (0%nat, MBingoWin "B" sampleCard2 columnBLine) ∈ out) ∧
  (∃ s2 out,
     runTurns [Arrive 0 "room_10" "A"; Resume 0; Arrive 1 "room_10" "B";
               Resume 0; Resume 0; Resume 0] (mkLoop rejoinState [])
     = Some (mkLoop s2 [], out) ∧
     (0%nat, MBingoWin "A" sampleCard columnBLine) ∈ out ∧
     (0%nat, MBingoWin "B" sampleCard2 columnBLine) ∈ out).
Proof.
  destruct (first_claim_wins_later_claim_may_win_or_throw 0 1 "room_10" "A" "B"
              rejoinState rejoinRoom sampleCard columnBLine sampleCard2 columnBLine)
    as [(s1 & out1 & room1 & _ & E1 & Hwin & _ & _ & _ & _ & Hlater & Hthrow) Hrace].
  - reflexivity.
  - exists 0%nat, (mkSocket (Some "A") (Some [SFormatted sampleCard]) true),
      [SFormatted sampleCard].
    split; [reflexivity|]. split; [reflexivity|]. split; reflexivity.
  - exists 1%nat, (mkSocket (Some "B") (Some [SFormatted sampleCard2]) true),
      [SFormatted sampleCard2].
    split; [reflexivity|]. split; [reflexivity|]. split; reflexivity.
  - assert (0%nat ∈ players rejoinRoom) as H0 by (apply elem_of_cons; by left).
    assert (1%nat ∈ players rejoinRoom) as H1
      by (apply elem_of_cons; right; apply elem_of_cons; by left).
    split; [|split].
    + exists s1, out1. split; [exact E1|]. split; [by apply Hwin|]. split.
      * apply (Hlater [(1%nat, "B"); (0%nat, "A")]).
        constructor; [|constructor; [|constructor]];
          apply rejoinState_deck_sessions; auto.
      * apply (Hthrow 2%nat "C" 3 []). reflexivity.
    + destruct (Hrace 0%nat) as (s2 & out & E & Hboth & _); [vm_compute; lia|].
      exists s2, out. split; [exact E|]. by apply Hboth.
    + destruct (Hrace 1%nat) as (s2 & out & E & Hboth & _); [vm_compute; lia|].
      exists s2, out. split; [exact E|]. by apply Hboth.
Defined.

(** ** Card selection *)

Lemma takenBy_is_true (p : string) (c : Card) :
  takenBy_is (Some p) c = true ↔ takenBy c = Some p.
Proof.
  unfold takenBy_is. destruct (takenBy c) as [a|]; [|done].
  rewrite String.eqb_eq. split; [by intros ->|by intros [= ->]].
Qed.

Lemma freeFor_spec (phone : string) (card : Card) :
  truthy (takenBy card) && negb (takenBy_is (Some phone) card) = false ↔ freeFor phone card.
Proof.
  unfold freeFor, truthy, takenBy_is. destruct (takenBy card) as [a|]; cbn; [|tauto].
  destruct (String.eqb a "") eqn:E1, (String.eqb a phone) eqn:E2; cbn;
    rewrite ?String.eqb_eq, ?String.eqb_neq in *; subst; split; intros H; try done; auto.
  destruct H as [|[[= ->]|[= ->]]]; done.
Qed.

Lemma heldBy_insert (p : string) (room : Room) (i : nat) (card card' : Card) :
  cards room !! i = Some card →
  heldBy p (set_cards (<[i := card']> (cards room)) room)
  = (heldBy p room
     - (if takenBy_is (Some p) card then 1 else 0)
     + (if takenBy_is (Some p) card' then 1 else 0))%nat.
Proof.
  intros Hi. unfold heldBy, cardsOf. cbn.
  rewrite <-(take_drop_middle _ _ _ Hi) at 2.
  rewrite insert_take_drop by (by eapply lookup_lt_Some).
  rewrite !filter_app, !filter_cons, !length_app.
  destruct (takenBy_is (Some p) card) eqn:E1, (takenBy_is (Some p) card') eqn:E2;
    repeat case_decide; try congruence; cbn; lia.
Qed.









Lemma select_card_heldBy ws roomId phone cardId (s : State) rid room (p : string) :
  rooms s !! rid = Some room → (heldBy p room ≤ 4)%nat →
  ∃ room', rooms (select_card ws roomId phone cardId s).1 !! rid = Some room' ∧
           (heldBy p room' ≤ 4)%nat.
Proof.
  intros Hr Hh. unfold select_card.
  destruct (rooms s !! roomId) as [room0|] eqn:Hr0; [|by eauto].
  destruct (list_find _ (cards room0)) as [[i card]|] eqn:Ef; [|by eauto].
  destruct (truthy _ && _) eqn:Et; [by eauto|].
  case_bool_decide as Hc; [by eauto|]. cbn.
  destruct (decide (roomId = rid)) as [->|Hne].
  - rewrite lookup_insert_eq. rewrite Hr in Hr0. injection Hr0 as <-.
    eexists. split; [reflexivity|].
    apply list_find_Some in Ef as (Hi & _ & _).
    change (heldBy p (set_cards (<[i := set_takenBy (Some phone) card]> (cards room)) room) ≤ 4)%nat.
    rewrite (heldBy_insert p room i card) by done.
    destruct (decide (p = phone)) as [->|Hp].
    + unfold heldBy in *. destruct (takenBy_is _ card), (takenBy_is _ (set_takenBy _ card)); lia.
    + replace (takenBy_is (Some p) (set_takenBy (Some phone) card)) with false.
      { destruct (takenBy_is _ card); lia. }
      symmetry. apply not_true_is_false. intros H%takenBy_is_true. cbn in H. congruence.
  - rewrite lookup_insert_ne by done. eauto.
Qed.

(** C3: whatever [select_card] requests are served, in any order and for any
    sockets, rooms, handles and cards, a player who holds at most four cards
    of a room before them holds at most four cards of it after them. *)
Theorem at_most_four_cards_held (reqs : list (nat * string * string * Z)) (s : State)
    (roomId : string) (room : Room) (p : string) :
  rooms s !! roomId = Some room → (heldBy p room ≤ 4)%nat →
  ∃ room', rooms (runSelects reqs s) !! roomId = Some room' ∧ (heldBy p room' ≤ 4)%nat.
Proof.
  revert s room. induction reqs as [|[[[ws rid] phone] cardId] reqs IH]; intros s room Hr Hh.
  - by eauto.
  - destruct (select_card_heldBy ws rid phone cardId s roomId room p Hr Hh) as (room1 & Hr1 & Hh1).
    apply (IH _ room1 Hr1 Hh1).
Qed.

Lemma at_most_four_cards_held_witness :
  ∃ room', rooms (runSelects [(0%nat, "room_10", "A", 1); (0%nat, "room_10", "A", 2);
                              (0%nat, "room_10", "A", 3); (0%nat, "room_10", "A", 4);
                              (0%nat, "room_10", "A", 5); (1%nat, "room_10", "B", 2)]
                             sampleState) !! "room_10" = Some room' ∧
           (heldBy "A" room' ≤ 4)%nat.
Proof.
  apply (at_most_four_cards_held _ sampleState "room_10" sampleRoom "A").
  - reflexivity.
  - vm_compute. lia.
Defined.

Example runSelects_fifth_refused :
  (λ room, (id <$> cardsOf (Some "A") room, id <$> cardsOf (Some "B") room)) <$>
    (rooms (runSelects [(0%nat, "room_10", "A", 1); (0%nat, "room_10", "A", 2);
                              (0%nat, "room_10", "A", 3); (0%nat, "room_10", "A", 4);
                              (0%nat, "room_10", "A", 5); (1%nat, "room_10", "B", 2);
                              (1%nat, "room_10", "B", 6)]
                             sampleState) !! "room_10")
  = Some ([1; 2; 3; 4], [6]).
Proof. vm_compute. reflexivity. Qed.

(** ** The number caller *)

Lemma callerStep_refl (room : Room) : callerStep room room.
Proof. by left. Qed.

(** The effect of replacing the room [roomId] on a lookup. *)
Lemma rooms_insert_step (s : State) (roomId rid : string) (room0 room1 room : Room) :
  rooms s !! roomId = Some room0 → callerStep room0 room1 →
  rooms s !! rid = Some room →
  ∃ room', <[roomId := room1]> (rooms s) !! rid = Some room' ∧ callerStep room room'.
Proof.
  intros H0 Hs Hr. destruct (decide (roomId = rid)) as [->|Hne].
  - rewrite lookup_insert_eq. rewrite Hr in H0. injection H0 as ->. eauto.
  - rewrite lookup_insert_ne by done. eauto using callerStep_refl.
Qed.

Lemma sameCaller_refl (room : Room) : sameCaller room room.
Proof. done. Qed.

Lemma rooms_insert_same (s : State) (roomId rid : string) (room0 room1 room : Room) :
  rooms s !! roomId = Some room0 → sameCaller room0 room1 →
  rooms s !! rid = Some room →
  ∃ room', <[roomId := room1]> (rooms s) !! rid = Some room' ∧ sameCaller room room'.
Proof.
  intros H0 Hs Hr. destruct (decide (roomId = rid)) as [->|Hne].
  - rewrite lookup_insert_eq. rewrite Hr in H0. injection H0 as ->. eauto.
  - rewrite lookup_insert_ne by done. eauto using sameCaller_refl.
Qed.

Lemma reviewCards_rooms (roomId : string) (room : Room) (l : list nat) (acc : State * list Sent) :
  rooms (foldl (fun acc ws => reviewCards roomId room ws acc) acc l).1 = rooms acc.1 ∧
  db_players (foldl (fun acc ws => reviewCards roomId room ws acc) acc l).1 = db_players acc.1 ∧
  allClients (foldl (fun acc ws => reviewCards roomId room ws acc) acc l).1 = allClients acc.1.
Proof.
  revert acc. induction l as [|ws l IH]; intros [s out]; [done|].
  cbn [foldl]. destruct (IH (reviewCards roomId room ws (s, out))) as (-> & -> & ->). done.
Qed.

Lemma startRoomCountdown_same (roomId : string) (s : State) rid room :
  rooms s !! rid = Some room →
  ∃ room', rooms (startRoomCountdown roomId s).1 !! rid = Some room' ∧ sameCaller room room'.
Proof.
  intros Hr. unfold startRoomCountdown.
  destruct (rooms s !! roomId) as [room0|] eqn:H0; [|eauto using sameCaller_refl].
  destruct (countdown room0); [eauto using sameCaller_refl|].
  destruct (reviewCards_rooms roomId
    (set_countdown (Some (if currentCountdown room0 =? 0 then 60 else currentCountdown room0)) room0)
    (players room0)
    (set_rooms (<[roomId := set_countdown
       (Some (if currentCountdown room0 =? 0 then 60 else currentCountdown room0)) room0]> (rooms s)) s, []))
    as (E & _).
  cbn [players set_countdown] in *. rewrite E. cbn.
  by eapply rooms_insert_same.
Qed.

Lemma startGame_step (roomId : string) (s : State) rid room :
  rooms s !! rid = Some room →
  ∃ room', rooms (startGame roomId s) !! rid = Some room' ∧ callerStep room room'.
Proof.
  intros Hr. unfold startGame.
  destruct (rooms s !! roomId) as [room0|] eqn:H0; [|eauto using callerStep_refl].
  destruct (gameStarted room0) eqn:Eg; [eauto using callerStep_refl|]. cbn.
  eapply rooms_insert_step; [done| |done]. right. right. left. done.
Qed.

Lemma callerStep_frame (room room1 room2 : Room) :
  sameCaller room room1 → callerStep room1 room2 → callerStep room room2.
Proof. unfold callerStep, sameCaller. intros (-> & -> & ->). done. Qed.

Lemma countdownTick_step (roomId : string) (s s' : State) out rid room :
  countdownTick roomId s = Some (s', out) → rooms s !! rid = Some room →
  ∃ room', rooms s' !! rid = Some room' ∧ callerStep room room'.
Proof.
  unfold countdownTick. intros H Hr.
  destruct (rooms s !! roomId) as [room0|] eqn:H0; [|done]. cbn in H.
  destruct (countdown room0) as [t|]; [|done]. cbn in H.
  destruct (t - 1 <? 0); injection H as <- <-.
  - set (room1 := resetCards _).
    destruct (rooms_insert_same s roomId rid room0 room1 room H0 ltac:(done) Hr)
      as (room2 & Hr2 & Hs2).
    destruct (startGame_step roomId (set_rooms (<[roomId := room1]> (rooms s)) s) rid room2 Hr2)
      as (room3 & Hr3 & Hs3).
    exists room3. split; [done|]. by eapply callerStep_frame.
  - cbn. eapply rooms_insert_step; [done| |done]. by left.
Qed.

Lemma gameTick_step (roomId : string) (k : nat) (s s' : State) out rid room :
  gameTick roomId k s = Some (s', out) → rooms s !! rid = Some room →
  ∃ room', rooms s' !! rid = Some room' ∧ callerStep room room'.
Proof.
  unfold gameTick. intros H Hr.
  destruct (rooms s !! roomId) as [room0|] eqn:H0; [|done]. cbn in H.
  destruct (gameInterval room0) as [avail|] eqn:Ei; [|done]. cbn in H.
  destruct (bool_decide (avail = []) || bool_decide (players room0 = [])).
  - injection H as <- <-. cbn. eapply rooms_insert_step; [done| |done].
    right. left. cbn. auto.
  - destruct (avail !! k) as [num|] eqn:Ek; [|done]. cbn in H. injection H as <- <-. cbn.
    eapply rooms_insert_step; [done| |done].
    right. right. right. exists avail, k, num. done.
Qed.

Lemma join_room_step ws roomId phone (s : State) rid room :
  rooms s !! rid = Some room →
  ∃ room', rooms (join_room ws roomId phone s).1 !! rid = Some room' ∧ callerStep room room'.
Proof.
  intros Hr. unfold join_room.
  destruct (rooms s !! roomId) as [room0|] eqn:H0; [|eauto using callerStep_refl]. cbn.
  eapply rooms_insert_step; [done| |done]. by left.
Qed.

Lemma select_card_step ws roomId phone cardId (s : State) rid room :
  rooms s !! rid = Some room →
  ∃ room', rooms (select_card ws roomId phone cardId s).1 !! rid = Some room' ∧
           callerStep room room'.
Proof.
  intros Hr. unfold select_card.
  destruct (rooms s !! roomId) as [room0|] eqn:H0; [|eauto using callerStep_refl].
  destruct (list_find _ _) as [[i card]|]; [|eauto using callerStep_refl].
  destruct (truthy _ && _); [eauto using callerStep_refl|].
  case_bool_decide; [eauto using callerStep_refl|]. cbn.
  eapply rooms_insert_step; [done| |done]. by left.
Qed.

Lemma claim_bingo_step ws roomId playerPhone (s s' : State) out rid room :
  claim_bingo ws roomId playerPhone s = Some (s', out) → rooms s !! rid = Some room →
  ∃ room', rooms s' !! rid = Some room' ∧ callerStep room room'.
Proof.
  intros H Hr.
  destruct (claim_bingo_inv _ _ _ _ _ _ H) as [[-> _]|(room0 & card & pattern & H0 & Hw)];
    [eauto using callerStep_refl|].
  rewrite (claim_bingo_won ws roomId playerPhone s room0 card pattern H0 Hw) in H.
  cbn zeta in H. injection H as <- <-. cbn.
  eapply rooms_insert_step; [done| |done]. right. left. cbn. auto.
Qed.

Lemma start_game_same ws roomId phone (s : State) rid room :
  rooms s !! rid = Some room →
  ∃ room', rooms (start_game ws roomId phone s).1 !! rid = Some room' ∧ sameCaller room room'.
Proof.
  intros Hr. unfold start_game.
  destruct (rooms s !! roomId) as [room0|] eqn:H0; [|eauto using sameCaller_refl].
  case_bool_decide; [eauto using sameCaller_refl|].
  destruct (deductCost ws phone room0 s) as [[s1 out1]|] eqn:Ed; [|eauto using sameCaller_refl].
  assert (rooms s1 = rooms s) as Hs1.
  { unfold deductCost in Ed. destruct (findUser phone s) as [[i user]|].
    - destruct (cost room0 <=? balance user); [|done]. by injection Ed as <- <-.
    - by injection Ed as <- <-. }
  unfold showAndCount.
  set (room1 := set_playerCards _ room0).
  set (s2 := set_rooms _ _).
  assert (∃ room2, rooms s2 !! rid = Some room2 ∧ sameCaller room room2) as (room2 & Hr2 & Hs2).
  { subst s2. cbn. rewrite Hs1. by eapply rooms_insert_same. }
  destruct (negb (gameStarted room1) && _).
  - destruct (startRoomCountdown_same roomId s2 rid room2 Hr2) as (room3 & Hr3 & Hs3).
    destruct (startRoomCountdown roomId s2) as [s3 out3]. cbn in *.
    exists room3. split; [done|].
    destruct Hs2 as (E1 & E2 & E3), Hs3 as (F1 & F2 & F3). unfold sameCaller. by rewrite F1, F2, F3.
  - cbn. eauto.
Qed.

Lemma step_callerStep (ev : Event) (s s' : State) out rid room :
  step ev s = Some (s', out) → rooms s !! rid = Some room →
  ∃ room', rooms s' !! rid = Some room' ∧ callerStep room room'.
Proof.
  intros H Hr.
  destruct ev as [|ws|ws roomId ph|ws roomId ph cardId|ws roomId ph|ws roomId ph|roomId|roomId k];
    cbn in H.
  - injection H as <- <-. eauto using callerStep_refl.
  - injection H as <- <-. eauto using callerStep_refl.
  - destruct (join_room_step ws roomId ph s rid room Hr) as (r' & ? & ?).
    destruct (join_room _ _ _ _). injection H as <- <-. eauto.
  - destruct (select_card_step ws roomId ph cardId s rid room Hr) as (r' & ? & ?).
    destruct (select_card _ _ _ _ _). injection H as <- <-. eauto.
  - by eapply claim_bingo_step.
  - destruct (start_game_same ws roomId ph s rid room Hr) as (r' & ? & ?).
    destruct (start_game _ _ _ _). injection H as <- <-. exists r'. split; [done|by left].
  - by eapply countdownTick_step.
  - by eapply gameTick_step.
Qed.

Lemma callerStep_inv (room room' : Room) :
  callerInv room → callerStep room room' → callerInv room'.
Proof.
  unfold callerInv. intros (Hnd & Hr & Hg) [(E1 & E2 & E3)|[(E1 & E2 & E3)|[(E1 & E2 & E3 & E4)|
    (avail & k & num & E1 & Ek & E2 & E3 & E4)]]].
  - by rewrite E1, E2, E3.
  - rewrite E1. cbn. rewrite app_nil_r. split; [|split; [|by intros [? [=]]]].
    + destruct E3 as [->| ->]; [by apply NoDup_app in Hnd as (? & _)|constructor].
    + destruct E3 as [->| ->]; [by apply Forall_app in Hr as (? & _)|constructor].
  - rewrite E2, E3, E4. cbn -[allNumbers]. split; [|split; [|done]].
    + unfold allNumbers. apply NoDup_fmap_2; [intros ? ?; lia|apply NoDup_seq].
    + unfold allNumbers. apply Forall_fmap, Forall_forall. intros i Hi%elem_of_seq.
      unfold inRange. cbn. lia.
  - rewrite E1 in *. rewrite E2, E3, E4. cbn in *.
    split; [|split; [|intros _; apply Hg; by eexists]].
    + rewrite <-(take_drop_middle _ _ _ Ek) in Hnd. rewrite delete_take_drop.
      rewrite <-app_assoc. cbn.
      apply NoDup_app in Hnd as (H1 & H2 & H3).
      apply NoDup_app in H3 as (H4 & H5 & H6). apply NoDup_cons in H6 as (H7 & H8).
      apply NoDup_app. split; [done|]. split.
      * intros x Hx [->|Hin]%elem_of_cons.
        -- apply (H2 _ Hx). apply elem_of_app. right. by left.
        -- apply (H2 _ Hx). apply elem_of_app in Hin as [?|?]; apply elem_of_app; [by left|].
           right. by right.
      * apply NoDup_cons. split.
        -- intros [?|?]%elem_of_app; [|done]. apply (H5 num); [done|by left].
        -- apply NoDup_app. split; [done|]. split; [|done].
           intros x Hx Hx'. apply (H5 x Hx). by right.
    + rewrite <-(take_drop_middle _ _ _ Ek) in Hr. rewrite delete_take_drop.
      rewrite !Forall_app, Forall_cons in Hr. rewrite !Forall_app, Forall_singleton. tauto.
Qed.

Lemma run_callerInv (evs : list Event) (s s' : State) out roomId room :
  rooms s !! roomId = Some room → callerInv room →
  run evs s = Some (s', out) →
  ∃ room', rooms s' !! roomId = Some room' ∧ callerInv room'.
Proof.
  revert s out room. induction evs as [|ev evs IH]; intros s out room Hr Hi H; cbn in H.
  - injection H as <- <-. eauto.
  - destruct (step ev s) as [[s1 out1]|] eqn:E1; [|done]. cbn in H.
    destruct (run evs s1) as [[s2 out2]|] eqn:E2; [|done]. cbn in H. injection H as <- <-.
    destruct (step_callerStep ev s s1 out1 roomId room E1 Hr) as (room1 & Hr1 & Hs1).
    eapply IH; [exact Hr1|by eapply callerStep_inv|exact E2].
Qed.

Lemma callerInv_numbersCalled (room : Room) :
  callerInv room → Forall inRange (numbersCalled room) ∧ NoDup (numbersCalled room).
Proof.
  intros (Hn & Hf & _). split.
  - by apply Forall_app in Hf as (? & _).
  - by apply NoDup_app in Hn as (? & _).
Qed.

(** C4: from a room whose caller fields are consistent (as they are at
    start-up), whatever events are served, the called numbers of the room are
    numbers of 1..75 without repetition before and after every further event,
    and that event leaves them as they are, clears them, or appends one
    number, the last only in a started game. *)
Theorem called_numbers_valid_and_grow_in_game
    (evs : list Event) (ev : Event) (s s1 s2 : State) out1 out2 roomId room :
  rooms s !! roomId = Some room → callerInv room →
  run evs s = Some (s1, out1) → step ev s1 = Some (s2, out2) →
  ∃ room1 room2,
    rooms s1 !! roomId = Some room1 ∧ rooms s2 !! roomId = Some room2 ∧
    Forall inRange (numbersCalled room1) ∧ NoDup (numbersCalled room1) ∧
    Forall inRange (numbersCalled room2) ∧ NoDup (numbersCalled room2) ∧
    (numbersCalled room2 = numbersCalled room1 ∨ numbersCalled room2 = [] ∨
     ∃ n, numbersCalled room2 = numbersCalled room1 ++ [n] ∧
          gameStarted room1 = true ∧ gameStarted room2 = true).
Proof.
  intros Hr Hi Hrun Hstep.
  destruct (run_callerInv evs s s1 out1 roomId room Hr Hi Hrun) as (room1 & Hr1 & Hi1).
  destruct (step_callerStep ev s1 s2 out2 roomId room1 Hstep Hr1) as (room2 & Hr2 & Hs2).
  pose proof (callerStep_inv room1 room2 Hi1 Hs2) as Hi2.
  exists room1, room2. split; [done|]. split; [done|].
  destruct (callerInv_numbersCalled room1 Hi1), (callerInv_numbersCalled room2 Hi2).
  do 4 (split; [done|]).
  destruct Hs2 as [(E1 & _)|[(_ & _ & [E| E])|[(_ & _ & E & _)|
    (avail & k & num & E1 & Ek & E2 & E3 & E4)]]]; auto.
  right. right. exists num. split; [done|].
  destruct Hi1 as (_ & _ & Hg). rewrite E4. split; apply Hg; rewrite E1; by eexists.
Qed.

Lemma sampleRoom_callerInv : callerInv sampleRoom.
Proof.
  split; [|split].
  - apply (bool_decide_unpack _). vm_compute. reflexivity.
  - apply (bool_decide_unpack _). vm_compute. reflexivity.
  - reflexivity.
Defined.

Lemma called_numbers_valid_and_grow_in_game_witness :
  ∃ s1 s2 room1 room2,
    rooms s1 !! "room_10" = Some room1 ∧ rooms s2 !! "room_10" = Some room2 ∧
    Forall inRange (numbersCalled room1) ∧ NoDup (numbersCalled room1) ∧
    Forall inRange (numbersCalled room2) ∧ NoDup (numbersCalled room2) ∧
    (numbersCalled room2 = numbersCalled room1 ∨ numbersCalled room2 = [] ∨
     ∃ n, numbersCalled room2 = numbersCalled room1 ++ [n] ∧
          gameStarted room1 = true ∧ gameStarted room2 = true).
Proof.
  eexists _, _.
  eapply (called_numbers_valid_and_grow_in_game [EGameTick "room_10" 1]
            (EGameTick "room_10" 0) sampleState _ _ _ _ "room_10" sampleRoom).
  - reflexivity.
  - apply sampleRoom_callerInv.
  - reflexivity.
  - reflexivity.
Defined.

(** ** Starting a game *)


Lemma startRoomCountdown_started (roomId : string) (s : State) room :
  rooms s !! roomId = Some room → countdown room = None →
  rooms (startRoomCountdown roomId s).1
  = <[roomId := set_countdown
        (Some (if currentCountdown room =? 0 then 60 else currentCountdown room)) room]> (rooms s) ∧
  db_players (startRoomCountdown roomId s).1 = db_players s ∧
  allClients (startRoomCountdown roomId s).1 = allClients s.
Proof.
  intros Hr Hc. unfold startRoomCountdown. rewrite Hr, Hc.
  match goal with |- context [foldl ?f ?a ?l] =>
    destruct (reviewCards_rooms roomId
      (set_countdown (Some (if currentCountdown room =? 0 then 60 else currentCountdown room)) room)
      l a) as (E1 & E2 & E3) end.
  cbn [players set_countdown] in *. by rewrite E1, E2, E3.
Qed.

Lemma deductCost_frame ws phone room (s s1 : State) out :
  deductCost ws phone room s = Some (s1, out) →
  rooms s1 = rooms s ∧ sockets s1 = sockets s ∧ allClients s1 = allClients s.
Proof.
  unfold deductCost. intros H. destruct (findUser phone s) as [[i user]|].
  - destruct (cost room <=? balance user); [|done]. by injection H as <- <-.
  - by injection H as <- <-.
Qed.

(** What [showAndCount] leaves of the rooms and the store. *)
Lemma showAndCount_rooms ws roomId phone room cs (s : State) :
  rooms s !! roomId = Some room →
  db_players (showAndCount ws roomId phone room cs s).1 = db_players s ∧
  rooms (showAndCount ws roomId phone room cs s).1
  = <[roomId :=
        (if negb (gameStarted room) && negb (bool_decide (is_Some (countdown room)))
         then set_countdown
                (Some (if currentCountdown room =? 0 then 60 else currentCountdown room))
         else λ r, r)
          (set_playerCards (<[phone := id <$> cs]> (playerCards room)) room)]> (rooms s).
Proof.
  intros Hr. unfold showAndCount.
  set (room1 := set_playerCards _ room). set (s2 := set_rooms _ _).
  change (gameStarted room1) with (gameStarted room).
  change (countdown room1) with (countdown room).
  destruct (negb (gameStarted room) && _) eqn:E; [|done].
  apply andb_true_iff in E as [_ Ec]. apply negb_true_iff, bool_decide_eq_false in Ec.
  assert (countdown room1 = None) as Hc1.
  { change (countdown room = None). destruct (countdown room); [|done]. by destruct Ec. }
  assert (rooms s2 !! roomId = Some room1) as Hr1 by apply lookup_insert_eq.
  destruct (startRoomCountdown_started roomId s2 room1 Hr1 Hc1) as (E1 & E2 & E3).
  destruct (startRoomCountdown roomId s2) as [s3 out3]. cbn in *.
  rewrite E1, E2. split; [done|]. subst s2. cbn. by rewrite insert_insert_eq.
Qed.

(** C6: a start request of a player who holds a card and has a record in the
    store.  With a balance of at least the cost, the balance is lowered by
    exactly the cost, the first answer is the [balance_update] with the new
    balance, and a countdown is started unless a game or a countdown is
    running.  With a balance below the cost, the only effect is the error
    answer. *)
Theorem start_game_debits_cost_or_rejects ws roomId phone (s : State) room i user :
  rooms s !! roomId = Some room →
  cardsOf (Some phone) room ≠ [] →
  findUser phone s = Some (i, user) →
  (cost room ≤ balance user →
     ∃ s' out room',
       start_game ws roomId phone s
       = (s', (ws, MBalanceUpdate (balance user - cost room)) :: out) ∧
       db_players s' = <[i := set_balance (balance user - cost room) user]> (db_players s) ∧
       rooms s' !! roomId = Some room' ∧
       (gameStarted room = false → countdown room = None →
          countdown room'
          = Some (if currentCountdown room =? 0 then 60 else currentCountdown room)) ∧
       (gameStarted room = true ∨ is_Some (countdown room) →
          countdown room' = countdown room)) ∧
  (balance user < cost room →
     start_game ws roomId phone s
     = (s, [(ws, MError "Insufficient balance to start game")])).
Proof.
  intros Hr Hc Hu. unfold start_game. rewrite Hr.
  rewrite bool_decide_eq_false_2 by done. unfold deductCost. rewrite Hu. split.
  - intros Hb. destruct (Z.leb_spec (cost room) (balance user)) as [_|]; [|lia].
    cbn [balance set_balance].
    set (s1 := set_db_players _ s).
    destruct (showAndCount_rooms ws roomId phone room (cardsOf (Some phone) room) s1 Hr)
      as (E1 & E2).
    destruct (showAndCount _ _ _ _ _ s1) as [s2 out2]. cbn in E1, E2.
    eexists s2, out2, _. split; [reflexivity|]. split; [by rewrite E1|].
    split; [rewrite E2; apply lookup_insert_eq|]. split.
    + intros Hg Hn. rewrite Hg, Hn. done.
    + intros [Hg|Hs].
      * rewrite Hg. done.
      * rewrite (bool_decide_eq_true_2 _ Hs), andb_false_r. done.
  - intros Hb. destruct (Z.leb_spec (cost room) (balance user)) as [|_]; [lia|]. done.
Qed.

Lemma start_game_debits_cost_or_rejects_witness :
  (∃ s' out room',
     start_game 0 "room_10" "A" lobbyState = (s', (0%nat, MBalanceUpdate 990) :: out) ∧
     db_players s' = [mkUser "A" 990 0; mkUser "B" 5 0] ∧
     rooms s' !! "room_10" = Some room' ∧ countdown room' = Some 60) ∧
  start_game 1 "room_10" "B" lobbyState
  = (lobbyState, [(1%nat, MError "Insufficient balance to start game")]).
Proof.
  split.
  - destruct (start_game_debits_cost_or_rejects 0 "room_10" "A" lobbyState lobbyRoom
                0%nat (mkUser "A" 1000 0)) as [H _];
      [reflexivity|discriminate|reflexivity|].
    destruct H as (s' & out & room' & E & Hdb & Hr & Hc & _); [discriminate|].
    exists s', out, room'. split; [exact E|]. split; [exact Hdb|]. split; [exact Hr|].
    apply Hc; reflexivity.
  - destruct (start_game_debits_cost_or_rejects 1 "room_10" "B" lobbyState lobbyRoom
                1%nat (mkUser "B" 5 0)) as [_ H];
      [reflexivity|discriminate|reflexivity|].
    apply H. reflexivity.
Defined.

Example countingState_reached : (start_game 0 "room_10" "A" lobbyState).1 = countingState.
Proof. vm_compute. reflexivity. Qed.

Example drainedState_reached :
  fst <$> run (ESelectCard 0 "room_10" "A" 3 :: replicate 65 (EGameTick "room_10" 0)) sampleState
  = Some drainedState.
Proof. vm_compute. reflexivity. Qed.
(** ** The jackpot *)

(** [Math.floor(n * cost * 0.9)] as an integer division. *)
Lemma calcJackpot_div (room : Room) :
  calcJackpot room = (Z.of_nat (length (players room)) * cost room * 9) `div` 10.
Proof.
  unfold calcJackpot, Qfloor, Qmult, inject_Z. cbn [Qnum Qden].
  rewrite ?Pos.mul_1_l. f_equal; lia.
Qed.




(** ** The end of a game *)

(** C8: what the two ends of a game leave behind.  The firing of the game
    interval that finds the pool empty or the room without players stops the
    interval, unsets [gameStarted], clears every holder and sends [game_end]
    to every socket of the room, and keeps the called numbers.  A winning
    claim stops the interval, unsets [gameStarted] and clears the called
    numbers, and keeps the holders of the cards. *)
Theorem game_end_resets_only_part_of_the_room roomId (s : State) room :
  rooms s !! roomId = Some room →
  (∀ k availableNumbers,
     gameInterval room = Some availableNumbers →
     availableNumbers = [] ∨ players room = [] →
     ∃ s' room',
       gameTick roomId k s = Some (s', (fun p => (p, MGameEnd)) <$> players room) ∧
       rooms s' !! roomId = Some room' ∧
       gameStarted room' = false ∧ gameInterval room' = None ∧
       cards room' = set_takenBy None <$> cards room ∧
       numbersCalled room' = numbersCalled room) ∧
  (∀ ws playerPhone,
     sessionsHoldDeckCards s room → holdsWinningCard s room playerPhone →
     ∃ s' out room',
       claim_bingo ws roomId playerPhone s = Some (s', out) ∧
       (∀ p, p ∈ players room → isOpen s p = true → (p, MGameEnd) ∈ out) ∧
       rooms s' !! roomId = Some room' ∧
       gameStarted room' = false ∧ gameInterval room' = None ∧
       numbersCalled room' = [] ∧
       cards room' = cards room).
Proof.
  intros Hr. split.
  - intros k avail Hi Hor. unfold gameTick. rewrite Hr. cbn. rewrite Hi. cbn.
    replace (bool_decide (avail = []) || bool_decide (players room = [])) with true.
    2:{ symmetry. apply orb_true_iff.
        destruct Hor; [left|right]; by apply bool_decide_eq_true. }
    eexists _, _. split; [reflexivity|]. split; [apply lookup_insert_eq|]. done.
  - intros ws playerPhone Hs Hw.
    destruct (holdsWinningCard_claimWins s room playerPhone Hs Hw) as (card & pattern & Hc).
    rewrite (claim_bingo_won ws roomId playerPhone s room card pattern Hr Hc). cbn zeta.
    eexists _, _, _. split; [reflexivity|]. split.
    + intros p Hp Ho. apply elem_of_app. left. unfold broadcastWin.
      apply list_elem_of_join.
      exists [(p, MBingoWin playerPhone card pattern); (p, MGameEnd)]. split.
      * apply elem_of_cons. right. apply elem_of_cons. by left.
      * apply (list_elem_of_fmap_2
                 (fun p => [(p, MBingoWin playerPhone card pattern); (p, MGameEnd)])).
        by apply list_elem_of_filter.
    + split; [apply lookup_insert_eq|]. done.
Qed.

Lemma drainedState_sessions : sessionsHoldDeckCards drainedState drainedRoom.
Proof.
  intros p w cs Hp Hw Hc. destruct p as [|[|p]]; cbn in Hw.
  - injection Hw as <-. injection Hc as <-.
    repeat constructor; exists sampleCard; (split; [reflexivity|apply sampleCard_deck]).
  - injection Hw as <-. injection Hc as <-.
    constructor; [|constructor]. exists sampleCard2. split; [reflexivity|apply sampleCard2_deck].
  - discriminate.
Defined.

Lemma drainedState_holdsWinningCard : holdsWinningCard drainedState drainedRoom "A".
Proof.
  exists 0%nat, (mkSocket (Some "A") (Some [SFormatted sampleCard; SFormatted sampleCard]) true),
    [SFormatted sampleCard; SFormatted sampleCard], sampleCard.
  split; [reflexivity|]. split; [reflexivity|]. split; [reflexivity|].
  split; [apply elem_of_cons; by left|vm_compute; reflexivity].
Defined.

Lemma game_end_resets_only_part_of_the_room_witness :
  (∃ s' room',
     gameTick "room_10" 0 drainedState = Some (s', [(0%nat, MGameEnd); (1%nat, MGameEnd)]) ∧
     rooms s' !! "room_10" = Some room' ∧
     gameStarted room' = false ∧ gameInterval room' = None ∧
     cards room' = set_takenBy None <$> cards drainedRoom ∧
     numbersCalled room' = allNumbers) ∧
  (∃ s' out room',
     claim_bingo 0 "room_10" "A" drainedState = Some (s', out) ∧
     (∀ p, p ∈ [0%nat; 1%nat] → isOpen drainedState p = true → (p, MGameEnd) ∈ out) ∧
     rooms s' !! "room_10" = Some room' ∧
     gameStarted room' = false ∧ gameInterval room' = None ∧
     numbersCalled room' = [] ∧
     cards room' = [mkCard 1 sampleData None; mkCard 2 sampleData2 None;
                    mkCard 3 sampleData (Some "A"); mkCard 4 sampleData2 None;
                    mkCard 5 sampleData None; mkCard 6 sampleData2 None]).
Proof.
  destruct (game_end_resets_only_part_of_the_room "room_10" drainedState drainedRoom eq_refl)
    as [H1 H2].
  split.
  - apply (H1 0%nat []); [reflexivity|by left].
  - apply (H2 0%nat "A"); [apply drainedState_sessions|apply drainedState_holdsWinningCard].
Defined.

(** ** A second start request *)




(** ** What every event preserves *)

Lemma startGame_rooms (roomId : string) (s : State) room :
  rooms s !! roomId = Some room →
  rooms (startGame roomId s)
  = if gameStarted room then rooms s
    else <[roomId := set_gameInterval (Some allNumbers)
                       (set_numbersCalled [] (set_gameStarted true room))]> (rooms s).
Proof. intros Hr. unfold startGame. rewrite Hr. by destruct (gameStarted room). Qed.

Section RoomRelation.
(** A relation between a room and the same room later that every
    elementary update of the handlers respects. *)
Variable R : Room → Room → Prop.
Hypothesis R_refl : ∀ room, R room room.
Hypothesis R_trans : ∀ r1 r2 r3, R r1 r2 → R r2 r3 → R r1 r3.
Hypothesis R_join : ∀ room ws, R room (set_players (players room ++ [ws]) room).
Hypothesis R_holder : ∀ room i card t,
  cards room !! i = Some card →
  R room (set_cards (<[i := set_takenBy t card]> (cards room)) room).
Hypothesis R_resetCards : ∀ room, R room (resetCards room).
Hypothesis R_playerCards : ∀ room m, R room (set_playerCards m room).
Hypothesis R_countdown : ∀ room t, R room (set_countdown t room).
Hypothesis R_currentCountdown : ∀ room t, R room (set_currentCountdown t room).
Hypothesis R_gameStarted : ∀ room b, R room (set_gameStarted b room).
Hypothesis R_numbersCalled : ∀ room ns, R room (set_numbersCalled ns room).
Hypothesis R_gameInterval : ∀ room t, R room (set_gameInterval t room).

Lemma insert_related (m : gmap string Room) (roomId rid : string) (room0 room1 room : Room) :
  m !! roomId = Some room0 → R room0 room1 → m !! rid = Some room →
  ∃ room', <[roomId := room1]> m !! rid = Some room' ∧ R room room'.
Proof.
  intros H0 HR Hr. destruct (decide (roomId = rid)) as [->|Hne].
  - rewrite lookup_insert_eq. rewrite Hr in H0. injection H0 as ->. eauto.
  - rewrite lookup_insert_ne by done. eauto.
Qed.

Lemma step_related (ev : Event) (s s' : State) out rid room :
  step ev s = Some (s', out) → rooms s !! rid = Some room →
  ∃ room', rooms s' !! rid = Some room' ∧ R room room'.
Proof.
  intros H Hr.
  destruct ev as [|ws|ws roomId ph|ws roomId ph cardId|ws roomId ph|ws roomId ph|roomId|roomId k];
    cbn in H.
  - injection H as <- <-. eauto.
  - injection H as <- <-. eauto.
  - injection H as H. replace s' with (join_room ws roomId ph s).1 by (by rewrite H).
    clear H. unfold join_room.
    destruct (rooms s !! roomId) as [room0|] eqn:H0; [|eauto]. cbn.
    by eapply insert_related.
  - injection H as H. replace s' with (select_card ws roomId ph cardId s).1 by (by rewrite H).
    clear H. unfold select_card.
    destruct (rooms s !! roomId) as [room0|] eqn:H0; [|eauto].
    destruct (list_find _ _) as [[i card]|] eqn:Ef; [|eauto].
    destruct (truthy _ && _); [eauto|]. case_bool_decide; [eauto|]. cbn.
    apply list_find_Some in Ef as (Hi & _).
    eapply insert_related; [done| |done].
    eapply R_trans; [by apply (R_holder room0 i card (Some ph))|]. apply R_playerCards.
  - destruct (claim_bingo_inv _ _ _ _ _ _ H) as [[-> _]|(room0 & card & pattern & H0 & Hw)];
      [eauto|].
    rewrite (claim_bingo_won ws roomId ph s room0 card pattern H0 Hw) in H.
    cbn zeta in H. injection H as <- <-. cbn.
    eapply insert_related; [done| |done]. unfold endedRoom. eauto.
  - injection H as H. replace s' with (start_game ws roomId ph s).1 by (by rewrite H).
    clear H. unfold start_game.
    destruct (rooms s !! roomId) as [room0|] eqn:H0; [|eauto].
    case_bool_decide; [eauto|].
    destruct (deductCost ws ph room0 s) as [[s1 out1]|] eqn:Ed; [|eauto].
    apply deductCost_frame in Ed as (E1 & _).
    assert (rooms s1 !! roomId = Some room0) as H1 by (by rewrite E1).
    destruct (showAndCount_rooms ws roomId ph room0 (cardsOf (Some ph) room0) s1 H1)
      as (_ & E2).
    destruct (showAndCount _ _ _ _ _ s1) as [s2 out2]. cbn in *. rewrite E2, E1.
    eapply insert_related; [done| |done].
    destruct (negb _ && _); eauto.
  - unfold countdownTick in H.
    destruct (rooms s !! roomId) as [room0|] eqn:H0; [|done]. cbn in H.
    destruct (countdown room0) as [t|]; [|done]. cbn in H.
    destruct (t - 1 <? 0); injection H as <- <-.
    + set (room1 := resetCards _).
      rewrite (startGame_rooms roomId _ room1) by apply lookup_insert_eq.
      assert (R room0 room1) as H01 by (subst room1; eauto 6).
      destruct (gameStarted room1); cbn; [by eapply insert_related|].
      rewrite insert_insert_eq. eapply insert_related; [done| |done]. eauto 6.
    + cbn. eapply insert_related; [done| |done]. eauto.
  - unfold gameTick in H.
    destruct (rooms s !! roomId) as [room0|] eqn:H0; [|done]. cbn in H.
    destruct (gameInterval room0) as [avail|] eqn:Ei; [|done]. cbn in H.
    destruct (bool_decide (avail = []) || bool_decide (players room0 = [])).
    + injection H as <- <-. cbn. eapply insert_related; [done| |done]. eauto 6.
    + destruct (avail !! k) as [num|] eqn:Ek; [|done]. cbn in H. injection H as <- <-. cbn.
      eapply insert_related; [done| |done]. eauto.
Qed.

Lemma run_related (evs : list Event) (s s' : State) out rid room :
  run evs s = Some (s', out) → rooms s !! rid = Some room →
  ∃ room', rooms s' !! rid = Some room' ∧ R room room'.
Proof.
  revert s out room. induction evs as [|ev evs IH]; intros s out room H Hr; cbn in H.
  - injection H as <- <-. eauto.
  - destruct (step ev s) as [[s1 out1]|] eqn:E1; [|done]. cbn in H.
    destruct (run evs s1) as [[s2 out2]|] eqn:E2; [|done]. cbn in H. injection H as <- <-.
    destruct (step_related ev s s1 out1 rid room E1 Hr) as (room1 & Hr1 & HR1).
    destruct (IH s1 out2 room1 E2 Hr1) as (room2 & Hr2 & HR2). eauto.
Qed.
End RoomRelation.

Lemma roomGrows_refl (room : Room) : roomGrows room room.
Proof. by repeat split. Qed.

Lemma roomGrows_trans (r1 r2 r3 : Room) : roomGrows r1 r2 → roomGrows r2 r3 → roomGrows r1 r3.
Proof.
  intros (A1 & A2 & A3 & A4 & A5) (B1 & B2 & B3 & B4 & B5).
  repeat split; try congruence. by etrans.
Qed.

Lemma roomGrows_holder (room : Room) (i : nat) (card : Card) (t : option string) :
  cards room !! i = Some card →
  roomGrows room (set_cards (<[i := set_takenBy t card]> (cards room)) room).
Proof.
  intros Hi. repeat split; try done. cbn.
  rewrite list_fmap_insert. by apply list_insert_id; rewrite list_lookup_fmap, Hi.
Qed.

Lemma roomGrows_resetCards (room : Room) : roomGrows room (resetCards room).
Proof.
  repeat split; try done. cbn. rewrite <-list_fmap_compose. by apply list_fmap_ext.
Qed.

Lemma calcJackpot_mono (room room' : Room) :
  0 ≤ cost room → cost room' = cost room →
  (length (players room) ≤ length (players room'))%nat →
  calcJackpot room ≤ calcJackpot room'.
Proof.
  intros Hc Ec Hl. rewrite !calcJackpot_div, Ec. apply Z.div_le_mono; [lia|nia].
Qed.

Lemma run_roomGrows (evs : list Event) (s s' : State) out roomId room :
  run evs s = Some (s', out) → rooms s !! roomId = Some room →
  ∃ room', rooms s' !! roomId = Some room' ∧ roomGrows room room'.
Proof.
  apply (run_related roomGrows roomGrows_refl roomGrows_trans);
    [by intros; repeat split; try done; apply prefix_app_r
    |apply roomGrows_holder|apply roomGrows_resetCards|by intros; repeat split..].
Qed.

(** X1: whatever events are served, a room keeps its cost, its cards (ids and
    numbers, in order) and the sockets that ever joined it, in the order of
    their joins: nothing, a disconnection included, removes a socket from
    [room.players].  With a cost that is not negative, the jackpot computed
    from the room therefore never decreases. *)
Theorem rooms_keep_cost_cards_and_players
    (evs : list Event) (s s' : State) out roomId room :
  run evs s = Some (s', out) → rooms s !! roomId = Some room →
  ∃ room', rooms s' !! roomId = Some room' ∧
    cost room' = cost room ∧
    id <$> cards room' = id <$> cards room ∧
    data <$> cards room' = data <$> cards room ∧
    players room `prefix_of` players room' ∧
    (0 ≤ cost room → calcJackpot room ≤ calcJackpot room').
Proof.
  intros Hrun Hr.
  destruct (run_roomGrows evs s s' out roomId room Hrun Hr)
    as (room' & Hr' & Hc & _ & _ & Hf & Hp).
  exists room'. split; [done|]. split; [done|].
  split. { apply (f_equal (fmap fst)) in Hf. by rewrite <-!list_fmap_compose in Hf. }
  split. { apply (f_equal (fmap snd)) in Hf. by rewrite <-!list_fmap_compose in Hf. }
  split; [done|]. intros H0. apply calcJackpot_mono; [done..|]. by apply prefix_length.
Qed.

Lemma lobbyState_run : run lobbyEvents lobbyStart = Some (lobbyState, lobbyOut).
Proof. vm_compute. reflexivity. Defined.

Lemma rooms_keep_cost_cards_and_players_witness :
  ∃ room', rooms lobbyState !! "room_10" = Some room' ∧
    cost room' = 10 ∧
    id <$> cards room' = [1; 2; 3] ∧
    data <$> cards room' = [sampleData; sampleData2; sampleData] ∧
    [] `prefix_of` players room' ∧
    0 ≤ calcJackpot room'.
Proof.
  destruct (rooms_keep_cost_cards_and_players lobbyEvents lobbyStart lobbyState lobbyOut
              "room_10"
              (loadRoom [sampleData; sampleData2; sampleData] (mkDbRoom "room_10" 10 0 [] 0 60))
              lobbyState_run eq_refl)
    as (room' & Hr & Hc & Hi & Hd & Hp & Hj).
  exists room'. do 5 (split; [assumption|]). apply Hj. discriminate.
Defined.

(** ** Start-up *)

Lemma initialState_room (fixedCardsSet : list (list Cell)) (dbPlayers : list User) (r : DbRoom) :
  r ∈ initDB_rooms →
  rooms (initialState fixedCardsSet dbPlayers) !! db_roomId r = Some (loadRoom fixedCardsSet r).
Proof.
  unfold initDB_rooms. rewrite !elem_of_cons, elem_of_nil.
  intros [->|[->|[->|[->|[]]]]]; reflexivity.
Qed.

Lemma loadRoom_cards (fixedCardsSet : list (list Cell)) (r : DbRoom) :
  data <$> cards (loadRoom fixedCardsSet r) = fixedCardsSet ∧
  id <$> cards (loadRoom fixedCardsSet r)
  = (fun i => Z.of_nat i + 1) <$> seq 0 (length fixedCardsSet) ∧
  Forall (fun c => takenBy c = None) (cards (loadRoom fixedCardsSet r)).
Proof.
  cbn. split; [|split].
  - apply list_eq. intros i. rewrite list_lookup_fmap, list_lookup_imap.
    by destruct (fixedCardsSet !! i).
  - apply list_eq. intros i. rewrite !list_lookup_fmap, list_lookup_imap.
    destruct (fixedCardsSet !! i) eqn:E; cbn.
    + by rewrite lookup_seq_lt by (by eapply lookup_lt_Some).
    + by rewrite lookup_seq_ge by (by apply lookup_ge_None).
  - apply Forall_forall. intros c Hc. apply list_elem_of_lookup in Hc as (i & Hi).
    rewrite list_lookup_imap in Hi. by apply fmap_Some in Hi as (d & _ & ->).
Qed.

(** X2: the rooms of a server started on an empty store.  Each of the four
    rooms written by [initDB] is there after any sequence of events, with
    the cost of its record, the cards of the deck numbered from 1 in deck
    order, and called numbers that are numbers of 1..75 without
    repetition. *)
Theorem rooms_after_startup
    (fixedCardsSet : list (list Cell)) (dbPlayers : list User)
    (evs : list Event) (s : State) out (r : DbRoom) :
  r ∈ initDB_rooms →
  run evs (initialState fixedCardsSet dbPlayers) = Some (s, out) →
  ∃ room, rooms s !! db_roomId r = Some room ∧
    cost room = db_cost r ∧
    data <$> cards room = fixedCardsSet ∧
    id <$> cards room = (fun i => Z.of_nat i + 1) <$> seq 0 (length fixedCardsSet) ∧
    Forall inRange (numbersCalled room) ∧ NoDup (numbersCalled room).
Proof.
  intros Hin Hrun.
  pose proof (initialState_room fixedCardsSet dbPlayers r Hin) as Hr.
  destruct (run_roomGrows evs _ s out _ _ Hrun Hr) as (room & Hroom & Hc & _ & _ & Hf & _).
  assert (id <$> cards room = id <$> cards (loadRoom fixedCardsSet r)) as Hi.
  { apply (f_equal (fmap fst)) in Hf. by rewrite <-!list_fmap_compose in Hf. }
  assert (data <$> cards room = data <$> cards (loadRoom fixedCardsSet r)) as Hd.
  { apply (f_equal (fmap snd)) in Hf. by rewrite <-!list_fmap_compose in Hf. }
  assert (callerInv (loadRoom fixedCardsSet r)) as Hinv.
  { unfold initDB_rooms in Hin. rewrite !elem_of_cons, elem_of_nil in Hin.
    destruct Hin as [->|[->|[->|[->|[]]]]]; (split; [constructor|split; [constructor|]]);
      by intros [? [=]]. }
  destruct (run_callerInv evs _ s out _ _ Hr Hinv Hrun) as (room1 & Hroom1 & Hinv1).
  rewrite Hroom in Hroom1. injection Hroom1 as <-.
  destruct (loadRoom_cards fixedCardsSet r) as (Ed & Ei & _).
  exists room. split; [done|]. split; [done|]. rewrite Hd, Hi.
  split; [done|]. split; [done|]. by apply callerInv_numbersCalled.
Qed.

Lemma rooms_after_startup_witness :
  ∃ room, rooms lobbyState !! "room_50" = Some room ∧
    cost room = 50 ∧
    data <$> cards room = [sampleData; sampleData2; sampleData] ∧
    id <$> cards room = [1; 2; 3] ∧
    Forall inRange (numbersCalled room) ∧ NoDup (numbersCalled room).
Proof.
  apply (rooms_after_startup [sampleData; sampleData2; sampleData]
           [mkUser "A" 1000 0; mkUser "B" 5 0] lobbyEvents lobbyState lobbyOut
           (mkDbRoom "room_50" 50 0 [] 0 60)).
  - do 2 apply list_elem_of_further. apply list_elem_of_here.
  - apply lobbyState_run.
Defined.

(** ** The countdown *)

Lemma countdownTick_continue (roomId : string) (s : State) room t :
  rooms s !! roomId = Some room → countdown room = Some t → 1 ≤ t →
  countdownTick roomId s
  = Some (set_rooms (<[roomId := set_countdown (Some (t - 1)) (set_currentCountdown t room)]>
                       (rooms s)) s,
          broadcastToRoom s roomId (MCountdown roomId t)
          ++ broadcastToAll s (MRoomCountdown roomId t)).
Proof.
  intros Hr Hc Ht. unfold countdownTick. rewrite Hr. cbn. rewrite Hc. cbn.
  destruct (Z.ltb_spec (t - 1) 0); [lia|done].
Qed.

Lemma countdownTick_finish (roomId : string) (s : State) room :
  rooms s !! roomId = Some room → countdown room = Some 0 → gameStarted room = false →
  countdownTick roomId s
  = Some (set_rooms
            (<[roomId := set_gameInterval (Some allNumbers)
                 (set_numbersCalled []
                    (set_gameStarted true
                       (resetCards (set_currentCountdown 60 (set_countdown None room)))))]>
               (rooms s)) s,
          broadcastToRoom s roomId (MCountdown roomId 0)
          ++ broadcastToAll s (MRoomCountdown roomId 0)
          ++ broadcastToAll s (MRoomCountdown roomId 0)).
Proof.
  intros Hr Hc Hg. unfold countdownTick. rewrite Hr. cbn. rewrite Hc. cbn.
  unfold startGame. cbn. rewrite lookup_insert_eq. cbn. rewrite Hg. cbn.
  rewrite insert_insert_eq. by rewrite <-app_assoc.
Qed.

Lemma broadcastToRoom_elem (s : State) roomId room (m : Msg) (p : nat) :
  rooms s !! roomId = Some room → p ∈ players room → isOpen s p = true →
  (p, m) ∈ broadcastToRoom s roomId m.
Proof.
  intros Hr Hp Ho. unfold broadcastToRoom. rewrite Hr.
  apply (list_elem_of_fmap_2 (fun ws => (ws, m))). by apply list_elem_of_filter.
Qed.

Lemma run_cons_Some (ev : Event) (evs : list Event) (s s1 s2 : State) out1 out2 :
  step ev s = Some (s1, out1) → run evs s1 = Some (s2, out2) →
  run (ev :: evs) s = Some (s2, out1 ++ out2).
Proof. intros H1 H2. cbn. rewrite H1. cbn. rewrite H2. done. Qed.

Lemma countdown_run (roomId : string) (n : nat) :
  ∀ (s : State) room t,
    Z.to_nat t = n → 0 ≤ t →
    rooms s !! roomId = Some room → countdown room = Some t → gameStarted room = false →
    ∃ s' out room',
      run (replicate (S n) (ECountdownTick roomId)) s = Some (s', out) ∧
      rooms s' !! roomId = Some room' ∧
      countdown room' = None ∧ currentCountdown room' = 60 ∧
      gameStarted room' = true ∧ numbersCalled room' = [] ∧
      gameInterval room' = Some allNumbers ∧
      cards room' = set_takenBy None <$> cards room ∧
      players room' = players room ∧
      sockets s' = sockets s ∧ db_players s' = db_players s ∧
      (∀ p k, p ∈ players room → isOpen s p = true → 0 ≤ k ≤ t →
              (p, MCountdown roomId k) ∈ out).
Proof.
  induction n as [|n IH]; intros s room t Hn Ht Hr Hc Hg.
  - assert (t = 0) as -> by lia. cbn [replicate run step].
    rewrite (countdownTick_finish roomId s room Hr Hc Hg). cbn.
    eexists _, _, _. split; [reflexivity|]. split; [apply lookup_insert_eq|].
    do 9 (split; [done|]). intros p k Hp Ho Hk. assert (k = 0) as -> by lia.
    rewrite app_nil_r. apply elem_of_app. left. by eapply broadcastToRoom_elem.
  - set (room1 := set_countdown (Some (t - 1)) (set_currentCountdown t room)).
    set (s1 := set_rooms (<[roomId := room1]> (rooms s)) s).
    destruct (IH s1 room1 (t - 1)) as (s' & out & room' & E & Hr' & H1 & H2 & H3 & H4 & H5 & H6
                                         & H7 & H8 & H9 & H10);
      [lia|lia|apply lookup_insert_eq|done|done|].
    eexists _, _, room'. split.
    { change (replicate (S (S n)) ?x) with (x :: replicate (S n) x).
      eapply run_cons_Some; [|exact E]. cbn [step].
      apply (countdownTick_continue roomId s room t Hr Hc). lia. }
    split; [done|]. do 9 (split; [done|]). intros p k Hp Ho Hk.
    destruct (decide (k = t)) as [->|Hne].
    + apply elem_of_app. left. apply elem_of_app. left. by eapply broadcastToRoom_elem.
    + apply elem_of_app. right. apply H10; [done|done|lia].
Qed.

(** X3: a countdown runs to its end.  In a room without a started game whose
    countdown stands at [t], the next [t + 1] firings of the countdown
    interval send the values [t], ..., 0 to every open socket of the room and
    leave the room with the countdown stopped and reset to 60, every card
    released, and the game started on a fresh pool of the 75 numbers; sockets
    and balances are not touched. *)
Theorem countdown_ends_in_a_started_game (roomId : string) (s : State) room t :
  rooms s !! roomId = Some room → countdown room = Some t → 0 ≤ t →
  gameStarted room = false →
  ∃ s' out room',
    run (replicate (S (Z.to_nat t)) (ECountdownTick roomId)) s = Some (s', out) ∧
    rooms s' !! roomId = Some room' ∧
    countdown room' = None ∧ currentCountdown room' = 60 ∧
    gameStarted room' = true ∧ numbersCalled room' = [] ∧
    gameInterval room' = Some allNumbers ∧
    cards room' = set_takenBy None <$> cards room ∧
    players room' = players room ∧
    sockets s' = sockets s ∧ db_players s' = db_players s ∧
    (∀ p k, p ∈ players room → isOpen s p = true → 0 ≤ k ≤ t →
            (p, MCountdown roomId k) ∈ out).
Proof. intros Hr Hc Ht Hg. by apply (countdown_run roomId (Z.to_nat t) s room t). Qed.

Lemma countdown_ends_in_a_started_game_witness :
  ∃ s' out room',
    run (replicate 61 (ECountdownTick "room_10")) countingState = Some (s', out) ∧
    rooms s' !! "room_10" = Some room' ∧
    countdown room' = None ∧ currentCountdown room' = 60 ∧
    gameStarted room' = true ∧ numbersCalled room' = [] ∧
    gameInterval room' = Some allNumbers ∧
    cards room' = [mkCard 1 sampleData None; mkCard 2 sampleData2 None;
                   mkCard 3 sampleData None] ∧
    players room' = [0%nat; 1%nat] ∧
    sockets s' = sockets countingState ∧ db_players s' = db_players countingState ∧
    (∀ p k, p ∈ [0%nat; 1%nat] → isOpen countingState p = true → 0 ≤ k ≤ 60 →
            (p, MCountdown "room_10" k) ∈ out).
Proof.
  apply (countdown_ends_in_a_started_game "room_10" countingState countingRoom 60).
  - reflexivity.
  - reflexivity.
  - lia.
  - reflexivity.
Defined.

(** ** Drawing numbers *)

Lemma gameTick_draw (roomId : string) (k : nat) (s : State) room pool num :
  rooms s !! roomId = Some room → gameInterval room = Some pool →
  players room ≠ [] → pool !! k = Some num →
  gameTick roomId k s
  = Some (set_rooms
            (<[roomId := set_numbersCalled (numbersCalled room ++ [num])
                           (set_gameInterval (Some (delete k pool)) room)]> (rooms s)) s,
          (fun p => (p, MNumberCalled num (numbersCalled room ++ [num]))) <$>
            filter (fun p => isOpen s p = true) (players room)).
Proof.
  intros Hr Hi Hp Hk. unfold gameTick. rewrite Hr. cbn. rewrite Hi. cbn.
  rewrite (bool_decide_eq_false_2 (pool = [])) by (by intros ->).
  rewrite (bool_decide_eq_false_2 (players room = [])) by done. cbn.
  rewrite Hk. done.
Qed.

Lemma draws_run (roomId : string) (ks : list nat) :
  ∀ (s : State) room pool,
    rooms s !! roomId = Some room → gameInterval room = Some pool →
    players room ≠ [] → validDraws (length pool) ks →
    ∃ s' out room' pool',
      run (EGameTick roomId <$> ks) s = Some (s', out) ∧
      rooms s' !! roomId = Some room' ∧
      gameInterval room' = Some pool' ∧
      numbersCalled room `prefix_of` numbersCalled room' ∧
      numbersCalled room' ++ pool' ≡ₚ numbersCalled room ++ pool ∧
      length (numbersCalled room') = (length (numbersCalled room) + length ks)%nat ∧
      gameStarted room' = gameStarted room ∧ cards room' = cards room.
Proof.
  induction ks as [|k ks IH]; intros s room pool Hr Hi Hp Hv.
  - exists s, [], room, pool. split; [done|]. split; [done|]. split; [done|].
    split; [done|]. split; [done|]. split; [cbn; lia|done].
  - destruct Hv as [Hk Hv]. destruct (lookup_lt_is_Some_2 pool k Hk) as [num Hnum].
    set (room1 := set_numbersCalled (numbersCalled room ++ [num])
                    (set_gameInterval (Some (delete k pool)) room)).
    set (s1 := set_rooms (<[roomId := room1]> (rooms s)) s).
    destruct (IH s1 room1 (delete k pool)) as (s' & out & room' & pool' & E & Hr' & Hi' & Hpre
                                                & Hperm & Hlen & Hg & Hc);
      [apply lookup_insert_eq|done|done| |].
    { by rewrite length_delete by (by eexists). }
    eexists _, _, room', pool'. split.
    { rewrite fmap_cons. eapply run_cons_Some; [|exact E]. cbn [step].
      by apply gameTick_draw. }
    split; [done|]. split; [done|]. split.
    { etrans; [|exact Hpre]. by apply prefix_app_r. }
    split.
    { rewrite Hperm. cbn. rewrite <-app_assoc. cbn. apply Permutation_app_head.
      rewrite <-(take_drop_middle pool k num Hnum) at 2. rewrite delete_take_drop.
      by rewrite Permutation_middle. }
    split; [|done]. rewrite Hlen. cbn. rewrite length_app. cbn. lia.
Qed.

(** X4: the draws of a game.  In a room with a player and a pending game
    interval, any draws whose random indices lie below the length of the
    pool at their time are served one after the other; each moves one number
    from the pool to the end of the called numbers, so called numbers and
    pool together stay a rearrangement of what they were.  Once as many
    numbers are drawn as the pool held, the pool is empty and every number of
    it has been called. *)
Theorem draws_move_pool_to_called (roomId : string) (ks : list nat) (s : State) room pool :
  rooms s !! roomId = Some room → gameInterval room = Some pool →
  players room ≠ [] → validDraws (length pool) ks →
  ∃ s' out room' pool',
    run (EGameTick roomId <$> ks) s = Some (s', out) ∧
    rooms s' !! roomId = Some room' ∧
    gameInterval room' = Some pool' ∧
    numbersCalled room `prefix_of` numbersCalled room' ∧
    numbersCalled room' ++ pool' ≡ₚ numbersCalled room ++ pool ∧
    length (numbersCalled room') = (length (numbersCalled room) + length ks)%nat ∧
    (length ks = length pool →
       pool' = [] ∧ numbersCalled room' ≡ₚ numbersCalled room ++ pool).
Proof.
  intros Hr Hi Hp Hv.
  destruct (draws_run roomId ks s room pool Hr Hi Hp Hv)
    as (s' & out & room' & pool' & E & Hr' & Hi' & Hpre & Hperm & Hlen & _).
  exists s', out, room', pool'. do 6 (split; [done|]). intros Hk.
  assert (pool' = []) as ->.
  { apply Permutation_length in Hperm. rewrite !length_app in Hperm.
    apply length_zero_iff_nil. lia. }
  split; [done|]. by rewrite app_nil_r in Hperm.
Qed.

Lemma validDraws_first (n : nat) : validDraws n (replicate n 0%nat).
Proof.
  induction n as [|n IH]; [done|]. cbn. split; [lia|]. by rewrite Nat.sub_0_r.
Qed.

Lemma draws_move_pool_to_called_witness :
  ∃ s' out room' pool',
    run (EGameTick "room_10" <$> replicate 65 0%nat) sampleState = Some (s', out) ∧
    rooms s' !! "room_10" = Some room' ∧
    gameInterval room' = Some pool' ∧
    [1; 2; 3; 4; 5; 6; 7; 8; 9; 10] `prefix_of` numbersCalled room' ∧
    numbersCalled room' ++ pool' ≡ₚ [1; 2; 3; 4; 5; 6; 7; 8; 9; 10] ++ drop 10 allNumbers ∧
    length (numbersCalled room') = 75%nat ∧
    pool' = [] ∧ numbersCalled room' ≡ₚ [1; 2; 3; 4; 5; 6; 7; 8; 9; 10] ++ drop 10 allNumbers.
Proof.
  destruct (draws_move_pool_to_called "room_10" (replicate 65 0%nat) sampleState sampleRoom
              (drop 10 allNumbers) eq_refl eq_refl ltac:(discriminate) (validDraws_first 65))
    as (s' & out & room' & pool' & E & Hr & Hi & Hpre & Hperm & Hlen & Hfull).
  exists s', out, room', pool'. do 6 (split; [assumption|]). apply Hfull. reflexivity.
Defined.

(** ** Claims outside a game *)

(** X5: a claim is not tied to a started game.  When the game interval finds
    its pool empty it ends the game but keeps the called numbers, and
    [claim_bingo] never looks at [gameStarted]: a claim served after that
    firing, for a player who holds a winning card, is a win like any other,
    broadcast to the open sockets of the room and credited to the record of
    the player. *)
Theorem claim_after_the_pool_is_empty_still_wins
    (ws : nat) (roomId playerPhone : string) (k : nat) (s : State) room i user :
  rooms s !! roomId = Some room → gameInterval room = Some [] →
  sessionsHoldDeckCards s room → holdsWinningCard s room playerPhone →
  findUser playerPhone s = Some (i, user) →
  ∃ s1 out1 room1 s2 out2 card pattern,
    gameTick roomId k s = Some (s1, out1) ∧
    rooms s1 !! roomId = Some room1 ∧ gameStarted room1 = false ∧
    gameInterval room1 = None ∧
    claim_bingo ws roomId playerPhone s1 = Some (s2, out2) ∧
    (∀ p, p ∈ players room → isOpen s p = true →
          (p, MBingoWin playerPhone card pattern) ∈ out2) ∧
    db_players s2
    = <[i := set_wins (wins user + 1) (set_balance (balance user + calcJackpot room) user)]>
        (db_players s).
Proof.
  intros Hr Hi Hs Hw Hu.
  set (room1 := resetCards (set_gameStarted false (set_gameInterval None room))).
  set (s1 := set_rooms (<[roomId := room1]> (rooms s)) s).
  assert (gameTick roomId k s = Some (s1, (fun p => (p, MGameEnd)) <$> players room)) as E1.
  { unfold gameTick. rewrite Hr. cbn. rewrite Hi. done. }
  assert (rooms s1 !! roomId = Some room1) as Hr1 by apply lookup_insert_eq.
  assert (sessionsHoldDeckCards s1 room1) as Hs1 by exact Hs.
  assert (holdsWinningCard s1 room1 playerPhone) as Hw1 by exact Hw.
  destruct (holdsWinningCard_claimWins s1 room1 playerPhone Hs1 Hw1) as (card & pattern & Hc).
  pose proof (claim_bingo_won ws roomId playerPhone s1 room1 card pattern Hr1 Hc) as E2.
  cbn zeta in E2.
  eexists s1, _, room1, _, _, card, pattern. split; [exact E1|]. split; [exact Hr1|].
  split; [done|]. split; [done|]. split; [exact E2|]. split.
  - intros p Hp Ho. apply elem_of_app. left. apply broadcastWin_elem; [done|].
    revert Ho. unfold isOpen, creditJackpot. by destruct (findUser _ _) as [[? ?]|].
  - cbn -[calcJackpot]. unfold creditJackpot.
    change (findUser playerPhone s1) with (findUser playerPhone s). rewrite Hu.
    cbn -[calcJackpot]. rewrite !calcJackpot_div. done.
Qed.

Lemma claim_after_the_pool_is_empty_still_wins_witness :
  ∃ s1 out1 room1 s2 out2 card pattern,
    gameTick "room_10" 0 drainedState = Some (s1, out1) ∧
    rooms s1 !! "room_10" = Some room1 ∧ gameStarted room1 = false ∧
    gameInterval room1 = None ∧
    claim_bingo 0 "room_10" "A" s1 = Some (s2, out2) ∧
    (∀ p, p ∈ [0%nat; 1%nat] → isOpen drainedState p = true →
          (p, MBingoWin "A" card pattern) ∈ out2) ∧
    db_players s2 = [mkUser "A" 1018 1; mkUser "B" 1000 0].
Proof.
  apply (claim_after_the_pool_is_empty_still_wins 0 "room_10" "A" 0 drainedState drainedRoom
           0%nat (mkUser "A" 1000 0)).
  - reflexivity.
  - reflexivity.
  - apply drainedState_sessions.
  - apply drainedState_holdsWinningCard.
  - reflexivity.
Defined.

(** ** Joining a room *)



(** X6: a claim after a re-join throws.  [join_room] stores the room's own
    card objects of the handle on the socket, not their client form.  When a
    socket joins under a handle that holds a card of the room and no socket
    of the room carries that handle yet, the next claim for the handle runs
    [checkBingo] on such an object and the handler throws: it returns no
    state and sends nothing. *)
Theorem claim_after_rejoin_throws
    (ws claimant : nat) (roomId phone : string) (s : State) room w :
  rooms s !! roomId = Some room → sockets s !! ws = Some w →
  (∀ p w', p ∈ players room → sockets s !! p = Some w' → ws_phone w' ≠ Some phone) →
  cardsOf (Some phone) room ≠ [] →
  claim_bingo claimant roomId phone (join_room ws roomId phone s).1 = None.
Proof.
  intros Hr Hw Hnone Hheld. unfold join_room. rewrite Hr. cbn [fst].
  unfold claim_bingo. cbn [rooms set_rooms sockets set_sockets]. rewrite lookup_insert_eq.
  cbn [players set_players numbersCalled].
  set (raw := SRoomCard ∘ id <$> cardsOf (Some phone) (set_players (players room ++ [ws]) room)).
  set (socks := alter _ ws (sockets s)).
  assert (socks !! ws = Some (set_ws_cards (Some (if bool_decide (0 < length
            (cardsOf (Some phone) (set_players (players room ++ [ws]) room)))%nat
            then raw else [])) (set_ws_phone (Some phone) w))) as Hws.
  { subst socks. by rewrite list_lookup_alter_eq, Hw. }
  destruct (list_find _ (players room ++ [ws])) as [[i q]|] eqn:Ef.
  - apply list_find_Some in Ef as (Hi & Hq & _).
    assert (q = ws) as ->.
    { destruct (decide (q = ws)) as [|Hne]; [done|exfalso].
      apply list_elem_of_lookup_2 in Hi. apply elem_of_app in Hi as [Hi|Hi].
      - subst socks. rewrite list_lookup_alter_ne in Hq by done.
        destruct (sockets s !! q) as [w'|] eqn:Ew'; [|done]. by eapply Hnone.
      - apply list_elem_of_singleton in Hi. done. }
    rewrite Hws. cbn [mbind option_bind ws_cards set_ws_cards].
    rewrite bool_decide_eq_true_2.
    2:{ change (cardsOf (Some phone) (set_players (players room ++ [ws]) room))
          with (cardsOf (Some phone) room). destruct (cardsOf (Some phone) room); [done|cbn; lia]. }
    subst raw. change (cardsOf (Some phone) (set_players (players room ++ [ws]) room))
      with (cardsOf (Some phone) room).
    destruct (cardsOf (Some phone) room) as [|c cs]; [done|]. done.
  - exfalso. apply list_find_None in Ef. rewrite Forall_app, Forall_singleton in Ef.
    destruct Ef as [_ Ef]. apply Ef. by rewrite Hws.
Qed.

Lemma claim_after_rejoin_throws_witness :
  claim_bingo 0 "room_10" "A"
    (join_room 0 "room_10" "A" (select_card 0 "room_10" "A" 1 (connection lobbyStart)).1).1
  = None.
Proof.
  apply (claim_after_rejoin_throws 0 0 "room_10" "A"
           (select_card 0 "room_10" "A" 1 (connection lobbyStart)).1
           (select_card_room "A" 0 (mkCard 1 sampleData None)
              (loadRoom [sampleData; sampleData2; sampleData]
                 (mkDbRoom "room_10" 10 0 [] 0 60)))
           (mkSocket None (Some [SFormatted sampleCard]) true)).
  - vm_compute. reflexivity.
  - reflexivity.
  - intros p w' Hp. by apply elem_of_nil in Hp.
  - discriminate.
Defined.

(** ** Requests the balance check lets through *)

(** X7: a start request under a handle that has no record in the store is
    served without any charge: the store is left as it is, the first answer
    is the requester's cards with phase "game", and the countdown starts
    when the room has no game and no countdown running. *)
Theorem start_game_without_record_is_free ws roomId phone (s : State) room :
  rooms s !! roomId = Some room →
  cardsOf (Some phone) room ≠ [] →
  findUser phone s = None →
  ∃ s' out room',
    start_game ws roomId phone s
    = (s', (ws, MShowCards "game" roomId
                  (Some (SFormatted ∘ formatCardForClient <$> cardsOf (Some phone) room)))
           :: out) ∧
    db_players s' = db_players s ∧
    rooms s' !! roomId = Some room' ∧
    (gameStarted room = false → countdown room = None →
       countdown room'
       = Some (if currentCountdown room =? 0 then 60 else currentCountdown room)).
Proof.
  intros Hr Hc Hu. unfold start_game. rewrite Hr.
  rewrite bool_decide_eq_false_2 by done. unfold deductCost. rewrite Hu.
  destruct (showAndCount_rooms ws roomId phone room (cardsOf (Some phone) room) s Hr)
    as (E1 & E2).
  assert (∃ out, (showAndCount ws roomId phone room (cardsOf (Some phone) room) s).2
                 = (ws, MShowCards "game" roomId
                          (Some (SFormatted ∘ formatCardForClient <$> cardsOf (Some phone) room)))
                   :: out) as (out & E3).
  { unfold showAndCount. destruct (negb _ && _); [|by eexists].
    destruct (startRoomCountdown _ _). by eexists. }
  destruct (showAndCount _ _ _ _ _ s) as [s2 out2]. cbn in E1, E2, E3. subst out2.
  eexists s2, out, _. split; [reflexivity|]. split; [done|].
  split; [rewrite E2; apply lookup_insert_eq|].
  intros Hg Hn. rewrite Hg, Hn. done.
Qed.

Lemma start_game_without_record_is_free_witness :
  ∃ s' out room',
    start_game 0 "room_10" "A" (set_db_players [] lobbyState)
    = (s', (0%nat, MShowCards "game" "room_10" (Some [SFormatted sampleCard])) :: out) ∧
    db_players s' = [] ∧
    rooms s' !! "room_10" = Some room' ∧
    countdown room' = Some 60.
Proof.
  destruct (start_game_without_record_is_free 0 "room_10" "A" (set_db_players [] lobbyState)
              lobbyRoom eq_refl ltac:(discriminate) eq_refl)
    as (s' & out & room' & E & Hdb & Hr & Hc).
  exists s', out, room'. split; [exact E|]. split; [exact Hdb|]. split; [exact Hr|].
  apply Hc; reflexivity.
Defined.

(** ** Joining twice *)

Lemma join_room_players ws roomId phone (s : State) room :
  rooms s !! roomId = Some room →
  rooms (join_room ws roomId phone s).1
  = <[roomId := set_players (players room ++ [ws]) room]> (rooms s).
Proof. intros Hr. unfold join_room. by rewrite Hr. Qed.

(** X8: [join_room] does not look whether the socket is in the room already.
    A socket that joins a room [n] times stands [n] more times in
    [room.players], and the jackpot computed from the room counts it every
    time. *)
Theorem joins_of_one_socket_all_count (n : nat) ws roomId phone (s : State) room :
  rooms s !! roomId = Some room →
  ∃ room',
    rooms (Nat.iter n (fun s => (join_room ws roomId phone s).1) s) !! roomId = Some room' ∧
    players room' = players room ++ replicate n ws ∧
    cost room' = cost room ∧
    calcJackpot room'
    = ((Z.of_nat (length (players room)) + Z.of_nat n) * cost room * 9) `div` 10.
Proof.
  intros Hr.
  assert (∃ room', rooms (Nat.iter n (fun s => (join_room ws roomId phone s).1) s) !! roomId
                   = Some room' ∧
                   players room' = players room ++ replicate n ws ∧ cost room' = cost room)
    as (room' & Hr' & Hp & Hc).
  { induction n as [|n (room1 & Hr1 & Hp1 & Hc1)]; [exists room; by rewrite app_nil_r|].
    rewrite Nat.iter_succ, (join_room_players ws roomId phone _ room1 Hr1).
    rewrite lookup_insert_eq. eexists. split; [reflexivity|]. cbn. split; [|done].
    rewrite Hp1, <-app_assoc. f_equal. exact (eq_sym (replicate_S_end n ws)). }
  exists room'. split; [done|]. split; [done|]. split; [done|].
  rewrite calcJackpot_div, Hp, Hc, length_app, length_replicate. f_equal. lia.
Qed.

Lemma joins_of_one_socket_all_count_witness :
  ∃ room',
    rooms (Nat.iter 8 (fun s => (join_room 0 "room_10" "A" s).1) lobbyState) !! "room_10"
    = Some room' ∧
    players room' = [0; 1; 0; 0; 0; 0; 0; 0; 0; 0]%nat ∧
    cost room' = 10 ∧
    calcJackpot room' = 90.
Proof.
  apply (joins_of_one_socket_all_count 8 0 "room_10" "A" lobbyState lobbyRoom). reflexivity.
Defined.

(** ** Selecting a card twice *)

(** X9: a player may select a card they hold already.  The request is
    accepted like a first one: the cards of the room and the number of cards
    the player holds stay as they are, and the grid is appended once more to
    the cards of the requester's socket. *)
Theorem select_card_again_duplicates_session_card
    ws roomId phone cardId (s : State) room i card w :
  rooms s !! roomId = Some room →
  list_find (fun c => id c = cardId) (cards room) = Some (i, card) →
  takenBy card = Some phone → (heldBy phone room < 4)%nat →
  sockets s !! ws = Some w →
  ∃ s' out room',
    select_card ws roomId phone cardId s
    = (s', (ws, MCardSelected roomId cardId phone) :: out) ∧
    rooms s' !! roomId = Some room' ∧
    cards room' = cards room ∧ heldBy phone room' = heldBy phone room ∧
    (ws_cards <$> sockets s' !! ws)
    = Some (Some (default [] (ws_cards w) ++ [SFormatted (formatCardForClient card)])).
Proof.
  intros Hr Hf Ht Hlt Hw.
  pose proof Hf as (Hi & Hid & _)%list_find_Some. cbn in Hid.
  unfold select_card. rewrite Hr, Hf.
  assert (freeFor phone card) as Hfree by (right; right; done).
  apply freeFor_spec in Hfree. rewrite Hfree.
  rewrite bool_decide_eq_false_2 by (unfold heldBy in Hlt; lia).
  subst cardId. cbn.
  assert (<[i := set_takenBy (Some phone) card]> (cards room) = cards room) as Ec.
  { apply list_insert_id. rewrite Hi. f_equal. destruct card; cbn in *. by subst. }
  eexists _, _, _. split; [reflexivity|]. split; [apply lookup_insert_eq|]. cbn.
  split; [done|]. split; [unfold heldBy, cardsOf; cbn; by rewrite Ec|].
  by rewrite list_lookup_alter_eq, Hw.
Qed.

Lemma select_card_again_duplicates_session_card_witness :
  ∃ s' out room',
    select_card 0 "room_10" "A" 1 lobbyState
    = (s', (0%nat, MCardSelected "room_10" 1 "A") :: out) ∧
    rooms s' !! "room_10" = Some room' ∧
    cards room' = cards lobbyRoom ∧ heldBy "A" room' = 1%nat ∧
    (ws_cards <$> sockets s' !! 0%nat)
    = Some (Some [SFormatted sampleCard; SFormatted sampleCard]).
Proof.
  apply (select_card_again_duplicates_session_card 0 "room_10" "A" 1 lobbyState lobbyRoom
           0%nat (mkCard 1 sampleData (Some "A"))
           (mkSocket (Some "A") (Some [SFormatted sampleCard]) true)).
  - reflexivity.
  - reflexivity.
  - reflexivity.
  - vm_compute. lia.
  - reflexivity.
Defined.

(** ** Broadcasts and closed sockets *)

Lemma isOpen_close (ws : nat) (s : State) : isOpen (close ws s) ws = false.
Proof.
  unfold isOpen, close. cbn. rewrite list_lookup_alter_eq. by destruct (sockets s !! ws).
Qed.

(** X10: once a socket is closed, none of the three broadcast helpers sends on
    it again, whatever the message, although the socket stays in the rooms
    it joined. *)
Theorem no_broadcast_to_a_closed_socket (ws : nat) (s : State) (roomId : string) (m m' : Msg) :
  rooms (close ws s) = rooms s ∧
  ((ws, m') ∉ broadcastToRoom (close ws s) roomId m) ∧
  ((ws, m') ∉ broadcastToAll (close ws s) m) ∧
  ((ws, m') ∉ updateRoomStatus (close ws s)).
Proof.
  pose proof (isOpen_close ws s) as Hc.
  split; [done|]. split; [|split].
  - unfold broadcastToRoom. destruct (rooms (close ws s) !! roomId); [|by intros ?%elem_of_nil].
    intros (p & [= <- _] & (Ho & _)%list_elem_of_filter)%list_elem_of_fmap. congruence.
  - unfold broadcastToAll.
    intros (p & [= <- _] & (Ho & _)%list_elem_of_filter)%list_elem_of_fmap. congruence.
  - unfold updateRoomStatus.
    intros (p & [= <- _] & (Ho & _)%list_elem_of_filter)%list_elem_of_fmap. congruence.
Qed.

(** ** The lines of a card *)

Lemma checkBingo_existsb (card : FCard) (numbersCalled : list Z) :
  checkBingo card numbersCalled = existsb (isLineMarked numbersCalled) (winLines card).
Proof.
  unfold checkBingo, winLines. cbn [BINGO seq fmap list_fmap app existsb].
  repeat match goal with
  | |- context [isLineMarked ?a ?b] => destruct (isLineMarked a b); cbn [orb]
  end; reflexivity.
Qed.

(** X11: [checkBingo] holds exactly when one of the twelve lines of the card
    has every cell marked, a cell being marked when it is there and is 0 or a
    called number.  So the answer depends on the called numbers only through
    which numbers occur among them, not on their order or repetitions. *)
Theorem checkBingo_iff_some_line_marked (card : FCard) (numbersCalled : list Z) :
  checkBingo card numbersCalled = true ↔
  ∃ line, line ∈ winLines card ∧
          ∀ v, v ∈ line → ∃ z, v = Some z ∧ (z = 0 ∨ z ∈ numbersCalled).
Proof.
  rewrite checkBingo_existsb, existsb_exists. split.
  - intros (line & Hin%list_elem_of_In & Hm). exists line. split; [done|].
    by apply isLineMarked_true.
  - intros (line & Hin & Hm). exists line. split; [by apply list_elem_of_In|].
    by apply isLineMarked_true.
Qed.

(** X12: calling more numbers never turns a winning card into a losing one. *)
Theorem checkBingo_monotone (card : FCard) (numbersCalled numbersCalled' : list Z) :
  (∀ n, n ∈ numbersCalled → n ∈ numbersCalled') →
  checkBingo card numbersCalled = true → checkBingo card numbersCalled' = true.
Proof.
  intros Hsub. rewrite !checkBingo_existsb, !existsb_exists.
  intros (line & Hin & Hm). exists line. split; [done|].
  apply isLineMarked_true. intros v Hv.
  destruct (proj1 (isLineMarked_true _ _) Hm v Hv) as (z & -> & [->|Hz]); eauto.
Qed.

Lemma checkBingo_monotone_witness :
  checkBingo sampleCard [61; 5; 75; 47; 19; 19] = true.
Proof.
  apply (checkBingo_monotone sampleCard [5; 19; 47; 61]).
  - intros n. rewrite !elem_of_cons, !elem_of_nil. tauto.
  - reflexivity.
Defined.

Lemma imap_pair_elem {A : Type} (f : nat → nat * nat) (l : list A) (rc : nat * nat) :
  rc ∈ imap (fun i _ => f i) l → ∃ i, (i < length l)%nat ∧ rc = f i.
Proof.
  intros (i & Hi)%list_elem_of_lookup. rewrite list_lookup_imap in Hi.
  destruct (l !! i) eqn:E; [|done]. injection Hi as <-.
  exists i. split; [by eapply lookup_lt_Some|done].
Qed.

(** X13: the winning pattern names marked cells only.  A pair [(r, c)] of the
    pattern [extractWinningPattern] returns is a cell of the card, entry [r]
    of column [c], and that entry is 0 or a called number; on a deck card the
    pattern has five cells. *)
Theorem winning_pattern_cells_are_marked
    (card : FCard) (numbersCalled : list Z) (pattern : list (nat * nat)) :
  extractWinningPattern card numbersCalled = Some pattern →
  (∀ r c, (r, c) ∈ pattern →
     ∃ z, colAt card c !! r = Some z ∧ (z = 0 ∨ z ∈ numbersCalled)) ∧
  (deckCard card → length pattern = 5%nat).
Proof.
  unfold extractWinningPattern.
  destruct (find _ (seq 0 5)) as [c0|] eqn:Ec.
  { intros [= <-]. apply find_some in Ec as [Hc Hm]. split.
    - intros r c (i & Hi & [= -> ->])%imap_pair_elem.
      destruct (lookup_lt_is_Some_2 _ _ Hi) as [z Hz]. exists z. split; [done|].
      destruct (proj1 (isLineMarked_true _ _) Hm (Some z)) as (z' & [= <-] & ?); [|done].
      apply list_elem_of_fmap. exists z. split; [done|]. by eapply list_elem_of_lookup_2.
    - intros Hd. rewrite length_imap. apply list_elem_of_In, elem_of_seq in Hc.
      unfold colAt. destruct (BINGO !! c0) as [l|] eqn:El.
      + by destruct (Hd c0 l El) as [? _].
      + apply lookup_ge_None in El. cbn in El. lia. }
  cbv beta iota.
  destruct (find (fun r => isLineMarked numbersCalled (rowNums card r)) (seq 0 5))
    as [r0|] eqn:Er.
  { intros [= <-]. apply find_some in Er as [Hr Hm]. split.
    - intros r c Hin.
      apply (imap_pair_elem (fun c => (r0, c)) (rowNums card r0)) in Hin
        as (i & Hi & [= -> ->]).
      unfold rowNums in Hi. rewrite length_fmap in Hi. cbn in Hi.
      assert (rowNums card r0 !! i = Some (colAt card i !! r0)) as Hl.
      { unfold rowNums, colAt. rewrite list_lookup_fmap.
        by destruct (BINGO !! i) eqn:E; [|apply lookup_ge_None in E; cbn in E; lia]. }
      destruct (proj1 (isLineMarked_true _ _) Hm (colAt card i !! r0)) as (z & Hz & ?);
        [by eapply list_elem_of_lookup_2|]. exists z. done.
    - by intros _. }
  cbv beta iota.
  destruct (isLineMarked numbersCalled (diag1 card)) eqn:E1.
  { intros [= <-]. split.
    - intros r c Hin.
      apply (imap_pair_elem (fun i => (i, i)) (diag1 card)) in Hin as (i & Hi & [= -> ->]).
      cbn in Hi.
      assert (diag1 card !! i = Some (colAt card i !! i)) as Hl.
      { by destruct i as [|[|[|[|[|]]]]]; try (cbn in Hi; lia). }
      destruct (proj1 (isLineMarked_true _ _) E1 (colAt card i !! i)) as (z & Hz & ?);
        [by eapply list_elem_of_lookup_2|]. exists z. done.
    - by intros _. }
  destruct (isLineMarked numbersCalled (diag2 card)) eqn:E2; [|done].
  intros [= <-]. split.
  - intros r c Hin.
    apply (imap_pair_elem (fun i => (i, (4 - i)%nat)) (diag2 card)) in Hin
      as (i & Hi & [= -> ->]).
    cbn in Hi.
    assert (diag2 card !! i = Some (colAt card (4 - i) !! i)) as Hl.
    { by destruct i as [|[|[|[|[|]]]]]; try (cbn in Hi; lia). }
    destruct (proj1 (isLineMarked_true _ _) E2 (colAt card (4 - i) !! i)) as (z & Hz & ?);
      [by eapply list_elem_of_lookup_2|]. exists z. done.
  - by intros _.
Qed.

Lemma winning_pattern_cells_are_marked_witness :
  (∀ r c, (r, c) ∈ [(0, 4); (1, 3); (2, 2); (3, 1); (4, 0)]%nat →
     ∃ z, colAt sampleCard c !! r = Some z ∧ (z = 0 ∨ z ∈ [5; 19; 47; 61])) ∧
  length [(0, 4); (1, 3); (2, 2); (3, 1); (4, 0)]%nat = 5%nat.
Proof.
  destruct (winning_pattern_cells_are_marked sampleCard [5; 19; 47; 61]
              [(0, 4); (1, 3); (2, 2); (3, 1); (4, 0)]%nat eq_refl) as [H1 H2].
  split; [exact H1|exact (H2 sampleCard_deck)].
Defined.

(** ** Deck generation *)

Lemma fillColumn_spec (min : Z) (draws : list Z) :
  ∀ nums nums' rest,
    fillColumn min draws nums = Some (nums', rest) →
    (length nums ≤ 5)%nat → NoDup nums →
    Forall (fun r => 0 ≤ r ≤ 14) draws →
    Forall (fun n => min ≤ n ≤ min + 14) nums →
    length nums' = 5%nat ∧ NoDup nums' ∧ Forall (fun n => min ≤ n ≤ min + 14) nums' ∧
    Forall (fun r => 0 ≤ r ≤ 14) rest.
Proof.
  induction draws as [|r draws IH]; intros nums nums' rest H Hl Hn Hd Hr; cbn in H.
  - case_bool_decide; [done|]. injection H as <- <-. split; [lia|done].
  - case_bool_decide as Hlt.
    + apply Forall_cons in Hd as [Hr0 Hd]. case_bool_decide as Hin.
      * by apply (IH nums).
      * apply (IH (nums ++ [r + min])); [done| | | |].
        -- rewrite length_app. cbn. lia.
        -- apply NoDup_app. split; [done|]. split; [|apply NoDup_singleton].
           intros x Hx ->%list_elem_of_singleton. done.
        -- done.
        -- apply Forall_app. split; [done|]. apply Forall_singleton. lia.
    + injection H as <- <-. split; [lia|done].
Qed.

Lemma NoDup_centre (a b c d e : Z) :
  NoDup [a; b; c; d; e] → a ≠ 0 → b ≠ 0 → d ≠ 0 → e ≠ 0 → NoDup [a; b; 0; d; e].
Proof.
  rewrite !NoDup_cons, !not_elem_of_cons.
  intros ((? & ? & ? & ? & _) & (? & ? & ? & _) & _ & (? & _) & _ & _) ? ? ? ?.
  repeat split; try done; try apply not_elem_of_nil; try apply NoDup_nil_2; congruence.
Qed.


(** X14: a card of [generateBingoCard] is a deck card.  Whenever the loops
    fill the five columns from draws within 0..14, the result has 25
    entries with 0 at index 12, and its client form has five columns of five
    entries, those of column [j] within [15 j + 1 .. 15 j + 15] but for the
    centre, and no entry twice in a column. *)
Theorem generateBingoCard_is_deck_card
    (draws card : list Z) (cardId : Z) (holder : option string) :
  Forall (fun r => 0 ≤ r ≤ 14) draws →
  generateBingoCard draws = Some card →
  length card = 25%nat ∧ card !! 12%nat = Some 0 ∧
  deckCard (formatCardForClient (mkCard cardId (CNum <$> card) holder)) ∧
  ∀ l, NoDup (col (formatCardForClient (mkCard cardId (CNum <$> card) holder)) l).
Proof.
  intros Hd H. unfold generateBingoCard, columns in H. cbn [fillColumns] in H.
  destruct (fillColumn 1 draws []) as [[c0 d0]|] eqn:E0; [|done].
  destruct (fillColumn_spec _ _ _ _ _ E0) as (L0 & N0 & R0 & D0);
    [cbn; lia|constructor|done|constructor|].
  destruct (fillColumn 16 d0 []) as [[c1 d1]|] eqn:E1; [|done].
  destruct (fillColumn_spec _ _ _ _ _ E1) as (L1 & N1 & R1 & D1);
    [cbn; lia|constructor|done|constructor|].
  destruct (fillColumn 31 d1 []) as [[c2 d2]|] eqn:E2; [|done].
  destruct (fillColumn_spec _ _ _ _ _ E2) as (L2 & N2 & R2 & D2);
    [cbn; lia|constructor|done|constructor|].
  destruct (fillColumn 46 d2 []) as [[c3 d3]|] eqn:E3; [|done].
  destruct (fillColumn_spec _ _ _ _ _ E3) as (L3 & N3 & R3 & D3);
    [cbn; lia|constructor|done|constructor|].
  destruct (fillColumn 61 d3 []) as [[c4 d4]|] eqn:E4; [|done].
  destruct (fillColumn_spec _ _ _ _ _ E4) as (L4 & N4 & R4 & D4);
    [cbn; lia|constructor|done|constructor|].
  clear E0 E1 E2 E3 E4 D0 D1 D2 D3 D4 Hd.
  five c0. five c1. five c2. five c3. five c4.
  cbn in H. injection H as <-.
  repeat match goal with H : Forall _ (_ :: _) |- _ => apply Forall_cons in H as [? H] end.
  split; [done|]. split; [done|]. split.
  - intros j l Hj. unfold BINGO in Hj.
    destruct j as [|[|[|[|[|]]]]]; cbn in Hj; try discriminate;
      injection Hj as <-; (split; [reflexivity|]);
      intros i z Hi; destruct i as [|[|[|[|[|]]]]]; cbn in Hi; try discriminate;
      injection Hi as <-; case_bool_decide; lia.
  - intros l. destruct l; cbn; try done.
    match goal with H : NoDup [?a; ?b; _; ?d; ?e] |- NoDup [?a; ?b; 0; ?d; ?e] =>
      apply (NoDup_centre _ _ _ _ _ H); lia end.
Qed.

Lemma generateBingoCard_is_deck_card_witness :
  length [1; 2; 3; 4; 5; 16; 17; 18; 19; 20; 35; 34; 0; 32; 31;
          50; 48; 46; 47; 49; 65; 61; 62; 63; 64] = 25%nat ∧
  [1; 2; 3; 4; 5; 16; 17; 18; 19; 20; 35; 34; 0; 32; 31;
   50; 48; 46; 47; 49; 65; 61; 62; 63; 64] !! 12%nat = Some 0 ∧
  deckCard (mkFCard [1; 2; 3; 4; 5] [16; 17; 18; 19; 20] [35; 34; 0; 32; 31]
                    [50; 48; 46; 47; 49] [65; 61; 62; 63; 64]) ∧
  ∀ l, NoDup (col (mkFCard [1; 2; 3; 4; 5] [16; 17; 18; 19; 20] [35; 34; 0; 32; 31]
                           [50; 48; 46; 47; 49] [65; 61; 62; 63; 64]) l).
Proof.
  apply (generateBingoCard_is_deck_card
           [0; 1; 1; 2; 0; 3; 4;  0; 1; 2; 3; 4;  4; 3; 14; 1; 0;
            4; 2; 0; 1; 2; 3;  4; 0; 1; 2; 3; 4; 9]
           [1; 2; 3; 4; 5; 16; 17; 18; 19; 20; 35; 34; 0; 32; 31;
            50; 48; 46; 47; 49; 65; 61; 62; 63; 64] 1 None).
  - apply (bool_decide_unpack _). vm_compute. reflexivity.
  - reflexivity.
Defined.

Lemma fillColumn_distinct (min : Z) (g rest : list Z) :
  ∀ nums,
    NoDup (nums ++ ((fun r => r + min) <$> g)) → (length nums + length g = 5)%nat →
    fillColumn min (g ++ rest) nums = Some (nums ++ ((fun r => r + min) <$> g), rest).
Proof.
  induction g as [|r g IH]; intros nums Hn Hl; cbn in *.
  - rewrite app_nil_r. destruct rest; cbn; by rewrite bool_decide_eq_false_2 by lia.
  - rewrite bool_decide_eq_true_2 by lia.
    apply NoDup_app in Hn as (Hn1 & Hn2 & Hn3).
    rewrite bool_decide_eq_false_2.
    2:{ intros Hin. apply (Hn2 _ Hin). by left. }
    rewrite IH.
    + by rewrite <-app_assoc.
    + rewrite <-app_assoc. cbn. apply NoDup_app. done.
    + rewrite length_app. cbn. lia.
Qed.

(** X15: [generateBingoCard] returns once it has drawn 25 values that differ
    within each group of five: the loops run 25 times and the card holds the
    draws of group [j] raised by the lower bound of column [j], in the order
    drawn, with 0 at index 12. *)
Theorem generateBingoCard_returns_on_distinct_draws (g0 g1 g2 g3 g4 rest : list Z) :
  Forall (fun g => NoDup g ∧ length g = 5%nat) [g0; g1; g2; g3; g4] →
  generateBingoCard (g0 ++ g1 ++ g2 ++ g3 ++ g4 ++ rest)
  = Some (<[12%nat := 0]>
            (((fun r => r + 1) <$> g0) ++ ((fun r => r + 16) <$> g1)
             ++ ((fun r => r + 31) <$> g2) ++ ((fun r => r + 46) <$> g3)
             ++ ((fun r => r + 61) <$> g4))).
Proof.
  intros H. rewrite !Forall_cons in H.
  destruct H as ((? & ?) & (? & ?) & (? & ?) & (? & ?) & (? & ?) & _).
  assert (∀ (m : Z) (g : list Z), NoDup g → NoDup ([] ++ ((fun r => r + m) <$> g))) as Hnd.
  { intros m g Hg. cbn. apply NoDup_fmap_2; [intros ? ?; lia|done]. }
  unfold generateBingoCard, columns. cbn [fillColumns].
  rewrite (fillColumn_distinct 1 g0 _ []) by first [by apply Hnd | cbn; lia].
  rewrite (fillColumn_distinct 16 g1 _ []) by first [by apply Hnd | cbn; lia].
  rewrite (fillColumn_distinct 31 g2 _ []) by first [by apply Hnd | cbn; lia].
  rewrite (fillColumn_distinct 46 g3 _ []) by first [by apply Hnd | cbn; lia].
  rewrite (fillColumn_distinct 61 g4 rest []) by first [by apply Hnd | cbn; lia].
  cbn. by rewrite <-!app_assoc.
Qed.

Lemma generateBingoCard_returns_on_distinct_draws_witness :
  generateBingoCard ([0; 1; 2; 3; 4] ++ [4; 3; 2; 1; 0] ++ [0; 2; 4; 6; 8] ++ [14; 13; 12; 11; 10]
                     ++ [5; 6; 7; 8; 9] ++ [3; 3])
  = Some (<[12%nat := 0]>
            (((fun r => r + 1) <$> [0; 1; 2; 3; 4]) ++ ((fun r => r + 16) <$> [4; 3; 2; 1; 0])
             ++ ((fun r => r + 31) <$> [0; 2; 4; 6; 8])
             ++ ((fun r => r + 46) <$> [14; 13; 12; 11; 10])
             ++ ((fun r => r + 61) <$> [5; 6; 7; 8; 9]))).
Proof.
  apply generateBingoCard_returns_on_distinct_draws.
  apply (bool_decide_unpack _). vm_compute. reflexivity.
Defined.

(** ** The deck file *)

Lemma areCardsEqual_prefix (card1 card2 : list Z) :
  areCardsEqual card1 card2 = true ↔ card1 `prefix_of` card2.
Proof.
  unfold areCardsEqual. rewrite forallb_forall. split.
  - intros H. exists (drop (length card1) card2).
    rewrite <-(take_drop (length card1) card2) at 1. f_equal.
    apply list_eq. intros i. destruct (card1 !! i) as [num|] eqn:E.
    + assert (In (bool_decide (card2 !! i = Some num))
                 (imap (fun idx num => bool_decide (card2 !! idx = Some num)) card1)) as Hin.
      { apply list_elem_of_In, list_elem_of_lookup. exists i.
        by rewrite list_lookup_imap, E. }
      apply H, bool_decide_eq_true in Hin.
      rewrite lookup_take_lt by (by eapply lookup_lt_Some). done.
    + apply lookup_ge_None in E. apply lookup_ge_None. rewrite length_take. lia.
  - intros [k ->] b (i & Hi)%list_elem_of_In%list_elem_of_lookup.
    rewrite list_lookup_imap in Hi. destruct (card1 !! i) as [num|] eqn:E; [|done].
    injection Hi as <-. apply bool_decide_eq_true. by apply lookup_app_l_Some.
Qed.

(** X16: [areCardsEqual] compares the first card with the start of the
    second: it holds exactly when [card1] is a prefix of [card2], so on cards
    of the same length it is equality. *)
Theorem areCardsEqual_compares_a_prefix (card1 card2 : list Z) :
  (areCardsEqual card1 card2 = true ↔ card1 `prefix_of` card2) ∧
  (length card1 = length card2 → (areCardsEqual card1 card2 = true ↔ card1 = card2)).
Proof.
  split; [apply areCardsEqual_prefix|]. intros Hl. rewrite areCardsEqual_prefix. split.
  - intros [k ->]. rewrite length_app in Hl. destruct k; [by rewrite app_nil_r|cbn in Hl; lia].
  - by intros ->.
Qed.

Lemma generateUniqueCards_spec (count : nat) (candidates : list (list Z)) :
  ∀ cards deck,
    NoDup cards → (length cards ≤ count)%nat →
    generateUniqueCards count candidates cards = Some deck →
    length deck = count ∧ NoDup deck ∧
    ∃ picked, deck = cards ++ picked ∧ picked `sublist_of` candidates.
Proof.
  induction candidates as [|newCard candidates IH]; intros cards deck Hn Hl H; cbn in H.
  - case_bool_decide; [done|]. injection H as <-. split; [lia|]. split; [done|].
    exists []. by rewrite app_nil_r.
  - case_bool_decide as Hlt.
    + destruct (existsb _ cards) eqn:Ex.
      * destruct (IH cards deck Hn Hl H) as (? & ? & picked & -> & Hs).
        split; [done|]. split; [done|]. exists picked. split; [done|]. by apply sublist_cons.
      * destruct (IH (cards ++ [newCard]) deck) as (? & ? & picked & -> & Hs); [| |done|].
        -- apply NoDup_app. split; [done|]. split; [|apply NoDup_singleton].
           intros c Hc ->%list_elem_of_singleton.
           assert (existsb (fun c => areCardsEqual c newCard) cards = true) as Ex'; [|congruence].
           apply existsb_exists. exists newCard. split; [by apply list_elem_of_In|].
           by apply areCardsEqual_prefix.
        -- rewrite length_app. cbn. lia.
        -- split; [done|]. split; [done|]. exists (newCard :: picked).
           split; [by rewrite <-app_assoc|]. by apply sublist_skip.
    + injection H as <-. split; [lia|]. split; [done|]. exists []. split; [by rewrite app_nil_r|].
      apply sublist_nil_l.
Qed.

(** X17: the deck [generateUniqueCards] returns has [count] cards, no card
    twice, and its cards are generated cards in the order of their
    generation. *)
Theorem generateUniqueCards_deck_has_no_repeats
    (count : nat) (candidates deck : list (list Z)) :
  generateUniqueCards count candidates [] = Some deck →
  length deck = count ∧ NoDup deck ∧ deck `sublist_of` candidates.
Proof.
  intros H.
  destruct (generateUniqueCards_spec count candidates [] deck) as (? & ? & picked & -> & ?);
    [constructor|cbn; lia|done|]. done.
Qed.

Lemma generateUniqueCards_deck_has_no_repeats_witness :
  length [[1; 2; 3]; [4; 5; 6]] = 2%nat ∧ NoDup [[1; 2; 3]; [4; 5; 6]] ∧
  [[1; 2; 3]; [4; 5; 6]] `sublist_of` [[1; 2; 3]; [1; 2; 3]; [4; 5; 6]; [7; 8; 9]].
Proof.
  apply (generateUniqueCards_deck_has_no_repeats 2
           [[1; 2; 3]; [1; 2; 3]; [4; 5; 6]; [7; 8; 9]] [[1; 2; 3]; [4; 5; 6]]).
  reflexivity.
Defined.

(** ** Start-up of the store *)

(** X18: [initDB] is idempotent: run on its own result it changes nothing.
    After it the store has rooms, the records it found are still there, in
    front and unchanged, and the admin handle has a record. *)
Theorem initDB_idempotent (dbRooms : list DbRoom) (dbPlayers : list User) :
  initDB (initDB dbRooms dbPlayers).1 (initDB dbRooms dbPlayers).2 = initDB dbRooms dbPlayers ∧
  (initDB dbRooms dbPlayers).1 ≠ [] ∧
  dbPlayers `prefix_of` (initDB dbRooms dbPlayers).2 ∧
  ∃ i user, list_find (fun u => phone u = "0912735222") (initDB dbRooms dbPlayers).2
            = Some (i, user).
Proof.
  unfold initDB, adminPhones. cbn [foldl fst snd].
  destruct (list_find _ dbPlayers) as [[i user]|] eqn:Ef.
  - rewrite Ef. split; [by destruct dbRooms|]. split; [by destruct dbRooms|].
    split; [done|]. eauto.
  - assert (∃ i user, list_find (fun u => phone u = "0912735222")
                        (dbPlayers ++ [mkUser "0912735222" 1000 0]) = Some (i, user))
      as (i & user & E).
    { destruct (list_find _ (dbPlayers ++ _)) as [[i user]|] eqn:E; [by eauto|].
      apply list_find_None in E. rewrite Forall_app, Forall_singleton in E.
      by destruct E as [_ []]. }
    rewrite E. split; [by destruct dbRooms|]. split; [by destruct dbRooms|].
    split; [by apply prefix_app_r|]. eauto.
Qed.

(** ** Player records and withdrawal requests *)

Lemma list_find_insert_same {A : Type} (P : A → Prop) `{∀ x, Decision (P x)}
    (l : list A) (i : nat) (x y : A) :
  list_find P l = Some (i, x) → P y → list_find P (<[i := y]> l) = Some (i, y).
Proof.
  intros (Hi & Hx & Hlt)%list_find_Some Hy. apply list_find_Some. split; [|split; [done|]].
  - apply list_lookup_insert_eq. by eapply lookup_lt_Some.
  - intros j z Hj Hji. rewrite list_lookup_insert_ne in Hj by lia. by eapply Hlt.
Qed.

Lemma findUser_snoc (phone_ : string) (s : State) (user : User) :
  findUser phone_ s = None → phone user = phone_ →
  list_find (fun u => phone u = phone_) (db_players s ++ [user])
  = Some (length (db_players s), user).
Proof.
  unfold findUser. intros Hn Hu. apply list_find_Some. split; [|split; [done|]].
  - by rewrite lookup_app_r, Nat.sub_diag by lia.
  - intros j z Hj Hlt. rewrite lookup_app_l in Hj by done.
    apply list_find_None in Hn. rewrite Forall_forall in Hn. apply Hn.
    by eapply list_elem_of_lookup_2.
Qed.

(** X19: [get_player_data] finds or creates.  For a handle that is not empty,
    a record of the store with that handle is answered as it is and the store
    stays as it is; without one, a record with a balance of 1000 and no win
    is appended.  Either way the handle has a record afterwards, the rooms
    and requests are not touched, and the socket is flagged as admin exactly
    when the handle is an admin handle. *)
Theorem get_player_data_finds_or_creates (ws : nat) (phone_ : string) (d : Desk) :
  phone_ ≠ "" →
  ∃ d' user admin reqs,
    get_player_data ws phone_ d
    = (d', [(ws, DPlayerData phone_ (balance user) (wins user) admin reqs)]) ∧
    (∃ i, findUser phone_ (server d') = Some (i, user)) ∧
    (∀ i user0, findUser phone_ (server d) = Some (i, user0) →
       user = user0 ∧ db_players (server d') = db_players (server d)) ∧
    (findUser phone_ (server d) = None →
       user = mkUser phone_ 1000 0 ∧
       db_players (server d') = db_players (server d) ++ [user]) ∧
    rooms (server d') = rooms (server d) ∧ requests d' = requests d ∧
    admin = bool_decide (phone_ ∈ adminPhones) ∧
    isAdmin d' !! ws = Some admin ∧
    reqs = (if admin then requests d else []).
Proof.
  intros Hne. unfold get_player_data.
  destruct (String.eqb_spec phone_ "") as [|_]; [done|].
  destruct (findUser phone_ (server d)) as [[i user]|] eqn:Ef.
  - pose proof Ef as (_ & Hp & _)%list_find_Some. cbn in Hp.
    destruct user as [up ub uw]. cbn in Hp. subst up.
    eexists _, (mkUser phone_ ub uw), _, _. split; [reflexivity|]. cbn.
    split; [by exists i|]. split; [by intros ? ? [= <- <-]|]. split; [done|].
    do 3 (split; [done|]). split; [apply lookup_insert_eq|done].
  - eexists _, (mkUser phone_ 1000 0), _, _. split; [reflexivity|]. cbn.
    split; [eexists; by apply findUser_snoc|]. split; [done|]. split; [done|].
    do 3 (split; [done|]). split; [apply lookup_insert_eq|done].
Qed.

Lemma get_player_data_finds_or_creates_witness :
  ∃ d' user admin reqs,
    get_player_data 1 "0912735222" lobbyDesk
    = (d', [(1%nat, DPlayerData "0912735222" (balance user) (wins user) admin reqs)]) ∧
    (∃ i, findUser "0912735222" (server d') = Some (i, user)) ∧
    (∀ i user0, findUser "0912735222" (server lobbyDesk) = Some (i, user0) →
       user = user0 ∧ db_players (server d') = db_players (server lobbyDesk)) ∧
    (findUser "0912735222" (server lobbyDesk) = None →
       user = mkUser "0912735222" 1000 0 ∧
       db_players (server d') = db_players (server lobbyDesk) ++ [user]) ∧
    rooms (server d') = rooms (server lobbyDesk) ∧ requests d' = requests lobbyDesk ∧
    admin = bool_decide ("0912735222" ∈ adminPhones) ∧
    isAdmin d' !! 1%nat = Some admin ∧
    reqs = (if admin then requests lobbyDesk else []).
Proof. apply (get_player_data_finds_or_creates 1 "0912735222" lobbyDesk). discriminate. Defined.

(** X20: [request_withdrawal] only files a request.  It never changes a
    record of the store.  It is accepted exactly for a handle with a record
    and an amount above 0 and at most the balance; the pending request is
    appended then, and since the balance stays, the same request made again
    is accepted again.  Every other request is answered with a refusal and
    changes nothing. *)
Theorem request_withdrawal_only_files_a_request
    (ws : nat) (phone_ : string) (amount : Z) (newId newId' : string) (d : Desk) :
  db_players (server (request_withdrawal ws phone_ amount newId d).1) = db_players (server d) ∧
  (∀ i user, findUser phone_ (server d) = Some (i, user) → 0 < amount ≤ balance user →
     requests (request_withdrawal ws phone_ amount newId d).1
     = requests d ++ [mkRequest newId phone_ RWithdrawal amount RPending] ∧
     requests (request_withdrawal ws phone_ amount newId'
                 (request_withdrawal ws phone_ amount newId d).1).1
     = requests d ++ [mkRequest newId phone_ RWithdrawal amount RPending;
                      mkRequest newId' phone_ RWithdrawal amount RPending]) ∧
  (findUser phone_ (server d) = None ∨ amount ≤ 0 ∨
   (∃ i user, findUser phone_ (server d) = Some (i, user) ∧ balance user < amount) →
   ∃ note, request_withdrawal ws phone_ amount newId d
           = (d, [(ws, DWithdrawResponse false note None)])).
Proof.
  split; [|split].
  - unfold request_withdrawal. destruct (findUser phone_ (server d)) as [[i user]|]; [|done].
    destruct (amount <=? 0); [done|]. by destruct (balance user <? amount).
  - intros i user Hu Ha.
    assert (∀ id0 d0, findUser phone_ (server d0) = Some (i, user) →
              requests (request_withdrawal ws phone_ amount id0 d0).1
              = requests d0 ++ [mkRequest id0 phone_ RWithdrawal amount RPending] ∧
              server (request_withdrawal ws phone_ amount id0 d0).1 = server d0) as Hone.
    { intros id0 d0 Hu0. unfold request_withdrawal. rewrite Hu0.
      destruct (Z.leb_spec amount 0); [lia|].
      destruct (Z.ltb_spec (balance user) amount); [lia|]. done. }
    destruct (Hone newId d Hu) as [E1 E2]. split; [done|].
    destruct (Hone newId' (request_withdrawal ws phone_ amount newId d).1) as [E3 _];
      [by rewrite E2|].
    by rewrite E3, E1, <-app_assoc.
  - unfold request_withdrawal. intros [Hn|[Ha|(i & user & Hu & Hb)]].
    + rewrite Hn. by eexists.
    + destruct (findUser phone_ (server d)) as [[i user]|]; [|by eexists].
      destruct (Z.leb_spec amount 0); [by eexists|lia].
    + rewrite Hu. destruct (amount <=? 0); [by eexists|].
      destruct (Z.ltb_spec (balance user) amount); [by eexists|lia].
Qed.

Lemma request_withdrawal_only_files_a_request_witness :
  requests (request_withdrawal 1 "B" 5 "r1" lobbyDesk).1
  = [mkRequest "r1" "B" RWithdrawal 5 RPending] ∧
  requests (request_withdrawal 1 "B" 5 "r2" (request_withdrawal 1 "B" 5 "r1" lobbyDesk).1).1
  = [mkRequest "r1" "B" RWithdrawal 5 RPending; mkRequest "r2" "B" RWithdrawal 5 RPending].
Proof.
  destruct (request_withdrawal_only_files_a_request 1 "B" 5 "r1" "r2" lobbyDesk)
    as (_ & H & _).
  apply (H 1%nat (mkUser "B" 5 0)); [reflexivity|]. cbn. lia.
Defined.

Lemma decide_request_served (approve : bool) (ws : nat) (requestId : string) (d : Desk)
    (i : nat) (req : Request) :
  list_find (fun r => req_id r = requestId) (requests d) = Some (i, req) →
  req_type req = RWithdrawal →
  requests (decide_request approve ws requestId d).1
  = <[i := set_req_status (if approve then RApproved else RRejected) req]> (requests d) ∧
  db_players (server (decide_request approve ws requestId d).1)
  = (if approve then
       match findUser (req_phone req) (server d) with
       | Some (j, user) =>
         <[j := set_balance (balance user - req_amount req) user]> (db_players (server d))
       | None => db_players (server d)
       end
     else db_players (server d)) ∧
  isAdmin (decide_request approve ws requestId d).1 = isAdmin d.
Proof.
  intros Hf Ht. unfold decide_request. rewrite Hf, Ht. cbn.
  split; [done|]. split; [|done].
  destruct approve; [|done]. by destruct (findUser _ _) as [[j user]|].
Qed.

Lemma approvals_run (n : nat) (ws : nat) (requestId : string) (i j : nat) :
  ∀ (d : Desk) (req : Request) (user : User),
    list_find (fun r => req_id r = requestId) (requests d) = Some (i, req) →
    req_type req = RWithdrawal →
    findUser (req_phone req) (server d) = Some (j, user) →
    findUser (req_phone req)
      (server (Nat.iter n (fun d => (decide_request true ws requestId d).1) d))
    = Some (j, set_balance (balance user - Z.of_nat n * req_amount req) user).
Proof.
  induction n as [|n IH]; intros d req user Hf Ht Hu.
  - cbn [Nat.iter nat_rect]. rewrite Hu.
    replace (balance user - Z.of_nat 0 * req_amount req) with (balance user) by lia.
    by destruct user.
  - rewrite Nat.iter_succ_r.
    destruct (decide_request_served true ws requestId d i req Hf Ht) as (E1 & E2 & _).
    rewrite Hu in E2.
    pose proof Hf as (_ & Hid & _)%list_find_Some.
    pose proof Hu as (_ & Hph & _)%list_find_Some.
    pose proof (IH (decide_request true ws requestId d).1 (set_req_status RApproved req)
                  (set_balance (balance user - req_amount req) user)) as HI.
    cbn [req_phone req_amount req_type set_req_status] in HI. rewrite HI.
    + f_equal. f_equal. unfold set_balance. cbn. f_equal. lia.
    + rewrite E1. by apply (list_find_insert_same _ _ _ req).
    + done.
    + unfold findUser. rewrite E2. by apply (list_find_insert_same _ _ _ user).
Qed.

(** X21: approving a withdrawal lowers the balance without a check.  For the
    first request of a given id, if it is a withdrawal, [approve_request]
    marks it approved and takes its amount from the balance of its handle,
    whoever asks, whatever the balance and whatever the status of the request
    was; served [n] times it takes the amount [n] times.  [reject_request]
    marks the request rejected and leaves every balance as it is, also after
    an approval. *)
Theorem approve_request_takes_the_amount_every_time
    (n : nat) (ws : nat) (requestId : string) (d : Desk) (i j : nat) (req : Request)
    (user : User) :
  list_find (fun r => req_id r = requestId) (requests d) = Some (i, req) →
  req_type req = RWithdrawal →
  findUser (req_phone req) (server d) = Some (j, user) →
  requests (decide_request true ws requestId d).1
  = <[i := set_req_status RApproved req]> (requests d) ∧
  balanceOf (req_phone req) (Nat.iter n (fun d => (decide_request true ws requestId d).1) d)
  = Some (balance user - Z.of_nat n * req_amount req) ∧
  requests (decide_request false ws requestId d).1
  = <[i := set_req_status RRejected req]> (requests d) ∧
  db_players (server (decide_request false ws requestId d).1) = db_players (server d).
Proof.
  intros Hf Ht Hu.
  destruct (decide_request_served true ws requestId d i req Hf Ht) as (E1 & _).
  destruct (decide_request_served false ws requestId d i req Hf Ht) as (E2 & E3 & _).
  split; [done|]. split; [|done].
  unfold balanceOf. by rewrite (approvals_run n ws requestId i j d req user Hf Ht Hu).
Qed.

Lemma approve_request_takes_the_amount_every_time_witness :
  requests (decide_request true 1 "r1"
              (request_withdrawal 1 "B" 5 "r1" lobbyDesk).1).1
  = [mkRequest "r1" "B" RWithdrawal 5 RApproved] ∧
  balanceOf "B" (Nat.iter 3 (fun d => (decide_request true 1 "r1" d).1)
                   (request_withdrawal 1 "B" 5 "r1" lobbyDesk).1)
  = Some (-10) ∧
  requests (decide_request false 1 "r1" (request_withdrawal 1 "B" 5 "r1" lobbyDesk).1).1
  = [mkRequest "r1" "B" RWithdrawal 5 RRejected] ∧
  db_players (server (decide_request false 1 "r1"
                        (request_withdrawal 1 "B" 5 "r1" lobbyDesk).1).1)
  = [mkUser "A" 1000 0; mkUser "B" 5 0].
Proof.
  apply (approve_request_takes_the_amount_every_time 3 1 "r1"
           (request_withdrawal 1 "B" 5 "r1" lobbyDesk).1 0 1
           (mkRequest "r1" "B" RWithdrawal 5 RPending) (mkUser "B" 5 0)).
  - reflexivity.
  - reflexivity.
  - reflexivity.
Defined.

(** X22: the admin flag is a matter of the handle alone.  [get_admin_requests]
    answers a socket exactly when its flag is set, with the withdrawal
    requests of every player; and any socket gets the flag by asking for the
    player data of an admin handle. *)
Theorem admin_requests_follow_the_flag (ws : nat) (d : Desk) :
  (isAdmin d !! ws ≠ Some true → get_admin_requests ws d = []) ∧
  (isAdmin d !! ws = Some true →
     get_admin_requests ws d
     = [(ws, DRequestsData (filter (fun r => req_type r = RWithdrawal) (requests d)))]) ∧
  get_admin_requests ws (get_player_data ws "0912735222" d).1
  = [(ws, DRequestsData (filter (fun r => req_type r = RWithdrawal) (requests d)))].
Proof.
  split; [|split].
  - unfold get_admin_requests. by destruct (isAdmin d !! ws) as [[|]|].
  - unfold get_admin_requests. by intros ->.
  - unfold get_admin_requests, get_player_data. cbn.
    destruct (findUser _ (server d)) as [[i user]|]; cbn; by rewrite lookup_insert_eq.
Qed.
